(** * Shoot addon chart generation (pkg/operation/hybridbotanist/addons.go)

    A shallow embedding of the three chart generators of the hybrid botanist
    ([generateCoreAddonsChart], [generateOptionalAddonsChart] and
    [generateAdmissionControlsChart]) together with the properties the
    specification states about them.

    The generators are sequences of calls to collaborators (the botanist's
    configuration generators, the cloud botanist, the image resolver, the
    shoot cluster client and the chart renderer).  They are embedded as
    programs over an operation signature ([Prog]); a handler gives the
    collaborators a behaviour on a world state, and [run] records every call
    that is made together with its answer. *)

From stdpp Require Import gmap strings list fin_maps.
From Stdlib Require Import Strings.Byte Strings.Ascii.

Local Open Scope string_scope.
Local Open Scope list_scope.

(** ** Go values *)

(** [interface{}] values as they occur in the configuration maps of addons.go:
    strings, booleans, [[]byte] secret payloads, [[]string], [map[string]bool] feature
    gates, [map[string][]byte] secret data, generic lists and nested
    [map[string]interface{}] trees. *)
Local Unset Elimination Schemes.
Inductive Value : Type :=
| VNil
| VString (s : string)
| VBool (b : bool)
| VBytes (b : list byte)
| VStrings (l : list string)
| VBoolMap (m : gmap string bool)
| VBytesMap (m : gmap string (list byte))
| VList (l : list Value)
| VMap (m : gmap string Value).
Local Set Elimination Schemes.

(** [map[string]interface{}]; the nil map reads like the empty one. *)
Abbreviation Values := (gmap string Value).

(** Modelled from the spec: [utils.MergeMaps] (pkg/utils) is not part of the
    sources at hand.  Section 4.2: nested maps are merged recursively
    key-by-key with the later source overriding the earlier one at the
    leaves; lists and scalars are replaced wholesale; section 8: keys that
    occur in only one source are preserved.  [mergeValue existing v] is the
    value stored under a key of the override whose base entry is
    [existing]. *)
Fixpoint mergeValue (existing : option Value) (v : Value) {struct v} : Value :=
  match v, existing with
  | VMap elem, Some (VMap extMap) =>
      VMap (map_imap (fun i w => Some (mergeValue (extMap !! i) w)) elem ∪ extMap)
  | _, _ => v
  end.

(** Modelled from the spec: [MergeMaps a b], the base [a] overridden by [b]
    (section 4.2); every key of [b] is set, merged with the base's entry when
    both are maps, and the keys of [a] alone are kept. *)
Definition MergeMaps (a b : Values) : Values :=
  map_imap (fun i v => Some (mergeValue (a !! i) v)) b ∪ a.

(** ** Errors and results *)

(** A Go [error]; [apierrors.IsNotFound] recognises the API server's
    not-found status among them. *)
Inductive error :=
| NotFoundError (msg : string)
| GenericError (msg : string).

Definition IsNotFound (err : error) : bool :=
  match err with NotFoundError _ => true | GenericError _ => false end.

Definition Error (err : error) : string :=
  match err with NotFoundError msg => msg | GenericError msg => msg end.

(** The Go pair [(x, err)] of a fallible call: a collaborator that reports an
    error hands back no usable value. *)
Inductive result (A : Type) :=
| Ok (a : A)
| Err (err : error).
Arguments Ok {A} a.
Arguments Err {A} err.

(** ** Kubernetes objects *)

Record Secret := { Data : gmap string (list byte) }.

Record Deployment := {
  Namespace : string;
  Name : string;
  Labels : gmap string string }.

Record DeploymentList := { Items : list Deployment }.

Record ListOptions := { LabelSelector : string }.

Definition NamespaceSystem : string := "kube-system".
Definition SecretTypeOpaque : string := "Opaque".

(** Modelled from the spec: the renderer's output type
    ([chartrenderer.RenderedChart]) is not part of the sources at hand; a
    Rendered Bundle is an ordered list of manifest documents (section 3). *)
Record RenderedChart := { Manifests : list string }.

(** ** The shoot and the botanist *)

Record KubeProxyConfig := { FeatureGates : gmap string bool }.

Record NginxIngress := {
  Enabled : bool;
  LoadBalancerSourceRanges : list string }.

Record Addons := { Addons_NginxIngress : option NginxIngress }.

Record ShootSpec := {
  Spec_Addons : option Addons;
  Spec_Kubernetes_KubeProxy : option KubeProxyConfig }.

(** [gardenv1beta1.Shoot], the object behind [b.Shoot.Info]. *)
Record ShootInfo := {
  Info_Namespace : string;
  Info_Annotations : gmap string string;
  Spec : ShootSpec }.

Record Shoot := {
  Info : ShootInfo;
  CloudProvider : string }.

(** The receiver [b] as far as addons.go reads it.  [Secrets] maps a name to
    a secret object; a name without an entry reads as the nil pointer. *)
Record HybridBotanist := {
  Secrets : gmap string Secret;
  CheckSums : gmap string string;
  b_Shoot : Shoot;
  K8sShootClient_Version : string }.

(** Helpers and constants of other packages of the repository that addons.go
    uses and whose definitions are not part of the sources at hand. *)
Class Externals := {
  GetPodNetwork : Shoot -> string;
  GetServiceNetwork : Shoot -> string;
  GetNodeNetwork : Shoot -> string;
  NginxIngressEnabled : Shoot -> bool;
  IsUsedAsSeed : ShootInfo -> bool;
  ComputeClusterIP : string -> Z -> string;
  DefaultDomain : string;
  ChartPath : string;
  DataKeyCertificateCA : string;
  GardenRoleOpenVPNDiffieHellman : string }.

(** [filepath.Join] on two clean, non-empty elements. *)
Definition filepath_Join (dir name : string) : string := dir +:+ "/" +:+ name.

(** ** Calls to collaborators *)

(** The operations addons.go invokes, indexed by the type of their answer. *)
Inductive Op : Type -> Type :=
| GenerateClusterAutoscalerConfig : Op (result Values)
| GenerateHelmTillerConfig : Op (result Values)
| GenerateKubeLegoConfig : Op (result Values)
| GenerateKubernetesDashboardConfig : Op (result Values)
| GenerateMonocularConfig : Op (result Values)
| GenerateKube2IAMConfig : Op (result Values)
| GenerateNginxIngressConfig : Op (result Values)
| GenerateAdmissionControlConfig : Op (result Values)
| InjectImages (values : Values) (version : string) (imageMap : gmap string string)
    : Op (result Values)
| CreateSecret (namespace name secretType : string) (data : gmap string (list byte))
    (updateIfExists : bool) : Op (result Secret)
| ListDeployments (namespace : string) (opts : ListOptions) : Op (result DeploymentList)
| DeleteDeployment (namespace name : string) : Op (option error)
| Render (chartPath releaseName namespace : string) (values : Values)
    : Op (result RenderedChart).

(** A program: it returns, panics (a nil pointer is dereferenced), or calls
    a collaborator and goes on with the answer. *)
Inductive Prog (A : Type) : Type :=
| Return (a : A)
| Panic (msg : string)
| Call {X : Type} (op : Op X) (k : X -> Prog A).
Arguments Return {A} a.
Arguments Panic {A} msg.
Arguments Call {A X} op k.

Fixpoint bind {A B : Type} (p : Prog A) (f : A -> Prog B) : Prog B :=
  match p with
  | Return a => f a
  | Panic msg => Panic msg
  | Call op k => Call op (fun r => bind (k r) f)
  end.

(** [x, err := op; if err != nil { return nil, err }] *)
Definition try {X A : Type} (op : Op (result X)) (k : X -> Prog (result A))
  : Prog (result A) :=
  Call op (fun r => match r with Ok x => k x | Err err => Return (Err err) end).

(** [p.Field] on a pointer [p]. *)
Definition deref {X : Type} (p : option X) : Prog X :=
  match p with Some x => Return x | None => Panic "nil pointer dereference" end.

Declare Scope prog_scope.
Delimit Scope prog_scope with prog.
Notation "x <- p ;; k" := (bind p (fun x => k))
  (at level 100, p at next level, right associativity) : prog_scope.
Notation "x <-? op ;; k" := (try op (fun x => k))
  (at level 100, op at next level, right associativity) : prog_scope.

(** ** Running a program *)

Inductive Event :=
| Ev {X : Type} (op : Op X) (r : X).

Inductive Outcome (A : Type) :=
| Returned (a : A)
| Panicked (msg : string).
Arguments Returned {A} a.
Arguments Panicked {A} msg.

Record Run (W A : Type) := {
  outcome : Outcome A;
  final : W;
  trace : list Event }.
Arguments outcome {W A} _.
Arguments final {W A} _.
Arguments trace {W A} _.

(** The collaborators' behaviour on a world state [W]. *)
Definition Handler (W : Type) : Type := forall X : Type, Op X -> W -> X * W.

(** The run [rn] after the call [ev]. *)
Definition prepend {W A : Type} (ev : Event) (rn : Run W A) : Run W A :=
  {| outcome := outcome rn; final := final rn; trace := ev :: trace rn |}.

Fixpoint run {W A : Type} (h : Handler W) (p : Prog A) (w : W) : Run W A :=
  match p with
  | Return a => {| outcome := Returned a; final := w; trace := [] |}
  | Panic msg => {| outcome := Panicked msg; final := w; trace := [] |}
  | Call op k => prepend (Ev op (h _ op w).1) (run h (k (h _ op w).1) (h _ op w).2)
  end.

(** ** The chart generators *)

Section Generators.
Context `{Externals}.
Local Open Scope prog_scope.

(** *** generateCoreAddonsChart: the configuration literals (lines 35-76) *)

Definition global (b : HybridBotanist) : Values :=
  {[ "podNetwork" := VString (GetPodNetwork (b_Shoot b)) ]}.

Definition calicoConfig (b : HybridBotanist) : Values :=
  {[ "cloudProvider" := VString (CloudProvider (b_Shoot b)) ]}.

Definition kubeDNSConfig (b : HybridBotanist) : Values :=
  {[ "clusterDNS" := VString (ComputeClusterIP (GetServiceNetwork (b_Shoot b)) 10);
     "domain" := VString DefaultDomain ]}.

Definition kubeProxyConfig (b : HybridBotanist) (kubeProxySecret : Secret) : Values :=
  {[ "kubeconfig" := VBytes (Data kubeProxySecret !!! "kubeconfig");
     "podAnnotations" := VMap
       {[ "checksum/secret-kube-proxy" := VString (CheckSums b !!! "kube-proxy") ]} ]}.

Definition metricsServerConfig (caMetricsServer metricsServer : Secret) : Values :=
  {[ "tls" := VMap {[ "caBundle" := VBytes (Data caMetricsServer !!! DataKeyCertificateCA) ]};
     "secret" := VMap {[ "data" := VBytesMap (Data metricsServer) ]} ]}.

Definition vpnShootConfig (b : HybridBotanist) (vpnTLSAuthSecret : Secret) : Values :=
  {[ "podNetwork" := VString (GetPodNetwork (b_Shoot b));
     "serviceNetwork" := VString (GetServiceNetwork (b_Shoot b));
     "nodeNetwork" := VString (GetNodeNetwork (b_Shoot b));
     "tlsAuth" := VBytes (Data vpnTLSAuthSecret !!! "vpn.tlsauth");
     "podAnnotations" := VMap
       {[ "checksum/secret-vpn-shoot" := VString (CheckSums b !!! "vpn-shoot") ]} ]}.

Definition nodeExporterConfig : Values := ∅.

(** Lines 78-81: [kubeProxyConfig["featureGates"]] is set when the shoot
    configures the proxy. *)
Definition withFeatureGates (b : HybridBotanist) (kubeProxyConfig : Values) : Values :=
  match Spec_Kubernetes_KubeProxy (Spec (Info (b_Shoot b))) with
  | Some proxyConfig => <["featureGates" := VBoolMap (FeatureGates proxyConfig)]> kubeProxyConfig
  | None => kubeProxyConfig
  end.

(** Lines 83-85: [vpnShootConfig["diffieHellmanKey"]] is set when the bundle
    has the Diffie-Hellman secret. *)
Definition withDiffieHellmanKey (b : HybridBotanist) (vpnShootConfig : Values) : Values :=
  match Secrets b !! GardenRoleOpenVPNDiffieHellman with
  | Some openvpnDiffieHellmanSecret =>
      <["diffieHellmanKey" := VBytes (Data openvpnDiffieHellmanSecret !!! "dh2048.pem")]>
        vpnShootConfig
  | None => vpnShootConfig
  end.

(** The values handed to the renderer (lines 116-126). *)
Definition coreValues (global kubeDNS kubeProxy vpnShoot calico metricsServer nodeExporter : Values)
  : Values :=
  {[ "global" := VMap global;
     "kube-dns" := VMap kubeDNS;
     "kube-proxy" := VMap kubeProxy;
     "vpn-shoot" := VMap vpnShoot;
     "calico" := VMap calico;
     "metrics-server" := VMap metricsServer;
     "monitoring" := VMap {[ "node-exporter" := VMap nodeExporter ]} ]}.

Definition generateCoreAddonsChart (b : HybridBotanist) : Prog (result RenderedChart) :=
  let kubeProxySecret := Secrets b !! "kube-proxy" in
  let vpnShootSecret := Secrets b !! "vpn-shoot" in
  let vpnTLSAuthSecret := Secrets b !! "vpn-seed-tlsauth" in
  let global := global b in
  let calicoConfig := calicoConfig b in
  let kubeDNSConfig := kubeDNSConfig b in
  kubeProxySecret' <- deref kubeProxySecret ;;
  let kubeProxyConfig := kubeProxyConfig b kubeProxySecret' in
  caMetricsServerSecret <- deref (Secrets b !! "ca-metrics-server") ;;
  metricsServerSecret <- deref (Secrets b !! "metrics-server") ;;
  let metricsServerConfig := metricsServerConfig caMetricsServerSecret metricsServerSecret in
  vpnTLSAuthSecret' <- deref vpnTLSAuthSecret ;;
  let vpnShootConfig := vpnShootConfig b vpnTLSAuthSecret' in
  let kubeProxyConfig := withFeatureGates b kubeProxyConfig in
  let vpnShootConfig := withDiffieHellmanKey b vpnShootConfig in
  let version := K8sShootClient_Version b in
  calico <-? InjectImages calicoConfig version
    {[ "calico-node" := "calico-node"; "calico-cni" := "calico-cni";
       "calico-typha" := "calico-typha" ]} ;;
  kubeDNS <-? InjectImages kubeDNSConfig version
    {[ "kube-dns" := "kube-dns"; "kube-dns-dnsmasq" := "kube-dns-dnsmasq";
       "kube-dns-sidecar" := "kube-dns-sidecar";
       "kube-dns-autoscaler" := "cluster-proportional-autoscaler" ]} ;;
  kubeProxy <-? InjectImages kubeProxyConfig version {[ "hyperkube" := "hyperkube" ]} ;;
  metricsServer <-? InjectImages metricsServerConfig version
    {[ "metrics-server" := "metrics-server" ]} ;;
  vpnShoot <-? InjectImages vpnShootConfig version {[ "vpn-shoot" := "vpn-shoot" ]} ;;
  nodeExporter <-? InjectImages nodeExporterConfig version
    {[ "node-exporter" := "node-exporter" ]} ;;
  vpnShootSecret' <- deref vpnShootSecret ;;
  _ <-? CreateSecret NamespaceSystem "vpn-shoot" SecretTypeOpaque (Data vpnShootSecret') true ;;
  Call (Render (filepath_Join ChartPath "shoot-core") "shoot-core" NamespaceSystem
          (coreValues global kubeDNS kubeProxy vpnShoot calico metricsServer nodeExporter))
       Return.

(** *** generateOptionalAddonsChart *)

(** The override maps of lines 162-168 and 171-180. *)
Definition sourceRangesOverride (loadBalancerSourceRanges : list string) : Values :=
  {[ "controller" := VMap
     {[ "service" := VMap
        {[ "loadBalancerSourceRanges" := VStrings loadBalancerSourceRanges ]} ]} ]}.

Definition seedLimitsOverride : Values :=
  {[ "controller" := VMap
     {[ "resources" := VMap
        {[ "limits" := VMap
           {[ "cpu" := VString "500m"; "memory" := VString "1024Mi" ]} ]} ]} ]}.

(** Lines 161-182: the conditional merges into the provider's nginx-ingress
    configuration. *)
Definition mergeNginxIngressConfig (b : HybridBotanist) (nginxIngressConfig : Values)
  : Prog Values :=
  if NginxIngressEnabled (b_Shoot b) then
    addons <- deref (Spec_Addons (Spec (Info (b_Shoot b)))) ;;
    nginxIngress <- deref (Addons_NginxIngress addons) ;;
    let nginxIngressConfig :=
      MergeMaps nginxIngressConfig
        (sourceRangesOverride (LoadBalancerSourceRanges nginxIngress)) in
    if IsUsedAsSeed (Info (b_Shoot b)) then
      Return (MergeMaps nginxIngressConfig seedLimitsOverride)
    else Return nginxIngressConfig
  else Return nginxIngressConfig.

(** Lines 221-225: the loop over the listed heapster deployments; [k] is the
    rest of the function. *)
Fixpoint rangeHeapsterDeployments {A : Type} (items : list Deployment)
    (k : Prog (result A)) : Prog (result A) :=
  match items with
  | [] => k
  | deployment :: rest =>
      Call (DeleteDeployment NamespaceSystem (Name deployment))
        (fun err =>
           match err with
           | Some err =>
               if negb (IsNotFound err) then Return (Err err)
               else rangeHeapsterDeployments rest k
           | None => rangeHeapsterDeployments rest k
           end)
  end.

Definition heapsterListOptions : ListOptions :=
  {| LabelSelector := "chart=heapster-0.1.1,origin=gardener" |}.

(** The values handed to the renderer (lines 227-235). *)
Definition optionalValues (clusterAutoscalerConfig helmTiller kubeLego kube2IAM
    kubernetesDashboard monocular nginxIngress : Values) : Values :=
  {[ "cluster-autoscaler" := VMap clusterAutoscalerConfig;
     "helm-tiller" := VMap helmTiller;
     "kube-lego" := VMap kubeLego;
     "kube2iam" := VMap kube2IAM;
     "kubernetes-dashboard" := VMap kubernetesDashboard;
     "monocular" := VMap monocular;
     "nginx-ingress" := VMap nginxIngress ]}.

(** Lines 215-225: listing and deleting the legacy heapster deployments; [k]
    is the rest of the function. *)
Definition cleanupHeapster {A : Type} (k : Prog (result A)) : Prog (result A) :=
  heapsterDeployments <-? ListDeployments NamespaceSystem heapsterListOptions ;;
  rangeHeapsterDeployments (Items heapsterDeployments) k.

Definition generateOptionalAddonsChart (b : HybridBotanist) : Prog (result RenderedChart) :=
  clusterAutoscalerConfig <-? GenerateClusterAutoscalerConfig ;;
  helmTillerConfig <-? GenerateHelmTillerConfig ;;
  kubeLegoConfig <-? GenerateKubeLegoConfig ;;
  kube2IAMConfig <-? GenerateKube2IAMConfig ;;
  kubernetesDashboardConfig <-? GenerateKubernetesDashboardConfig ;;
  monocularConfig <-? GenerateMonocularConfig ;;
  nginxIngressConfig <-? GenerateNginxIngressConfig ;;
  nginxIngressConfig <- mergeNginxIngressConfig b nginxIngressConfig ;;
  let version := K8sShootClient_Version b in
  helmTiller <-? InjectImages helmTillerConfig version {[ "helm-tiller" := "helm-tiller" ]} ;;
  kubeLego <-? InjectImages kubeLegoConfig version {[ "kube-lego" := "kube-lego" ]} ;;
  kube2IAM <-? InjectImages kube2IAMConfig version {[ "kube2iam" := "kube2iam" ]} ;;
  kubernetesDashboard <-? InjectImages kubernetesDashboardConfig version
    {[ "kubernetes-dashboard" := "kubernetes-dashboard" ]} ;;
  monocular <-? InjectImages monocularConfig version
    {[ "monocular-api" := "monocular-api"; "monocular-ui" := "monocular-ui";
       "busybox" := "busybox" ]} ;;
  nginxIngress <-? InjectImages nginxIngressConfig version
    {[ "nginx-ingress-controller" := "nginx-ingress-controller";
       "ingress-default-backend" := "ingress-default-backend" ]} ;;
  cleanupHeapster
    (Call (Render (filepath_Join ChartPath "shoot-addons") "addons" NamespaceSystem
             (optionalValues clusterAutoscalerConfig helmTiller kubeLego kube2IAM
                kubernetesDashboard monocular nginxIngress))
          Return).

(** *** generateAdmissionControlsChart *)

Definition generateAdmissionControlsChart (b : HybridBotanist) : Prog (result RenderedChart) :=
  config <-? GenerateAdmissionControlConfig ;;
  Call (Render (filepath_Join ChartPath "shoot-admission-controls") "admission-controls"
          NamespaceSystem config)
       Return.

End Generators.

(** ** Observing a run *)

Definition result_error {A : Type} (r : result A) : option error :=
  match r with Ok _ => None | Err err => Some err end.

(** The error a collaborator answered with, if any. *)
Definition op_error {X : Type} (op : Op X) : X -> option error :=
  match op in Op X return X -> option error with
  | GenerateClusterAutoscalerConfig => result_error
  | GenerateHelmTillerConfig => result_error
  | GenerateKubeLegoConfig => result_error
  | GenerateKubernetesDashboardConfig => result_error
  | GenerateMonocularConfig => result_error
  | GenerateKube2IAMConfig => result_error
  | GenerateNginxIngressConfig => result_error
  | GenerateAdmissionControlConfig => result_error
  | InjectImages _ _ _ => result_error
  | CreateSecret _ _ _ _ _ => result_error
  | ListDeployments _ _ => result_error
  | DeleteDeployment _ _ => fun err => err
  | Render _ _ _ _ => result_error
  end.

Definition isDeleteDeployment {X : Type} (op : Op X) : bool :=
  match op with DeleteDeployment _ _ => true | _ => false end.

Definition isCreateSecret {X : Type} (op : Op X) : bool :=
  match op with CreateSecret _ _ _ _ _ => true | _ => false end.

Definition isRender {X : Type} (op : Op X) : bool :=
  match op with Render _ _ _ _ => true | _ => false end.

Definition isInjectImages {X : Type} (op : Op X) : bool :=
  match op with InjectImages _ _ _ => true | _ => false end.

(** The operations of the shoot cluster client; the others compose and render. *)
Definition isClientOp {X : Type} (op : Op X) : bool :=
  match op with
  | CreateSecret _ _ _ _ _ | ListDeployments _ _ | DeleteDeployment _ _ => true
  | _ => false
  end.

(** The operations of the provider dispatcher ([b.ShootCloudBotanist]). *)
Definition isDispatcherOp {X : Type} (op : Op X) : bool :=
  match op with
  | GenerateKube2IAMConfig | GenerateNginxIngressConfig | GenerateAdmissionControlConfig => true
  | _ => false
  end.

(** The errors addons.go does not swallow: every error but the not-found
    answer to a delete. *)
Definition op_fatal {X : Type} (op : Op X) (r : X) : option error :=
  match op_error op r with
  | Some err => if isDeleteDeployment op && IsNotFound err then None else Some err
  | None => None
  end.

Definition ev_error (ev : Event) : option error :=
  match ev with Ev op r => op_error op r end.

Definition ev_fatal (ev : Event) : option error :=
  match ev with Ev op r => op_fatal op r end.

Definition ev_is (f : forall X : Type, Op X -> bool) (ev : Event) : bool :=
  match ev with Ev op _ => f _ op end.

(** The name a delete call was issued for. *)
Definition ev_deleted (ev : Event) : option string :=
  match ev with
  | Ev op _ => match op with DeleteDeployment _ name => Some name | _ => None end
  end.

(** The configuration a call to the image resolver was given. *)
Definition ev_injectInput (ev : Event) : option Values :=
  match ev with
  | Ev op _ => match op with InjectImages values _ _ => Some values | _ => None end
  end.

(** A configuration together with what the image resolver made of it. *)
Definition ev_injected (ev : Event) : option (Values * Values) :=
  match ev with
  | Ev op r =>
      match op in Op X return X -> option (Values * Values) with
      | InjectImages values _ _ =>
          fun r => match r with Ok resolved => Some (values, resolved) | Err _ => None end
      | _ => fun _ => None
      end r
  end.

(** The base configuration the provider answered for nginx-ingress. *)
Definition ev_nginxBase (ev : Event) : option Values :=
  match ev with
  | Ev op r =>
      match op in Op X return X -> option Values with
      | GenerateNginxIngressConfig => fun r => match r with Ok v => Some v | Err _ => None end
      | _ => fun _ => None
      end r
  end.

(** The values a call to the renderer was given. *)
Definition ev_rendered (ev : Event) : option Values :=
  match ev with
  | Ev op _ => match op with Render _ _ _ values => Some values | _ => None end
  end.

Definition deletions (tr : list Event) : list string := omap ev_deleted tr.
Definition injectInputs (tr : list Event) : list Values := omap ev_injectInput tr.
Definition injected (tr : list Event) : list (Values * Values) := omap ev_injected tr.
Definition renderedValues (tr : list Event) : list Values := omap ev_rendered tr.

(** What a generator hands back: the chart pointer and the error. *)
Definition chart_of (o : Outcome (result RenderedChart)) : option RenderedChart :=
  match o with Returned (Ok chart) => Some chart | _ => None end.

Definition error_of (o : Outcome (result RenderedChart)) : option error :=
  match o with Returned (Err err) => Some err | _ => None end.

Definition panicked {A : Type} (o : Outcome A) : bool :=
  match o with Panicked _ => true | Returned _ => false end.

(** Every recorded answer is an answer of the handler. *)
Definition answered {W : Type} (h : Handler W) (ev : Event) : Prop :=
  match ev with Ev op r => exists w, r = (h _ op w).1 end.

(** A program that stops at the first error it does not swallow, handing
    that very error back. *)
Inductive AbortsOnError {A : Type} : Prog (result A) -> Prop :=
| AbortsOnError_Return (a : result A) : AbortsOnError (Return a)
| AbortsOnError_Panic (msg : string) : AbortsOnError (Panic msg)
| AbortsOnError_Call {X : Type} (op : Op X) (k : X -> Prog (result A)) :
    (forall r err, op_fatal op r = Some err -> k r = Return (Err err)) ->
    (forall r, AbortsOnError (k r)) ->
    AbortsOnError (Call op k).

(** A program that goes on with a further call after every error it
    swallows. *)
Inductive GoesOn {A : Type} : Prog (result A) -> Prop :=
| GoesOn_Return (a : result A) : GoesOn (Return a)
| GoesOn_Panic (msg : string) : GoesOn (Panic msg)
| GoesOn_Call {X : Type} (op : Op X) (k : X -> Prog (result A)) :
    (forall r err, op_error op r = Some err -> op_fatal op r = None ->
                   exists (Y : Type) (op' : Op Y) k', k r = Call op' k') ->
    (forall r, GoesOn (k r)) ->
    GoesOn (Call op k).

(** Collaborators whose composing and rendering operations answer the same
    whatever the state of the world (sections 4.3 and 4.5: resolver and
    renderer are deterministic). *)
Definition Deterministic {W : Type} (h : Handler W) : Prop :=
  forall (X : Type) (op : Op X) (w1 w2 : W),
    isClientOp op = false -> (h X op w1).1 = (h X op w2).1.

(** An image resolver that augments the tree it is given (section 4.3) and
    leaves the entries under [keys] as they are. *)
Definition Preserves {W : Type} (keys : list string) (h : Handler W) : Prop :=
  forall values version imageMap w resolved,
    (h _ (InjectImages values version imageMap) w).1 = Ok resolved ->
    forall key, key ∈ keys -> resolved !! key = values !! key.

(** The secrets whose data [generateCoreAddonsChart] reads without a guard. *)
Definition requiredSecrets : list string :=
  ["kube-proxy"; "ca-metrics-server"; "metrics-server"; "vpn-seed-tlsauth"; "vpn-shoot"].

(** The fields of the vpn-shoot configuration that carry the network ranges
    and the authentication key. *)
Definition vpnShootFields : list string :=
  ["podNetwork"; "serviceNetwork"; "nodeNetwork"; "tlsAuth"].

(** Two programs that cannot return different charts. *)
Inductive SameChart {A : Type} : Prog (result A) -> Prog (result A) -> Prop :=
| SameChart_Return (a : result A) : SameChart (Return a) (Return a)
| SameChart_Err_l (err : error) q : SameChart (Return (Err err)) q
| SameChart_Err_r p (err : error) : SameChart p (Return (Err err))
| SameChart_Panic_l msg q : SameChart (Panic msg) q
| SameChart_Panic_r p msg : SameChart p (Panic msg)
| SameChart_Call {X : Type} (op : Op X) k1 k2 :
    isClientOp op = false ->
    (forall r, SameChart (k1 r) (k2 r)) ->
    SameChart (Call op k1) (Call op k2)
| SameChart_Client_l {X : Type} (op : Op X) k q :
    isClientOp op = true ->
    (forall r, SameChart (k r) q) ->
    SameChart (Call op k) q
| SameChart_Client_r {X : Type} p (op : Op X) k :
    isClientOp op = true ->
    (forall r, SameChart p (k r)) ->
    SameChart p (Call op k).

(** ** The target cluster *)

(** Modelled from the spec: the Target Cluster Client is a capability the
    core consumes (sections 2 and 6) and its implementation is not part of
    the sources at hand: [apply(kind, namespace, name, body)],
    [list(kind, namespace, labelSelector)] and [delete(kind, namespace, name)]
    with a distinguishable not-found condition.  The cluster holds
    deployments with their labels, secrets, and the objects a bundle is
    delivered as, each under its name. *)
Record Cluster := {
  deployments : gmap (string * string) (gmap string string);
  secrets : gmap (string * string) (string * gmap string (list byte));
  objects : gmap (string * string * string) RenderedChart }.

Fixpoint splitOn (sep : ascii) (s : string) : list string :=
  match s with
  | EmptyString => [EmptyString]
  | String c rest =>
      if Ascii.eqb c sep then EmptyString :: splitOn sep rest
      else match splitOn sep rest with
           | hd :: tl => String c hd :: tl
           | [] => [String c EmptyString]
           end
  end.

Definition parseRequirement (s : string) : option (string * string) :=
  match splitOn "=" s with
  | [key; value] => Some (key, value)
  | _ => None
  end.

(** An equality-based label selector: [k1=v1,k2=v2]. *)
Definition parseSelector (s : string) : list (string * string) :=
  omap parseRequirement (splitOn "," s).

Definition matchesSelector (labels : gmap string string) (selector : string) : bool :=
  forallb (fun kv => bool_decide (labels !! kv.1 = Some kv.2)) (parseSelector selector).

Definition listed (namespace selector : string)
    (entry : string * string * gmap string string) : Prop :=
  entry.1.1 = namespace /\ matchesSelector entry.2 selector = true.

Definition toDeployment (entry : string * string * gmap string string) : Deployment :=
  {| Namespace := entry.1.1; Name := entry.1.2; Labels := entry.2 |}.

(** Modelled from the spec: [list(kind, namespace, labelSelector)] for
    deployments. *)
Definition listDeployments (namespace selector : string) (c : Cluster) : list Deployment :=
  toDeployment <$> map_to_list (filter (listed namespace selector) (deployments c)).

(** Modelled from the spec: [delete(kind, namespace, name)] for deployments,
    with the not-found condition for a name that is not there. *)
Definition deleteDeployment (namespace name : string) (c : Cluster) : option error * Cluster :=
  match deployments c !! (namespace, name) with
  | Some _ =>
      (None, {| deployments := delete (namespace, name) (deployments c);
                secrets := secrets c; objects := objects c |})
  | None => (Some (NotFoundError ("deployments " +:+ name +:+ " not found")), c)
  end.

(** Modelled from the spec: the client's create of a secret, which replaces
    an existing one when [updateIfExists] is set and fails on it otherwise. *)
Definition createSecret (namespace name secretType : string) (data : gmap string (list byte))
    (updateIfExists : bool) (c : Cluster) : result Secret * Cluster :=
  let stored := {| deployments := deployments c;
                   secrets := <[(namespace, name) := (secretType, data)]> (secrets c);
                   objects := objects c |} in
  match secrets c !! (namespace, name) with
  | Some _ =>
      if updateIfExists then (Ok {| Data := data |}, stored)
      else (Err (GenericError ("secrets " +:+ name +:+ " already exists")), c)
  | None => (Ok {| Data := data |}, stored)
  end.

(** Modelled from the spec: [apply(kind, namespace, name, body)] (section 6);
    the object is created or replaced under its kind, namespace and name. *)
Definition apply (kind namespace name : string) (body : RenderedChart) (c : Cluster)
  : Cluster :=
  {| deployments := deployments c; secrets := secrets c;
     objects := <[(kind, namespace, name) := body]> (objects c) |}.

(** Answers of the collaborators that do not depend on the cluster. *)
Definition Collaborators : Type := forall X : Type, Op X -> X.

(** The collaborators in front of a cluster: the client operations act on
    the cluster, the others answer as [others] says. *)
Definition clusterHandler (others : Collaborators) : Handler Cluster :=
  fun X op =>
    match op in Op X return Cluster -> X * Cluster with
    | ListDeployments namespace opts =>
        fun c => (Ok {| Items := listDeployments namespace (LabelSelector opts) c |}, c)
    | DeleteDeployment namespace name => deleteDeployment namespace name
    | CreateSecret namespace name secretType data updateIfExists =>
        createSecret namespace name secretType data updateIfExists
    | op' => fun c => (others _ op', c)
    end.

(** The cluster after the deployments [items] of the system namespace were
    deleted one after the other. *)
Definition removeDeployments (items : list Deployment) (c : Cluster) : Cluster :=
  foldl (fun c deployment => (deleteDeployment NamespaceSystem (Name deployment) c).2) c items.

(** A program advanced over its leading calls that are no client
    operations, with the answers of [others]. *)
Fixpoint skipPure (others : Collaborators) {A : Type} (p : Prog A) : Prog A :=
  match p with
  | Call op k => if isClientOp op then p else skipPure others (k (others _ op))
  | _ => p
  end.

(** Collaborators without a world of their own. *)
Definition scripted (others : Collaborators) : Handler unit :=
  fun X op w => (others X op, w).

(** ** The provider dispatcher *)

Inductive DispatcherOperation :=
| OpGenerateKube2IAMConfig
| OpGenerateNginxIngressConfig
| OpGenerateAdmissionControlConfig.

(** Modelled from the spec: the implementations of [ShootCloudBotanist] (one
    per provider) are not part of the sources at hand.  Sections 3, 4.4 and
    9: a provider is a variant with a fixed operation table; an operation is
    either implemented or, when the provider does not support it, answers
    the explicit empty configuration instead of an error. *)
Definition dispatch {Provider : Type}
    (table : Provider -> DispatcherOperation -> option (Shoot -> Values))
    (provider : Provider) (operation : DispatcherOperation) (shoot : Shoot)
  : result Values :=
  match table provider operation with
  | Some generate => Ok (generate shoot)
  | None => Ok ∅
  end.

(** Collaborators whose cloud botanist is the dispatcher for [provider]. *)
Definition withDispatcher {Provider : Type}
    (table : Provider -> DispatcherOperation -> option (Shoot -> Values))
    (provider : Provider) (shoot : Shoot) (others : Collaborators) : Collaborators :=
  fun X op =>
    match op in Op X return X with
    | GenerateKube2IAMConfig => dispatch table provider OpGenerateKube2IAMConfig shoot
    | GenerateNginxIngressConfig => dispatch table provider OpGenerateNginxIngressConfig shoot
    | GenerateAdmissionControlConfig =>
        dispatch table provider OpGenerateAdmissionControlConfig shoot
    | op' => others _ op'
    end.

(** ** Stages *)

(** The stages of a reconciliation cycle (section 4.6). *)
Inductive Stage :=
| Gathering | ComposeCore | RenderCore | ApplyCore
| ComposeOptional | Cleanup | RenderOptional | ApplyOptional
| ComposeAdmission | RenderAdmission | ApplyAdmission
| Done | Failed.

Definition stageName (stage : Stage) : string :=
  match stage with
  | Gathering => "Gathering" | ComposeCore => "ComposeCore"
  | RenderCore => "RenderCore" | ApplyCore => "ApplyCore"
  | ComposeOptional => "ComposeOptional" | Cleanup => "Cleanup"
  | RenderOptional => "RenderOptional" | ApplyOptional => "ApplyOptional"
  | ComposeAdmission => "ComposeAdmission" | RenderAdmission => "RenderAdmission"
  | ApplyAdmission => "ApplyAdmission" | Done => "Done" | Failed => "Failed"
  end.

(** An error is tagged with a stage when its message names the stage. *)
Definition taggedWith (stage : Stage) (err : error) : bool :=
  match String.index 0 (stageName stage) (Error err) with
  | Some _ => true
  | None => false
  end.

(** ** Sample inputs *)

(** Modelled from the spec: an instance of the helpers that are not part of
    the sources at hand.  The network ranges are those of the shoot, an addon
    is enabled when the specification has it with its flag set (section 3),
    and a shoot is used as seed when it is flagged so. *)
Definition sampleExternals : Externals := {|
  GetPodNetwork := fun _ => "100.96.0.0/11";
  GetServiceNetwork := fun _ => "100.64.0.0/13";
  GetNodeNetwork := fun _ => "10.250.0.0/16";
  NginxIngressEnabled := fun shoot =>
    match Spec_Addons (Spec (Info shoot)) with
    | Some addons =>
        match Addons_NginxIngress addons with
        | Some nginxIngress => Enabled nginxIngress
        | None => false
        end
    | None => false
    end;
  IsUsedAsSeed := fun info =>
    bool_decide (is_Some (Info_Annotations info !! "shoot.garden.sapcloud.io/use-as-seed"));
  ComputeClusterIP := fun _ _ => "100.64.0.10";
  DefaultDomain := "cluster.local";
  ChartPath := "charts";
  DataKeyCertificateCA := "ca.crt";
  GardenRoleOpenVPNDiffieHellman := "openvpn-diffie-hellman-key" |}.

Definition secretOf (entries : list (string * string)) : Secret :=
  {| Data := list_to_map (prod_map id String.list_byte_of_string <$> entries) |}.

(** A shoot on alicloud without flagged addons (scenario A). *)
Definition sampleShoot : Shoot := {|
  Info := {| Info_Namespace := "garden-dev"; Info_Annotations := ∅;
             Spec := {| Spec_Addons := None; Spec_Kubernetes_KubeProxy := None |} |};
  CloudProvider := "alicloud" |}.

Definition sampleSecrets : gmap string Secret :=
  {[ "kube-proxy" := secretOf [("kubeconfig", "proxy-kubeconfig")];
     "vpn-shoot" := secretOf [("ca.crt", "vpn-ca"); ("tls.crt", "vpn-crt"); ("tls.key", "vpn-key")];
     "vpn-seed-tlsauth" := secretOf [("vpn.tlsauth", "static-key")];
     "ca-metrics-server" := secretOf [("ca.crt", "metrics-ca")];
     "metrics-server" := secretOf [("metrics-server.crt", "crt"); ("metrics-server.key", "key")] ]}.

Definition sampleCheckSums : gmap string string :=
  {[ "kube-proxy" := "5f2b"; "vpn-shoot" := "a91c"; "vpn-seed-tlsauth" := "07de";
     "ca-metrics-server" := "c3c3"; "metrics-server" := "17aa" ]}.

Definition sampleBotanist : HybridBotanist := {|
  Secrets := sampleSecrets;
  CheckSums := sampleCheckSums;
  b_Shoot := sampleShoot;
  K8sShootClient_Version := "1.11.0" |}.

(** The same bundle with another metrics-server secret and its checksum. *)
Definition rotatedMetricsBotanist : HybridBotanist := {|
  Secrets := <["metrics-server" :=
                 secretOf [("metrics-server.crt", "crt2"); ("metrics-server.key", "key2")]]>
               sampleSecrets;
  CheckSums := <["metrics-server" := "99f0"]> sampleCheckSums;
  b_Shoot := sampleShoot;
  K8sShootClient_Version := "1.11.0" |}.

(** The same bundle with another kube-proxy secret and its checksum. *)
Definition rotatedProxyBotanist : HybridBotanist := {|
  Secrets := <["kube-proxy" := secretOf [("kubeconfig", "proxy-kubeconfig-2")]]> sampleSecrets;
  CheckSums := <["kube-proxy" := "e04d"]> sampleCheckSums;
  b_Shoot := sampleShoot;
  K8sShootClient_Version := "1.11.0" |}.

(** A shoot with the nginx-ingress addon enabled and no source range given. *)
Definition openIngressShoot : Shoot := {|
  Info := {| Info_Namespace := "garden-dev"; Info_Annotations := ∅;
             Spec := {| Spec_Addons := Some {| Addons_NginxIngress :=
                          Some {| Enabled := true; LoadBalancerSourceRanges := [] |} |};
                        Spec_Kubernetes_KubeProxy := None |} |};
  CloudProvider := "alicloud" |}.

Definition openIngressBotanist : HybridBotanist := {|
  Secrets := sampleSecrets;
  CheckSums := sampleCheckSums;
  b_Shoot := openIngressShoot;
  K8sShootClient_Version := "1.11.0" |}.

(** Collaborators that always succeed: the generators answer a disabled
    addon, the resolver adds the image names, the renderer one document. *)
Definition sampleCollaborators : Collaborators :=
  fun X op =>
    match op in Op X return X with
    | GenerateClusterAutoscalerConfig => Ok {[ "enabled" := VBool false ]}
    | GenerateHelmTillerConfig => Ok {[ "enabled" := VBool false ]}
    | GenerateKubeLegoConfig => Ok {[ "enabled" := VBool false ]}
    | GenerateKubernetesDashboardConfig => Ok {[ "enabled" := VBool false ]}
    | GenerateMonocularConfig => Ok {[ "enabled" := VBool false ]}
    | GenerateKube2IAMConfig => Ok {[ "enabled" := VBool false ]}
    | GenerateNginxIngressConfig => Ok {[ "enabled" := VBool true ]}
    | GenerateAdmissionControlConfig => Ok ∅
    | InjectImages values version imageMap =>
        Ok (<["images" := VMap (VString <$> imageMap)]> values)
    | CreateSecret _ _ _ data _ => Ok {| Data := data |}
    | ListDeployments _ _ => Ok {| Items := [] |}
    | DeleteDeployment _ _ => None
    | Render _ releaseName _ _ => Ok {| Manifests := [releaseName] |}
    end.

(** The answer of an operation that fails with [err]. *)
Definition failWith {X : Type} (op : Op X) (err : error) : X :=
  match op in Op X return X with
  | DeleteDeployment _ _ => Some err
  | GenerateClusterAutoscalerConfig => Err err
  | GenerateHelmTillerConfig => Err err
  | GenerateKubeLegoConfig => Err err
  | GenerateKubernetesDashboardConfig => Err err
  | GenerateMonocularConfig => Err err
  | GenerateKube2IAMConfig => Err err
  | GenerateNginxIngressConfig => Err err
  | GenerateAdmissionControlConfig => Err err
  | InjectImages _ _ _ => Err err
  | CreateSecret _ _ _ _ _ => Err err
  | ListDeployments _ _ => Err err
  | Render _ _ _ _ => Err err
  end.

(** [others], except that the operations [broken] selects fail with [err]. *)
Definition failingAt (broken : forall X : Type, Op X -> bool) (err : error)
    (others : Collaborators) : Collaborators :=
  fun X op => if broken X op then failWith op err else others X op.

(** A listing that still names a heapster deployment which is gone by the
    time it is deleted. *)
Definition staleListing : Collaborators :=
  fun X op =>
    match op in Op X return X with
    | ListDeployments _ _ =>
        Ok {| Items := [ {| Namespace := NamespaceSystem; Name := "heapster";
                            Labels := {[ "chart" := "heapster-0.1.1";
                                         "origin" := "gardener" ]} |} ] |}
    | DeleteDeployment _ name => Some (NotFoundError ("deployments " +:+ name +:+ " not found"))
    | op' => sampleCollaborators _ op'
    end.

(** A cluster with the legacy heapster deployment next to others (scenario C). *)
Definition legacyCluster : Cluster := {|
  deployments :=
    {[ (NamespaceSystem, "heapster") :=
         {[ "chart" := "heapster-0.1.1"; "origin" := "gardener" ]};
       (NamespaceSystem, "kube-dns") :=
         {[ "chart" := "kube-dns-0.1.0"; "origin" := "gardener" ]};
       ("default", "heapster") :=
         {[ "chart" := "heapster-0.1.1"; "origin" := "gardener" ]} ]};
  secrets := ∅;
  objects := ∅ |}.

Definition emptyCluster : Cluster := {| deployments := ∅; secrets := ∅; objects := ∅ |}.

(** ** Restart annotations *)

(** The value a configuration carries under [key] of its pod annotations. *)
Definition restartAnnotation (key : string) (config : Values) : option Value :=
  match config !! "podAnnotations" with
  | Some (VMap annotations) => annotations !! key
  | _ => None
  end.

(** Two bundles that are the same but for the secret [name] and its
    checksum, which changed with it (section 3, Checksum Map). *)
Definition differOnlyIn (name : string) (b1 b2 : HybridBotanist) : Prop :=
  b_Shoot b1 = b_Shoot b2
  /\ K8sShootClient_Version b1 = K8sShootClient_Version b2
  /\ (forall other, other <> name -> Secrets b1 !! other = Secrets b2 !! other)
  /\ (forall other, other <> name -> CheckSums b1 !! other = CheckSums b2 !! other)
  /\ CheckSums b1 !!! name <> CheckSums b2 !!! name.

(** Two providers for the dispatcher: one that implements every operation
    and one without a cloud-IAM bridge. *)
Inductive SampleProvider := FullProvider | PlainProvider.

Definition sampleTable (provider : SampleProvider) (operation : DispatcherOperation)
  : option (Shoot -> Values) :=
  match provider, operation with
  | PlainProvider, OpGenerateKube2IAMConfig => None
  | _, OpGenerateNginxIngressConfig =>
      Some (fun shoot =>
              {[ "enabled" := VBool (NginxIngressEnabled (Externals := sampleExternals) shoot) ]})
  | _, _ => Some (fun _ => {[ "enabled" := VBool true ]})
  end.

(** ** The calls a generator can make *)

(** The deployments a successful listing answered. *)
Definition ev_listed (ev : Event) : option (list Deployment) :=
  match ev with
  | Ev op r =>
      match op in Op X return X -> option (list Deployment) with
      | ListDeployments _ _ =>
          fun r => match r with Ok listing => Some (Items listing) | Err _ => None end
      | _ => fun _ => None
      end r
  end.

(** The chart a successful rendering answered. *)
Definition ev_chart (ev : Event) : option RenderedChart :=
  match ev with
  | Ev op r =>
      match op in Op X return X -> option RenderedChart with
      | Render _ _ _ _ => fun r => match r with Ok chart => Some chart | Err _ => None end
      | _ => fun _ => None
      end r
  end.

(** The answer of the cluster-autoscaler generator. *)
Definition ev_clusterAutoscaler (ev : Event) : option Values :=
  match ev with
  | Ev op r =>
      match op in Op X return X -> option Values with
      | GenerateClusterAutoscalerConfig =>
          fun r => match r with Ok v => Some v | Err _ => None end
      | _ => fun _ => None
      end r
  end.

Definition ev_holds (P : forall X : Type, Op X -> Prop) (ev : Event) : Prop :=
  match ev with Ev op _ => P _ op end.

(** The world after the calls of [tr], made in this order from [w]. *)
Definition worldAfter {W : Type} (h : Handler W) (tr : list Event) (w : W) : W :=
  foldl (fun w ev => match ev with Ev op _ => (h _ op w).2 end) w tr.

Definition isListDeployments {X : Type} (op : Op X) : bool :=
  match op with ListDeployments _ _ => true | _ => false end.

(** A successful call that is neither a client operation nor a rendering. *)
Definition composed (ev : Event) : Prop :=
  ev_is (@isClientOp) ev = false /\ ev_is (@isRender) ev = false /\ ev_error ev = None.

(** A call to the cluster client or to the renderer. *)
Definition clientOrRender (ev : Event) : Prop :=
  ev_is (@isClientOp) ev = true \/ ev_is (@isRender) ev = true.

(** A program all of whose calls, whatever the answers, satisfy [P]. *)
Inductive AllCalls {A : Type} (P : forall X : Type, Op X -> Prop) : Prog A -> Prop :=
| AllCalls_Return (a : A) : AllCalls P (Return a)
| AllCalls_Panic (msg : string) : AllCalls P (Panic msg)
| AllCalls_Call {X : Type} (op : Op X) (k : X -> Prog A) :
    P X op -> (forall r, AllCalls P (k r)) -> AllCalls P (Call op k).

(** A program that hands back a chart only as the answer of a rendering,
    and calls nothing after a rendering. *)
Inductive RendersLast : Prog (result RenderedChart) -> Prop :=
| RendersLast_Err (err : error) : RendersLast (Return (Err err))
| RendersLast_Panic (msg : string) : RendersLast (Panic msg)
| RendersLast_Render chartPath releaseName namespace values :
    RendersLast (Call (Render chartPath releaseName namespace values) Return)
| RendersLast_Call {X : Type} (op : Op X) (k : X -> Prog (result RenderedChart)) :
    isRender op = false -> (forall r, RendersLast (k r)) -> RendersLast (Call op k).

(** A run whose chart, if it has one, is the answer of its last call, a
    rendering; and whose renderings are followed by no call and decide what
    the run hands back. *)
Definition ChartFromRenderer {W : Type} (r : Run W (result RenderedChart)) : Prop :=
  (forall chart, outcome r = Returned (Ok chart) ->
     exists pre ev, trace r = pre ++ [ev] /\ ev_chart ev = Some chart)
  /\ (forall pre ev post,
        trace r = pre ++ ev :: post -> ev_is (@isRender) ev = true ->
        post = [] /\ chart_of (outcome r) = ev_chart ev
        /\ error_of (outcome r) = ev_error ev).

Section CallForms.
Context `{Externals}.

(** The forms of the calls in [generateCoreAddonsChart]. *)
Definition coreCalls (b : HybridBotanist) (X : Type) (op : Op X) : Prop :=
  match op with
  | InjectImages _ version _ => version = K8sShootClient_Version b
  | CreateSecret namespace name secretType data updateIfExists =>
      namespace = NamespaceSystem /\ name = "vpn-shoot" /\ secretType = SecretTypeOpaque
      /\ Some data = Data <$> Secrets b !! "vpn-shoot" /\ updateIfExists = true
  | Render chartPath releaseName namespace _ =>
      chartPath = filepath_Join ChartPath "shoot-core" /\ releaseName = "shoot-core"
      /\ namespace = NamespaceSystem
  | _ => False
  end.

(** The forms of the calls in [generateOptionalAddonsChart]. *)
Definition optionalCalls (b : HybridBotanist) (X : Type) (op : Op X) : Prop :=
  match op with
  | GenerateAdmissionControlConfig => False
  | CreateSecret _ _ _ _ _ => False
  | InjectImages _ version _ => version = K8sShootClient_Version b
  | ListDeployments namespace opts =>
      namespace = NamespaceSystem /\ opts = heapsterListOptions
  | DeleteDeployment namespace _ => namespace = NamespaceSystem
  | Render chartPath releaseName namespace _ =>
      chartPath = filepath_Join ChartPath "shoot-addons" /\ releaseName = "addons"
      /\ namespace = NamespaceSystem
  | _ => True
  end.

(** The forms of the calls in [generateAdmissionControlsChart]. *)
Definition admissionCalls (X : Type) (op : Op X) : Prop :=
  match op with
  | GenerateAdmissionControlConfig => True
  | Render chartPath releaseName namespace _ =>
      chartPath = filepath_Join ChartPath "shoot-admission-controls"
      /\ releaseName = "admission-controls" /\ namespace = NamespaceSystem
  | _ => False
  end.

End CallForms.

(** A bundle whose secrets are all present but hold no data. *)
Definition bareBotanist : HybridBotanist := {|
  Secrets := (fun _ => secretOf []) <$> sampleSecrets;
  CheckSums := sampleCheckSums;
  b_Shoot := sampleShoot;
  K8sShootClient_Version := "1.11.0" |}.

(** ** Paths into nested values *)

(** The value found by descending from [m] along the keys of [path]. *)
Fixpoint lookupPath (path : list string) (m : Values) : option Value :=
  match path with
  | [] => None
  | key :: rest =>
      match rest with
      | [] => m !! key
      | _ :: _ =>
          match m !! key with
          | Some (VMap inner) => lookupPath rest inner
          | _ => None
          end
      end
  end.

(** [override] holds nothing at [path]: somewhere along the path a key is
    missing from it, and up to there it holds maps. *)
Fixpoint untouched (path : list string) (override : Values) : Prop :=
  match path with
  | [] => True
  | key :: rest =>
      match override !! key with
      | None => True
      | Some (VMap inner) => rest <> [] /\ untouched rest inner
      | Some _ => False
      end
  end.

(** A shoot that is used as seed, with the nginx-ingress addon restricted to
    one source range. *)
Definition seedIngressBotanist : HybridBotanist := {|
  Secrets := sampleSecrets;
  CheckSums := sampleCheckSums;
  b_Shoot := {|
    Info := {| Info_Namespace := "garden-dev";
               Info_Annotations := {[ "shoot.garden.sapcloud.io/use-as-seed" := "true" ]};
               Spec := {| Spec_Addons := Some {| Addons_NginxIngress :=
                            Some {| Enabled := true;
                                    LoadBalancerSourceRanges := ["10.0.0.0/8"] |} |};
                          Spec_Kubernetes_KubeProxy := None |} |};
    CloudProvider := "alicloud" |};
  K8sShootClient_Version := "1.11.0" |}.

(** A provider's nginx-ingress configuration with settings of its own next
    to the ones the generator overrides. *)
Definition sampleNginxBase : Values :=
  {[ "enabled" := VBool true;
     "controller" := VMap
       {[ "service" := VMap {[ "type" := VString "LoadBalancer";
                               "loadBalancerSourceRanges" := VStrings [] ]};
          "resources" := VMap
            {[ "limits" := VMap {[ "cpu" := VString "100m" ]};
               "requests" := VMap {[ "cpu" := VString "50m" ]} ]} ]} ]}.

(** The sample bundle with one more secret and other checksums for the
    secrets whose checksum the core generator does not use. *)
Definition restampedBotanist : HybridBotanist := {|
  Secrets := <["etcd-server-tls" := secretOf [("tls.crt", "etcd-crt")]]> sampleSecrets;
  CheckSums := <["metrics-server" := "ffff"]> (<["vpn-seed-tlsauth" := "0000"]> sampleCheckSums);
  b_Shoot := sampleShoot;
  K8sShootClient_Version := "1.11.0" |}.

(** The configuration the provider answered for the admission controls. *)
Definition ev_admissionConfig (ev : Event) : option Values :=
  match ev with
  | Ev op r =>
      match op in Op X return X -> option Values with
      | GenerateAdmissionControlConfig =>
          fun r => match r with Ok v => Some v | Err _ => None end
      | _ => fun _ => None
      end r
  end.

(** * Properties *)

Example parseSelector_heapster :
  parseSelector (LabelSelector heapsterListOptions)
  = [("chart", "heapster-0.1.1"); ("origin", "gardener")].
Proof. reflexivity. Qed.

Example run_sample_optional :
  let r := run (clusterHandler sampleCollaborators)
               (generateOptionalAddonsChart (H := sampleExternals) sampleBotanist)
               legacyCluster in
  chart_of (outcome r) = Some {| Manifests := ["addons"] |}
  /\ deletions (trace r) = ["heapster"]
  /\ length (trace r) = 16.
Proof. vm_compute. auto. Qed.

(** ** Stopping at the first error *)

Lemma aborts_trace {A W : Type} (p : Prog (result A)) :
  AbortsOnError p ->
  forall (h : Handler W) (w : W) pre ev post err,
    trace (run h p w) = pre ++ ev :: post ->
    ev_fatal ev = Some err ->
    post = [] /\ outcome (run h p w) = Returned (Err err).
Proof.
  induction 1 as [a | msg | X op k Hstop Hk IH]; intros h w pre ev post err Htr Hev.
  - destruct pre; discriminate.
  - destruct pre; discriminate.
  - simpl in Htr |- *. destruct pre as [| ev0 pre].
    + injection Htr as <- Hpost. simpl in Hev.
      rewrite (Hstop _ _ Hev) in Hpost |- *. simpl in *. auto.
    + injection Htr as _ Hrest. eapply IH; eauto.
Qed.

Lemma AbortsOnError_try {A X : Type} (op : Op (result X)) (k : X -> Prog (result A)) :
  isDeleteDeployment op = false ->
  op_error op = result_error ->
  (forall x, AbortsOnError (k x)) ->
  AbortsOnError (try op k).
Proof.
  intros Hdel Herr Hk. unfold try. constructor.
  - intros [x | e] err; unfold op_fatal; rewrite Herr, Hdel; simpl; congruence.
  - intros [x | e]; [apply Hk | constructor].
Qed.

Lemma AbortsOnError_deref {A X : Type} (p : option X) (k : X -> Prog (result A)) :
  (forall x, AbortsOnError (k x)) ->
  AbortsOnError (bind (deref p) k).
Proof. intros Hk. destruct p; simpl; [apply Hk | constructor]. Qed.

Lemma AbortsOnError_Render chartPath releaseName namespace values :
  AbortsOnError (Call (Render chartPath releaseName namespace values) Return).
Proof.
  constructor.
  - intros [x | e] err; unfold op_fatal; simpl; congruence.
  - intros r. constructor.
Qed.

Lemma AbortsOnError_range {A : Type} items (k : Prog (result A)) :
  AbortsOnError k -> AbortsOnError (rangeHeapsterDeployments items k).
Proof.
  intros Hk. induction items as [| deployment rest IH]; simpl; [exact Hk |].
  constructor.
  - intros [e |] err; unfold op_fatal; simpl; [| congruence].
    destruct (IsNotFound e); simpl; congruence.
  - intros [e |]; [destruct (IsNotFound e); simpl |]; try apply IH. constructor.
Qed.

Ltac aborts_step :=
  first
    [ apply AbortsOnError_try; [reflexivity | reflexivity | intros ?]
    | apply AbortsOnError_deref; intros ?
    | apply AbortsOnError_range
    | apply AbortsOnError_Render
    | constructor ].

Section GeneratorsAbort.
Context `{Externals}.

Lemma generateCoreAddonsChart_aborts b : AbortsOnError (generateCoreAddonsChart b).
Proof. unfold generateCoreAddonsChart. repeat aborts_step. Qed.

Lemma mergeNginxIngressConfig_aborts {A : Type} b base (k : Values -> Prog (result A)) :
  (forall v, AbortsOnError (k v)) ->
  AbortsOnError (bind (mergeNginxIngressConfig b base) k).
Proof.
  intros Hk. unfold mergeNginxIngressConfig.
  destruct (NginxIngressEnabled _); [| apply Hk].
  destruct (Spec_Addons _) as [addons |]; simpl; [| constructor].
  destruct (Addons_NginxIngress addons); simpl; [| constructor].
  destruct (IsUsedAsSeed _); apply Hk.
Qed.

Lemma generateOptionalAddonsChart_aborts b : AbortsOnError (generateOptionalAddonsChart b).
Proof.
  unfold generateOptionalAddonsChart, cleanupHeapster.
  do 7 aborts_step. apply mergeNginxIngressConfig_aborts. intros ?.
  repeat aborts_step.
Qed.

Lemma generateAdmissionControlsChart_aborts b :
  AbortsOnError (generateAdmissionControlsChart b).
Proof. unfold generateAdmissionControlsChart. repeat aborts_step. Qed.

End GeneratorsAbort.

(** ** Stepping through a run *)

Lemma Return_inj {A : Type} (a1 a2 : A) : Return a1 = Return a2 -> a1 = a2.
Proof. intros Heq. by injection Heq. Qed.

Lemma run_try_eq {W X A : Type} (h : Handler W) (w : W) (op : Op (result X))
    (k : X -> Prog (result A)) :
  run h (try op k) w =
  match (h _ op w).1 with
  | Ok x => prepend (Ev op (Ok x)) (run h (k x) (h _ op w).2)
  | Err err => {| outcome := Returned (Err err); final := (h _ op w).2;
                  trace := [Ev op (Err err)] |}
  end.
Proof. unfold try. cbn [run]. destruct (h _ op w).1; reflexivity. Qed.

Lemma run_Call_Return {W A : Type} (h : Handler W) (w : W) (op : Op A) :
  run h (Call op Return) w =
  {| outcome := Returned (h _ op w).1; final := (h _ op w).2;
     trace := [Ev op (h _ op w).1] |}.
Proof. reflexivity. Qed.

(** One call: name the collaborator's answer and the world after it. *)
Ltac run_step x w' :=
  rewrite run_try_eq;
  match goal with
  | |- context [(?h ?X ?op ?w).1] =>
      let e := fresh "err" in
      destruct (h X op w) as [[x | e] w']; cbn [fst snd prepend outcome trace final]
  end.

Lemma trace_answered {W A : Type} (h : Handler W) (p : Prog A) (w : W) :
  Forall (answered h) (trace (run h p w)).
Proof.
  revert w. induction p as [a | msg | X op k IH]; intros w; cbn [run prepend trace].
  - constructor.
  - constructor.
  - constructor; [exists w; reflexivity | apply IH].
Qed.

Section CoreRun.
Context `{Externals} {W : Type} (h : Handler W).

(** A successful run of the core generator: the five secrets are there, six
    configurations are resolved, the vpn-shoot secret is created, and the
    renderer is called last. *)
Lemma core_run_ok (w : W) (b : HybridBotanist) (chart : RenderedChart) :
  outcome (run h (generateCoreAddonsChart b) w) = Returned (Ok chart) ->
  exists kubeProxySecret caMetricsServer metricsServer vpnTLSAuthSecret vpnShootSecret
         im1 im2 im3 im4 im5 im6
         calico kubeDNS kubeProxy metricsServer' vpnShoot nodeExporter created,
    Secrets b !! "kube-proxy" = Some kubeProxySecret
    /\ Secrets b !! "ca-metrics-server" = Some caMetricsServer
    /\ Secrets b !! "metrics-server" = Some metricsServer
    /\ Secrets b !! "vpn-seed-tlsauth" = Some vpnTLSAuthSecret
    /\ Secrets b !! "vpn-shoot" = Some vpnShootSecret
    /\ trace (run h (generateCoreAddonsChart b) w) =
       [ Ev (InjectImages (calicoConfig b) (K8sShootClient_Version b) im1) (Ok calico);
         Ev (InjectImages (kubeDNSConfig b) (K8sShootClient_Version b) im2) (Ok kubeDNS);
         Ev (InjectImages (withFeatureGates b (kubeProxyConfig b kubeProxySecret))
               (K8sShootClient_Version b) im3) (Ok kubeProxy);
         Ev (InjectImages (metricsServerConfig caMetricsServer metricsServer)
               (K8sShootClient_Version b) im4) (Ok metricsServer');
         Ev (InjectImages (withDiffieHellmanKey b (vpnShootConfig b vpnTLSAuthSecret))
               (K8sShootClient_Version b) im5) (Ok vpnShoot);
         Ev (InjectImages nodeExporterConfig (K8sShootClient_Version b) im6) (Ok nodeExporter);
         Ev (CreateSecret NamespaceSystem "vpn-shoot" SecretTypeOpaque
               (Data vpnShootSecret) true) (Ok created);
         Ev (Render (filepath_Join ChartPath "shoot-core") "shoot-core" NamespaceSystem
               (coreValues (global b) kubeDNS kubeProxy vpnShoot calico metricsServer'
                  nodeExporter)) (Ok chart) ].
Proof.
  unfold generateCoreAddonsChart.
  destruct (Secrets b !! "kube-proxy") as [kp |]; cbn [deref bind]; [| discriminate].
  destruct (Secrets b !! "ca-metrics-server") as [ca |]; cbn [deref bind]; [| discriminate].
  destruct (Secrets b !! "metrics-server") as [ms |]; cbn [deref bind]; [| discriminate].
  destruct (Secrets b !! "vpn-seed-tlsauth") as [tls |]; cbn [deref bind]; [| discriminate].
  run_step calico w1; [| discriminate].
  run_step kubeDNS w2; [| discriminate].
  run_step kubeProxy w3; [| discriminate].
  run_step metricsServer' w4; [| discriminate].
  run_step vpnShoot w5; [| discriminate].
  run_step nodeExporter w6; [| discriminate].
  destruct (Secrets b !! "vpn-shoot") as [vpn |]; cbn [deref bind]; [| discriminate].
  run_step created w7; [| discriminate].
  rewrite run_Call_Return. cbn [outcome trace].
  intros [= Hchart]. rewrite Hchart.
  do 18 eexists. repeat split; reflexivity.
Qed.

End CoreRun.

(** ** The core bundle *)

Lemma coreValues_sections global kubeDNS kubeProxy vpnShoot calico metricsServer nodeExporter :
  let values :=
    coreValues global kubeDNS kubeProxy vpnShoot calico metricsServer nodeExporter in
  values !! "kube-dns" = Some (VMap kubeDNS)
  /\ values !! "kube-proxy" = Some (VMap kubeProxy)
  /\ values !! "calico" = Some (VMap calico)
  /\ values !! "vpn-shoot" = Some (VMap vpnShoot)
  /\ values !! "metrics-server" = Some (VMap metricsServer)
  /\ values !! "monitoring" = Some (VMap {[ "node-exporter" := VMap nodeExporter ]}).
Proof. unfold coreValues. cbv zeta. repeat split; by simplify_map_eq. Qed.

Section CoreBundle.
Context `{Externals} {W : Type} (h : Handler W).

Lemma vpnShootConfig_fields b vpnTLSAuthSecret :
  let config := withDiffieHellmanKey b (vpnShootConfig b vpnTLSAuthSecret) in
  config !! "podNetwork" = Some (VString (GetPodNetwork (b_Shoot b)))
  /\ config !! "serviceNetwork" = Some (VString (GetServiceNetwork (b_Shoot b)))
  /\ config !! "nodeNetwork" = Some (VString (GetNodeNetwork (b_Shoot b)))
  /\ config !! "tlsAuth" = Some (VBytes (Data vpnTLSAuthSecret !!! "vpn.tlsauth")).
Proof.
  unfold withDiffieHellmanKey, vpnShootConfig. cbv zeta.
  destruct (Secrets b !! GardenRoleOpenVPNDiffieHellman); repeat split; by simplify_map_eq.
Qed.

(** C3: when the core bundle is rendered, the values handed to the renderer
    have the sections kube-dns, kube-proxy, calico, vpn-shoot, metrics-server
    and monitoring/node-exporter, each the image-resolved form of the
    configuration composed for it; with a resolver that leaves the vpn-shoot
    fields alone, the vpn-shoot section holds the pod, service and node
    network ranges of the shoot and, under tlsAuth, the vpn.tlsauth entry of
    the vpn-seed-tlsauth secret. *)
Theorem core_bundle_sections (w : W) (b : HybridBotanist) (chart : RenderedChart) :
  Preserves vpnShootFields h ->
  outcome (run h (generateCoreAddonsChart b) w) = Returned (Ok chart) ->
  exists values kubeDNS kubeProxy calico vpnShoot metricsServer nodeExporter
         kubeProxySecret caMetricsServer metricsServerSecret vpnTLSAuthSecret,
    renderedValues (trace (run h (generateCoreAddonsChart b) w)) = [values]
    /\ values !! "kube-dns" = Some (VMap kubeDNS)
    /\ values !! "kube-proxy" = Some (VMap kubeProxy)
    /\ values !! "calico" = Some (VMap calico)
    /\ values !! "vpn-shoot" = Some (VMap vpnShoot)
    /\ values !! "metrics-server" = Some (VMap metricsServer)
    /\ values !! "monitoring" = Some (VMap {[ "node-exporter" := VMap nodeExporter ]})
    /\ Secrets b !! "kube-proxy" = Some kubeProxySecret
    /\ Secrets b !! "ca-metrics-server" = Some caMetricsServer
    /\ Secrets b !! "metrics-server" = Some metricsServerSecret
    /\ Secrets b !! "vpn-seed-tlsauth" = Some vpnTLSAuthSecret
    /\ injected (trace (run h (generateCoreAddonsChart b) w)) =
       [ (calicoConfig b, calico);
         (kubeDNSConfig b, kubeDNS);
         (withFeatureGates b (kubeProxyConfig b kubeProxySecret), kubeProxy);
         (metricsServerConfig caMetricsServer metricsServerSecret, metricsServer);
         (withDiffieHellmanKey b (vpnShootConfig b vpnTLSAuthSecret), vpnShoot);
         (nodeExporterConfig, nodeExporter) ]
    /\ vpnShoot !! "podNetwork" = Some (VString (GetPodNetwork (b_Shoot b)))
    /\ vpnShoot !! "serviceNetwork" = Some (VString (GetServiceNetwork (b_Shoot b)))
    /\ vpnShoot !! "nodeNetwork" = Some (VString (GetNodeNetwork (b_Shoot b)))
    /\ vpnShoot !! "tlsAuth" = Some (VBytes (Data vpnTLSAuthSecret !!! "vpn.tlsauth"))
    /\ forall key, Data vpnTLSAuthSecret !! "vpn.tlsauth" = Some key ->
                   vpnShoot !! "tlsAuth" = Some (VBytes key).
Proof.
  intros Hkeep Hok.
  pose proof (trace_answered h (generateCoreAddonsChart b) w) as Hans.
  destruct (core_run_ok h w b chart Hok)
    as (kp & ca & ms & tls & vpn & im1 & im2 & im3 & im4 & im5 & im6 & calico & kubeDNS
        & kubeProxy & ms' & vpnShoot & nodeExporter & created
        & Hkp & Hca & Hms & Htls & Hvpn & Htr).
  rewrite Htr in Hans |- *.
  assert (Hres : forall key, key ∈ vpnShootFields ->
            vpnShoot !! key = withDiffieHellmanKey b (vpnShootConfig b tls) !! key).
  { do 4 apply Forall_cons_1 in Hans as [_ Hans]. apply Forall_cons_1 in Hans as [[w5 Hw5] _].
    intros key Hkey. eapply Hkeep; eauto. }
  destruct (vpnShootConfig_fields b tls) as (Hpod & Hsvc & Hnode & Hauth).
  destruct (coreValues_sections (global b) kubeDNS kubeProxy vpnShoot calico ms' nodeExporter)
    as (S1 & S2 & S3 & S4 & S5 & S6).
  assert (Htls' : vpnShoot !! "tlsAuth" = Some (VBytes (Data tls !!! "vpn.tlsauth"))).
  { rewrite Hres, Hauth; [done | unfold vpnShootFields; set_solver]. }
  exists (coreValues (global b) kubeDNS kubeProxy vpnShoot calico ms' nodeExporter),
    kubeDNS, kubeProxy, calico, vpnShoot, ms', nodeExporter, kp, ca, ms, tls.
  split; [reflexivity |].
  do 6 (split; [assumption |]).
  do 4 (split; [assumption |]).
  split; [reflexivity |].
  split; [rewrite Hres, Hpod; [done | unfold vpnShootFields; set_solver] |].
  split; [rewrite Hres, Hsvc; [done | unfold vpnShootFields; set_solver] |].
  split; [rewrite Hres, Hnode; [done | unfold vpnShootFields; set_solver] |].
  split; [exact Htls' |].
  intros key Hkey. rewrite Htls'. by rewrite (lookup_total_correct _ _ _ Hkey).
Qed.

End CoreBundle.

Lemma sampleCollaborators_preserves :
  Preserves vpnShootFields (clusterHandler sampleCollaborators).
Proof.
  intros values version imageMap w resolved Hanswer key Hkey.
  cbn in Hanswer. injection Hanswer as <-.
  apply lookup_insert_ne. intros <-. revert Hkey. unfold vpnShootFields.
  rewrite !elem_of_cons, elem_of_nil. intros [| [| [| [|]]]]; done.
Qed.

Lemma core_bundle_sections_witness :
  Preserves vpnShootFields (clusterHandler sampleCollaborators)
  /\ outcome (run (clusterHandler sampleCollaborators)
                (generateCoreAddonsChart (H := sampleExternals) sampleBotanist) emptyCluster)
     = Returned (Ok {| Manifests := ["shoot-core"] |})
  /\ exists values vpnShoot,
       renderedValues (trace (run (clusterHandler sampleCollaborators)
                                (generateCoreAddonsChart (H := sampleExternals) sampleBotanist)
                                emptyCluster)) = [values]
       /\ values !! "vpn-shoot" = Some (VMap vpnShoot)
       /\ vpnShoot !! "podNetwork" = Some (VString "100.96.0.0/11")
       /\ vpnShoot !! "tlsAuth" = Some (VBytes (String.list_byte_of_string "static-key")).
Proof.
  split; [exact sampleCollaborators_preserves |].
  split; [vm_compute; reflexivity |].
  destruct (core_bundle_sections (H := sampleExternals) (clusterHandler sampleCollaborators)
              emptyCluster sampleBotanist {| Manifests := ["shoot-core"] |}
              sampleCollaborators_preserves ltac:(vm_compute; reflexivity))
    as (values & kubeDNS & kubeProxy & calico & vpnShoot & metricsServer & nodeExporter
        & kp & ca & ms & tls & Hvalues & _ & _ & _ & Hvpn & _ & _ & _ & _ & _ & Htls & _
        & Hpod & _ & _ & Hauth & Hkey).
  exists values, vpnShoot. split; [exact Hvalues |]. split; [exact Hvpn |].
  split; [exact Hpod |].
  apply Hkey. vm_compute in Htls. injection Htls as <-. vm_compute. reflexivity.
Defined.

(** ** The vpn-shoot secret *)

Lemma ev_fatal_not_delete (ev : Event) :
  ev_is (@isDeleteDeployment) ev = false -> ev_fatal ev = ev_error ev.
Proof.
  destruct ev as [X op r]. cbn [ev_is ev_fatal ev_error]. intros Hop.
  unfold op_fatal. rewrite Hop. by destruct (op_error op r).
Qed.

Lemma isCreateSecret_not_delete (ev : Event) :
  ev_is (@isCreateSecret) ev = true -> ev_is (@isDeleteDeployment) ev = false.
Proof. destruct ev as [X op r]. by destruct op. Qed.

Section VpnShootSecret.
Context `{Externals} {W : Type} (h : Handler W).

(** C9: a run of the core generator that returns a chart has, right before
    the call of the renderer and after nothing but image resolution, created
    (or updated) the Opaque secret vpn-shoot in kube-system from the data of
    the vpn-shoot secret; and a create that fails is the last call of the run,
    which returns the create's error and no chart. *)
Theorem core_chart_creates_vpn_shoot_secret (w : W) (b : HybridBotanist) :
  let r := run h (generateCoreAddonsChart b) w in
  (forall chart, outcome r = Returned (Ok chart) ->
     exists vpnShootSecret pre created values,
       Secrets b !! "vpn-shoot" = Some vpnShootSecret
       /\ trace r = pre ++
            [ Ev (CreateSecret NamespaceSystem "vpn-shoot" SecretTypeOpaque
                    (Data vpnShootSecret) true) (Ok created);
              Ev (Render (filepath_Join ChartPath "shoot-core") "shoot-core"
                    NamespaceSystem values) (Ok chart) ]
       /\ Forall (fun ev => ev_is (@isInjectImages) ev = true) pre)
  /\ (forall pre ev post err,
        trace r = pre ++ ev :: post ->
        ev_is (@isCreateSecret) ev = true ->
        ev_error ev = Some err ->
        post = [] /\ error_of (outcome r) = Some err /\ chart_of (outcome r) = None).
Proof.
  cbv zeta. split.
  - intros chart Hok.
    destruct (core_run_ok h w b chart Hok)
      as (kp & ca & ms & tls & vpn & im1 & im2 & im3 & im4 & im5 & im6 & calico & kubeDNS
          & kubeProxy & ms' & vpnShoot & nodeExporter & created
          & Hkp & Hca & Hms & Htls & Hvpn & Htr).
    exists vpn. eexists (take 6 (trace (run h (generateCoreAddonsChart b) w))), created, _.
    split; [exact Hvpn |]. rewrite Htr. split; [reflexivity |].
    cbn [take]. repeat constructor.
  - intros pre ev post err Htr Hcreate Herr.
    rewrite <- (ev_fatal_not_delete ev (isCreateSecret_not_delete ev Hcreate)) in Herr.
    destruct (aborts_trace _ (generateCoreAddonsChart_aborts b) h w pre ev post err Htr Herr)
      as [Hpost Hout].
    rewrite Hout. auto.
Qed.

End VpnShootSecret.

Lemma core_chart_creates_vpn_shoot_secret_witness :
  let r := run (clusterHandler sampleCollaborators)
             (generateCoreAddonsChart (H := sampleExternals) sampleBotanist) emptyCluster in
  outcome r = Returned (Ok {| Manifests := ["shoot-core"] |})
  /\ exists vpnShootSecret pre created values,
       Secrets sampleBotanist !! "vpn-shoot" = Some vpnShootSecret
       /\ trace r = pre ++
            [ Ev (CreateSecret NamespaceSystem "vpn-shoot" SecretTypeOpaque
                    (Data vpnShootSecret) true) (Ok created);
              Ev (Render (filepath_Join (ChartPath (Externals := sampleExternals)) "shoot-core")
                    "shoot-core" NamespaceSystem values)
                 (Ok {| Manifests := ["shoot-core"] |}) ]
       /\ Forall (fun ev => ev_is (@isInjectImages) ev = true) pre.
Proof.
  cbv zeta. split; [vm_compute; reflexivity |].
  apply (proj1 (core_chart_creates_vpn_shoot_secret (H := sampleExternals)
                  (clusterHandler sampleCollaborators) emptyCluster sampleBotanist)).
  vm_compute. reflexivity.
Defined.

(** ** The secrets the core generator presupposes *)

Lemma scripted_answer (others : Collaborators) {X : Type} (op : Op X) (w : unit) :
  scripted others X op w = (others X op, w).
Proof. reflexivity. Qed.

Section RequiredSecrets.
Context `{Externals}.

(** C10: the core generator never dereferences a missing secret, whatever
    its collaborators answer, exactly when the bundle has the secrets
    kube-proxy, ca-metrics-server, metrics-server, vpn-seed-tlsauth and
    vpn-shoot; neither the Diffie-Hellman secret nor the proxy feature gates
    are needed for that. *)
Theorem core_chart_requires_secrets (b : HybridBotanist) :
  (forall name, name ∈ requiredSecrets -> is_Some (Secrets b !! name))
  <->
  (forall (W : Type) (h : Handler W) (w : W),
     panicked (outcome (run h (generateCoreAddonsChart b) w)) = false).
Proof.
  split.
  - intros Hpresent W h w.
    assert (Hin : forall name, name ∈ requiredSecrets -> is_Some (Secrets b !! name))
      by exact Hpresent.
    unfold requiredSecrets in Hin.
    destruct (Hin "kube-proxy") as [kp Hkp]; [set_solver |].
    destruct (Hin "ca-metrics-server") as [ca Hca]; [set_solver |].
    destruct (Hin "metrics-server") as [ms Hms]; [set_solver |].
    destruct (Hin "vpn-seed-tlsauth") as [tls Htls]; [set_solver |].
    destruct (Hin "vpn-shoot") as [vpn Hvpn]; [set_solver |].
    unfold generateCoreAddonsChart. rewrite Hkp, Hca, Hms, Htls, Hvpn. cbn [deref bind].
    run_step calico w1; [| reflexivity].
    run_step kubeDNS w2; [| reflexivity].
    run_step kubeProxy w3; [| reflexivity].
    run_step metricsServer' w4; [| reflexivity].
    run_step vpnShoot w5; [| reflexivity].
    run_step nodeExporter w6; [| reflexivity].
    cbn [deref bind].
    run_step created w7; [| reflexivity].
    reflexivity.
  - intros Hsafe. specialize (Hsafe unit (scripted sampleCollaborators) tt).
    unfold generateCoreAddonsChart in Hsafe.
    destruct (Secrets b !! "kube-proxy") as [kp |] eqn:Hkp;
      cbn [deref bind] in Hsafe; [| discriminate].
    destruct (Secrets b !! "ca-metrics-server") as [ca |] eqn:Hca;
      cbn [deref bind] in Hsafe; [| discriminate].
    destruct (Secrets b !! "metrics-server") as [ms |] eqn:Hms;
      cbn [deref bind] in Hsafe; [| discriminate].
    destruct (Secrets b !! "vpn-seed-tlsauth") as [tls |] eqn:Htls;
      cbn [deref bind] in Hsafe; [| discriminate].
    do 6 (rewrite run_try_eq, scripted_answer in Hsafe;
          cbn [sampleCollaborators fst snd prepend outcome] in Hsafe).
    destruct (Secrets b !! "vpn-shoot") as [vpn |] eqn:Hvpn;
      cbn [deref bind] in Hsafe; [| discriminate].
    intros name. unfold requiredSecrets. rewrite !elem_of_cons, elem_of_nil.
    intros [-> | [-> | [-> | [-> | [-> | []]]]]]; eauto.
Qed.

End RequiredSecrets.

Lemma core_chart_requires_secrets_witness :
  (forall name, name ∈ requiredSecrets -> is_Some (Secrets sampleBotanist !! name))
  /\ (forall (W : Type) (h : Handler W) (w : W),
        panicked (outcome (run h (generateCoreAddonsChart (H := sampleExternals)
                                    sampleBotanist) w)) = false).
Proof.
  assert (Hpresent : forall name, name ∈ requiredSecrets ->
                                  is_Some (Secrets sampleBotanist !! name)).
  { intros name. unfold requiredSecrets. rewrite !elem_of_cons, elem_of_nil.
    intros [-> | [-> | [-> | [-> | [-> | []]]]]]; vm_compute; eauto. }
  split; [exact Hpresent |].
  exact (proj1 (core_chart_requires_secrets (H := sampleExternals) sampleBotanist) Hpresent).
Defined.

(** ** Errors of the stages *)

Section StageErrors.
Context `{Externals} {W : Type} (h : Handler W).

(** C2, amended: in each of the three generators, a call that answers with
    an error other than the not-found answer to a delete is the last call of
    the run, and the run hands back exactly that error, as it was answered,
    and no chart. *)
Theorem stage_error_aborts (w : W) (b : HybridBotanist)
    (generate : HybridBotanist -> Prog (result RenderedChart)) pre ev post err :
  generate ∈ [generateCoreAddonsChart; generateOptionalAddonsChart;
              generateAdmissionControlsChart] ->
  trace (run h (generate b) w) = pre ++ ev :: post ->
  ev_fatal ev = Some err ->
  post = []
  /\ error_of (outcome (run h (generate b) w)) = Some err
  /\ chart_of (outcome (run h (generate b) w)) = None.
Proof.
  intros Hgen Htr Hev.
  assert (Hstop : AbortsOnError (generate b)).
  { revert Hgen. rewrite !elem_of_cons, elem_of_nil. intros [-> | [-> | [-> | []]]].
    - apply generateCoreAddonsChart_aborts.
    - apply generateOptionalAddonsChart_aborts.
    - apply generateAdmissionControlsChart_aborts. }
  destruct (aborts_trace _ Hstop h w pre ev post err Htr Hev) as [Hpost Hout].
  rewrite Hout. auto.
Qed.

End StageErrors.

Lemma stage_error_aborts_witness :
  let h := scripted (failingAt (@isRender) (GenericError "render failed") sampleCollaborators) in
  let generate := generateAdmissionControlsChart (H := sampleExternals) in
  let pre := [Ev GenerateAdmissionControlConfig (Ok ∅)] in
  let ev := Ev (Render "charts/shoot-admission-controls" "admission-controls" "kube-system" ∅)
               (Err (GenericError "render failed")) in
  generate ∈ [generateCoreAddonsChart (H := sampleExternals);
              generateOptionalAddonsChart (H := sampleExternals);
              generateAdmissionControlsChart (H := sampleExternals)]
  /\ trace (run h (generate sampleBotanist) tt) = pre ++ ev :: []
  /\ ev_fatal ev = Some (GenericError "render failed")
  /\ error_of (outcome (run h (generate sampleBotanist) tt)) = Some (GenericError "render failed")
  /\ chart_of (outcome (run h (generate sampleBotanist) tt)) = None.
Proof.
  cbv zeta.
  assert (Hgen : generateAdmissionControlsChart (H := sampleExternals)
                 ∈ [generateCoreAddonsChart (H := sampleExternals);
                    generateOptionalAddonsChart (H := sampleExternals);
                    generateAdmissionControlsChart (H := sampleExternals)]).
  { rewrite !elem_of_cons. auto. }
  split; [exact Hgen |]. split; [reflexivity |]. split; [reflexivity |].
  exact (proj2 (stage_error_aborts (H := sampleExternals)
                  (scripted (failingAt (@isRender) (GenericError "render failed")
                               sampleCollaborators))
                  tt sampleBotanist _
                  [Ev GenerateAdmissionControlConfig (Ok ∅)]
                  (Ev (Render "charts/shoot-admission-controls" "admission-controls"
                         "kube-system" ∅) (Err (GenericError "render failed")))
                  [] (GenericError "render failed")
                  Hgen eq_refl eq_refl)).
Defined.

(** C2 as stated fails: the error a generator hands back is the
    collaborator's error as it is, and names no stage; and the not-found
    answer to a delete is an error after which the generator goes on to
    render and hands back a chart. *)
Lemma stage_error_untagged_or_swallowed :
  (let r := run (scripted (failingAt (@isRender) (GenericError "render failed")
                             sampleCollaborators))
                (generateAdmissionControlsChart (H := sampleExternals) sampleBotanist) tt in
   error_of (outcome r) = Some (GenericError "render failed")
   /\ forall stage, taggedWith stage (GenericError "render failed") = false)
  /\ (let r := run (scripted staleListing)
                   (generateOptionalAddonsChart (H := sampleExternals) sampleBotanist) tt in
      ev_error <$> drop 14 (trace r)
        = [Some (NotFoundError "deployments heapster not found"); None]
      /\ ev_is (@isRender) <$> drop 14 (trace r) = [false; true]
      /\ chart_of (outcome r) = Some {| Manifests := ["addons"] |}
      /\ error_of (outcome r) = None).
Proof.
  cbv zeta. split.
  - split; [reflexivity |]. intros []; reflexivity.
  - vm_compute. auto.
Qed.

(** ** Checksums in the pod annotations *)

Lemma lookup_total_eq {A : Type} `{Inhabited A} (m1 m2 : gmap string A) (key : string) :
  m1 !! key = m2 !! key -> m1 !!! key = m2 !!! key.
Proof. intros Heq. unfold lookup_total, map_lookup_total. by rewrite Heq. Qed.

Section ChecksumPropagation.
Context `{Externals}.

Lemma kubeProxy_annotation b kubeProxySecret :
  restartAnnotation "checksum/secret-kube-proxy"
    (withFeatureGates b (kubeProxyConfig b kubeProxySecret))
  = Some (VString (CheckSums b !!! "kube-proxy")).
Proof.
  unfold restartAnnotation, withFeatureGates, kubeProxyConfig.
  destruct (Spec_Kubernetes_KubeProxy _); by simplify_map_eq.
Qed.

Lemma vpnShoot_annotation b vpnTLSAuthSecret :
  restartAnnotation "checksum/secret-vpn-shoot"
    (withDiffieHellmanKey b (vpnShootConfig b vpnTLSAuthSecret))
  = Some (VString (CheckSums b !!! "vpn-shoot")).
Proof.
  unfold restartAnnotation, withDiffieHellmanKey, vpnShootConfig.
  destruct (Secrets b !! GardenRoleOpenVPNDiffieHellman); by simplify_map_eq.
Qed.

Lemma core_injectInputs {W : Type} (h : Handler W) w b chart :
  outcome (run h (generateCoreAddonsChart b) w) = Returned (Ok chart) ->
  exists kubeProxySecret caMetricsServer metricsServer vpnTLSAuthSecret,
    Secrets b !! "kube-proxy" = Some kubeProxySecret
    /\ Secrets b !! "ca-metrics-server" = Some caMetricsServer
    /\ Secrets b !! "metrics-server" = Some metricsServer
    /\ Secrets b !! "vpn-seed-tlsauth" = Some vpnTLSAuthSecret
    /\ injectInputs (trace (run h (generateCoreAddonsChart b) w)) =
       [ calicoConfig b; kubeDNSConfig b;
         withFeatureGates b (kubeProxyConfig b kubeProxySecret);
         metricsServerConfig caMetricsServer metricsServer;
         withDiffieHellmanKey b (vpnShootConfig b vpnTLSAuthSecret);
         nodeExporterConfig ].
Proof.
  intros Hok.
  destruct (core_run_ok h w b chart Hok)
    as (kp & ca & ms & tls & vpn & im1 & im2 & im3 & im4 & im5 & im6 & calico & kubeDNS
        & kubeProxy & ms' & vpnShoot & nodeExporter & created
        & Hkp & Hca & Hms & Htls & Hvpn & Htr).
  exists kp, ca, ms, tls. rewrite Htr. auto.
Qed.

(** C6, amended: the kube-proxy and the vpn-shoot configuration carry the
    checksum of the secret of their name in their pod annotations
    (checksum/secret-kube-proxy, checksum/secret-vpn-shoot).  For two runs
    on bundles that differ only in one of these two secrets and its checksum,
    the configurations composed for calico, kube-dns, metrics-server and
    the node exporter are the same; when the secret is kube-proxy the
    kube-proxy annotation differs and the vpn-shoot configuration is the
    same, and when it is vpn-shoot the vpn-shoot annotation differs and the
    kube-proxy configuration is the same. *)
Theorem checksum_propagation {W1 W2 : Type} (h1 : Handler W1) (h2 : Handler W2) w1 w2
    (b1 b2 : HybridBotanist) (name : string) chart1 chart2 :
  name ∈ ["kube-proxy"; "vpn-shoot"] ->
  GardenRoleOpenVPNDiffieHellman <> "kube-proxy" ->
  differOnlyIn name b1 b2 ->
  outcome (run h1 (generateCoreAddonsChart b1) w1) = Returned (Ok chart1) ->
  outcome (run h2 (generateCoreAddonsChart b2) w2) = Returned (Ok chart2) ->
  exists calico kubeDNS metricsServer nodeExporter kubeProxy1 kubeProxy2 vpnShoot1 vpnShoot2,
    injectInputs (trace (run h1 (generateCoreAddonsChart b1) w1))
      = [calico; kubeDNS; kubeProxy1; metricsServer; vpnShoot1; nodeExporter]
    /\ injectInputs (trace (run h2 (generateCoreAddonsChart b2) w2))
      = [calico; kubeDNS; kubeProxy2; metricsServer; vpnShoot2; nodeExporter]
    /\ restartAnnotation "checksum/secret-kube-proxy" kubeProxy1
       = Some (VString (CheckSums b1 !!! "kube-proxy"))
    /\ restartAnnotation "checksum/secret-kube-proxy" kubeProxy2
       = Some (VString (CheckSums b2 !!! "kube-proxy"))
    /\ restartAnnotation "checksum/secret-vpn-shoot" vpnShoot1
       = Some (VString (CheckSums b1 !!! "vpn-shoot"))
    /\ restartAnnotation "checksum/secret-vpn-shoot" vpnShoot2
       = Some (VString (CheckSums b2 !!! "vpn-shoot"))
    /\ (name = "kube-proxy" ->
        restartAnnotation "checksum/secret-kube-proxy" kubeProxy1
          <> restartAnnotation "checksum/secret-kube-proxy" kubeProxy2
        /\ vpnShoot1 = vpnShoot2)
    /\ (name = "vpn-shoot" ->
        restartAnnotation "checksum/secret-vpn-shoot" vpnShoot1
          <> restartAnnotation "checksum/secret-vpn-shoot" vpnShoot2
        /\ kubeProxy1 = kubeProxy2).
Proof.
  intros Hname Hdh (Hshoot & Hversion & Hsecrets & Hsums & Hsum) Hok1 Hok2.
  destruct (core_injectInputs h1 w1 b1 chart1 Hok1)
    as (kp1 & ca1 & ms1 & tls1 & Hkp1 & Hca1 & Hms1 & Htls1 & Hin1).
  destruct (core_injectInputs h2 w2 b2 chart2 Hok2)
    as (kp2 & ca2 & ms2 & tls2 & Hkp2 & Hca2 & Hms2 & Htls2 & Hin2).
  assert (Hother : forall other, other <> "kube-proxy" -> other <> "vpn-shoot" ->
                                 Secrets b1 !! other = Secrets b2 !! other).
  { intros other Hn1 Hn2. apply Hsecrets. revert Hname.
    rewrite !elem_of_cons, elem_of_nil. intros [-> | [-> | []]]; done. }
  assert (ca1 = ca2) as <- by (rewrite Hother in Hca1 by done; congruence).
  assert (ms1 = ms2) as <- by (rewrite Hother in Hms1 by done; congruence).
  assert (tls1 = tls2) as <- by (rewrite Hother in Htls1 by done; congruence).
  exists (calicoConfig b1), (kubeDNSConfig b1), (metricsServerConfig ca1 ms1),
    nodeExporterConfig,
    (withFeatureGates b1 (kubeProxyConfig b1 kp1)),
    (withFeatureGates b2 (kubeProxyConfig b2 kp2)),
    (withDiffieHellmanKey b1 (vpnShootConfig b1 tls1)),
    (withDiffieHellmanKey b2 (vpnShootConfig b2 tls1)).
  split; [exact Hin1 |].
  split; [rewrite Hin2; unfold calicoConfig, kubeDNSConfig; by rewrite Hshoot |].
  rewrite !kubeProxy_annotation, !vpnShoot_annotation.
  do 4 (split; [reflexivity |]).
  split.
  - intros ->. split; [congruence |].
    unfold withDiffieHellmanKey, vpnShootConfig.
    rewrite Hshoot, (Hsecrets GardenRoleOpenVPNDiffieHellman Hdh).
    by rewrite (lookup_total_eq (CheckSums b1) (CheckSums b2) "vpn-shoot")
      by (by apply Hsums).
  - intros ->. split; [congruence |].
    assert (kp1 = kp2) as <- by (rewrite Hsecrets in Hkp1 by done; congruence).
    unfold withFeatureGates, kubeProxyConfig.
    rewrite Hshoot.
    by rewrite (lookup_total_eq (CheckSums b1) (CheckSums b2) "kube-proxy")
      by (by apply Hsums).
Qed.

End ChecksumPropagation.

Lemma rotatedProxy_differs : differOnlyIn "kube-proxy" sampleBotanist rotatedProxyBotanist.
Proof.
  unfold differOnlyIn. split; [reflexivity |]. split; [reflexivity |].
  split; [| split].
  - intros other Hother. cbn [Secrets rotatedProxyBotanist sampleBotanist].
    by rewrite lookup_insert_ne.
  - intros other Hother. cbn [CheckSums rotatedProxyBotanist sampleBotanist].
    by rewrite lookup_insert_ne.
  - vm_compute. discriminate.
Qed.

Lemma checksum_propagation_witness :
  let r1 := run (clusterHandler sampleCollaborators)
              (generateCoreAddonsChart (H := sampleExternals) sampleBotanist) emptyCluster in
  let r2 := run (clusterHandler sampleCollaborators)
              (generateCoreAddonsChart (H := sampleExternals) rotatedProxyBotanist)
              emptyCluster in
  "kube-proxy" ∈ ["kube-proxy"; "vpn-shoot"]
  /\ GardenRoleOpenVPNDiffieHellman (Externals := sampleExternals) <> "kube-proxy"
  /\ differOnlyIn "kube-proxy" sampleBotanist rotatedProxyBotanist
  /\ outcome r1 = Returned (Ok {| Manifests := ["shoot-core"] |})
  /\ outcome r2 = Returned (Ok {| Manifests := ["shoot-core"] |})
  /\ exists calico kubeDNS metricsServer nodeExporter kubeProxy1 kubeProxy2 vpnShoot,
       injectInputs (trace r1)
         = [calico; kubeDNS; kubeProxy1; metricsServer; vpnShoot; nodeExporter]
       /\ injectInputs (trace r2)
         = [calico; kubeDNS; kubeProxy2; metricsServer; vpnShoot; nodeExporter]
       /\ restartAnnotation "checksum/secret-kube-proxy" kubeProxy1 = Some (VString "5f2b")
       /\ restartAnnotation "checksum/secret-kube-proxy" kubeProxy2 = Some (VString "e04d").
Proof.
  cbv zeta.
  assert (Hname : "kube-proxy" ∈ ["kube-proxy"; "vpn-shoot"]) by (rewrite !elem_of_cons; auto).
  assert (Hdh : GardenRoleOpenVPNDiffieHellman (Externals := sampleExternals) <> "kube-proxy")
    by discriminate.
  split; [exact Hname |]. split; [exact Hdh |]. split; [exact rotatedProxy_differs |].
  split; [vm_compute; reflexivity |]. split; [vm_compute; reflexivity |].
  destruct (checksum_propagation (H := sampleExternals)
              (clusterHandler sampleCollaborators) (clusterHandler sampleCollaborators)
              emptyCluster emptyCluster sampleBotanist rotatedProxyBotanist "kube-proxy"
              {| Manifests := ["shoot-core"] |} {| Manifests := ["shoot-core"] |}
              Hname Hdh rotatedProxy_differs
              ltac:(vm_compute; reflexivity) ltac:(vm_compute; reflexivity))
    as (calico & kubeDNS & metricsServer & nodeExporter & kubeProxy1 & kubeProxy2
        & vpnShoot1 & vpnShoot2 & Hin1 & Hin2 & Hkp1 & Hkp2 & _ & _ & Hproxy & _).
  destruct (Hproxy eq_refl) as [_ <-].
  exists calico, kubeDNS, metricsServer, nodeExporter, kubeProxy1, kubeProxy2, vpnShoot1.
  split; [exact Hin1 |]. split; [exact Hin2 |].
  split; [exact Hkp1 | exact Hkp2].
Defined.

(** C6 as stated fails: the metrics-server configuration depends on the
    metrics-server secret and carries no pod annotation; two runs on bundles
    that differ only in that secret and its checksum compose the same pod
    annotations for every addon. *)
Lemma metrics_server_secret_without_annotation :
  let r1 := run (clusterHandler sampleCollaborators)
              (generateCoreAddonsChart (H := sampleExternals) sampleBotanist) emptyCluster in
  let r2 := run (clusterHandler sampleCollaborators)
              (generateCoreAddonsChart (H := sampleExternals) rotatedMetricsBotanist)
              emptyCluster in
  differOnlyIn "metrics-server" sampleBotanist rotatedMetricsBotanist
  /\ chart_of (outcome r1) = Some {| Manifests := ["shoot-core"] |}
  /\ chart_of (outcome r2) = Some {| Manifests := ["shoot-core"] |}
  /\ (injectInputs (trace r1) !! 3%nat) ≫= (.!! "secret")
     = Some (VMap {[ "data" := VBytesMap (Data (secretOf [("metrics-server.crt", "crt");
                                                          ("metrics-server.key", "key")])) ]})
  /\ (injectInputs (trace r2) !! 3%nat) ≫= (.!! "secret")
     = Some (VMap {[ "data" := VBytesMap (Data (secretOf [("metrics-server.crt", "crt2");
                                                          ("metrics-server.key", "key2")])) ]})
  /\ (.!! "podAnnotations") <$> injectInputs (trace r1)
     = [ None; None;
         Some (VMap {[ "checksum/secret-kube-proxy" := VString "5f2b" ]});
         None;
         Some (VMap {[ "checksum/secret-vpn-shoot" := VString "a91c" ]});
         None ]
  /\ (.!! "podAnnotations") <$> injectInputs (trace r2)
     = (.!! "podAnnotations") <$> injectInputs (trace r1).
Proof.
  cbv zeta. split.
  - unfold differOnlyIn. split; [reflexivity |]. split; [reflexivity |].
    split; [| split].
    + intros other Hother. cbn [Secrets rotatedMetricsBotanist sampleBotanist].
      by rewrite lookup_insert_ne.
    + intros other Hother. cbn [CheckSums rotatedMetricsBotanist sampleBotanist].
      by rewrite lookup_insert_ne.
    + vm_compute. discriminate.
  - repeat split; vm_compute; reflexivity.
Qed.

(** ** The optional bundle *)

Lemma omap_nil_Forall {A B : Type} (f : A -> option B) (l : list A) :
  Forall (fun x => f x = None) l -> omap f l = [].
Proof. induction 1 as [| x l Hx _ IH]; cbn; [done | by rewrite Hx]. Qed.

Lemma omap_cons_eq {A B : Type} (f : A -> option B) (x : A) (l : list A) :
  omap f (x :: l) = match f x with Some y => y :: omap f l | None => omap f l end.
Proof. reflexivity. Qed.

Lemma delete_event_projections (ev : Event) :
  ev_is (@isDeleteDeployment) ev = true ->
  ev_injectInput ev = None /\ ev_nginxBase ev = None /\ ev_rendered ev = None.
Proof. destruct ev as [X op r]. by destruct op. Qed.

Section OptionalRun.
Context `{Externals} {W : Type} (h : Handler W).

(** A loop that is left without an error only made delete calls. *)
Lemma range_run_ok {A : Type} items (k : Prog (result A)) (w : W) (a : A) :
  outcome (run h (rangeHeapsterDeployments items k) w) = Returned (Ok a) ->
  exists dels w',
    trace (run h (rangeHeapsterDeployments items k) w) = dels ++ trace (run h k w')
    /\ outcome (run h k w') = Returned (Ok a)
    /\ Forall (fun ev => ev_is (@isDeleteDeployment) ev = true) dels.
Proof.
  revert w. induction items as [| deployment rest IH]; intros w Hok.
  - exists [], w. auto.
  - cbn [rangeHeapsterDeployments run prepend outcome trace] in Hok |- *.
    destruct (h _ (DeleteDeployment NamespaceSystem (Name deployment)) w) as [answer w1].
    cbn [fst snd] in Hok |- *.
    assert (Hrest : outcome (run h (rangeHeapsterDeployments rest k) w1) = Returned (Ok a)).
    { destruct answer as [err |]; [| exact Hok].
      destruct (IsNotFound err); [exact Hok | discriminate]. }
    destruct (IH w1 Hrest) as (dels & w' & Htr & Hout & Hdels).
    exists (Ev (DeleteDeployment NamespaceSystem (Name deployment)) answer :: dels), w'.
    split; [| split; [exact Hout | by constructor]].
    destruct answer as [err |]; [destruct (IsNotFound err) |];
      cbn [app]; try (f_equal; exact Htr). discriminate.
Qed.

(** A successful run of the optional generator: the provider's nginx-ingress
    base, the six configurations handed to the image resolver (the last one
    the merged nginx-ingress configuration), and the rendering. *)
Lemma optional_run_ok (w : W) (b : HybridBotanist) (chart : RenderedChart) :
  outcome (run h (generateOptionalAddonsChart b) w) = Returned (Ok chart) ->
  exists helmTillerConfig kubeLegoConfig kube2IAMConfig
         kubernetesDashboardConfig monocularConfig base nginxIngressConfig,
    mergeNginxIngressConfig b base = Return nginxIngressConfig
    /\ omap ev_nginxBase (trace (run h (generateOptionalAddonsChart b) w)) = [base]
    /\ injectInputs (trace (run h (generateOptionalAddonsChart b) w)) =
       [ helmTillerConfig; kubeLegoConfig; kube2IAMConfig; kubernetesDashboardConfig;
         monocularConfig; nginxIngressConfig ].
Proof.
  unfold generateOptionalAddonsChart.
  run_step clusterAutoscalerConfig w1; [| discriminate].
  run_step helmTillerConfig w2; [| discriminate].
  run_step kubeLegoConfig w3; [| discriminate].
  run_step kube2IAMConfig w4; [| discriminate].
  run_step kubernetesDashboardConfig w5; [| discriminate].
  run_step monocularConfig w6; [| discriminate].
  run_step base w7; [| discriminate].
  assert (Hmerge : (exists config, mergeNginxIngressConfig b base = Return config)
                   \/ exists msg, mergeNginxIngressConfig b base = Panic msg).
  { unfold mergeNginxIngressConfig.
    destruct (NginxIngressEnabled _); [| eauto].
    destruct (Spec_Addons _) as [addons |]; cbn [deref bind]; [| eauto].
    destruct (Addons_NginxIngress addons); cbn [deref bind]; [| eauto].
    destruct (IsUsedAsSeed _); eauto. }
  destruct Hmerge as [[config Hmerge] | [msg Hmerge]]; rewrite Hmerge; cbn [bind];
    [| discriminate].
  run_step helmTiller w8; [| discriminate].
  run_step kubeLego w9; [| discriminate].
  run_step kube2IAM w10; [| discriminate].
  run_step kubernetesDashboard w11; [| discriminate].
  run_step monocular w12; [| discriminate].
  run_step nginxIngress w13; [| discriminate].
  unfold cleanupHeapster.
  run_step heapsterDeployments w14; [| discriminate].
  intros Hok.
  destruct (range_run_ok _ _ _ _ Hok) as (dels & w' & -> & _ & Hdels).
  rewrite run_Call_Return. cbn [trace].
  exists helmTillerConfig, kubeLegoConfig, kube2IAMConfig,
    kubernetesDashboardConfig, monocularConfig, base, config.
  split; [exact Hmerge |].
  assert (Hnone : omap ev_nginxBase dels = [] /\ omap ev_injectInput dels = []).
  { split; apply omap_nil_Forall; eapply Forall_impl; try exact Hdels;
      intros ev Hev; by destruct (delete_event_projections ev Hev) as (? & ? & ?). }
  destruct Hnone as [Hbase Hinput].
  unfold injectInputs.
  do 28 (rewrite omap_cons_eq; cbn [ev_nginxBase ev_injectInput]).
  rewrite (omap_app ev_nginxBase dels), (omap_app ev_injectInput dels), Hbase, Hinput.
  split; reflexivity.
Qed.

(** C4, amended: the configuration composed for nginx-ingress is the
    provider's base configuration, untouched, when the nginx-ingress addon
    is not enabled; when it is enabled the source ranges of the
    specification (empty or not) are merged into the base, and the resource
    limits are merged on top exactly when the shoot is also used as seed. *)
Theorem nginx_ingress_merges (w : W) (b : HybridBotanist) (chart : RenderedChart) :
  outcome (run h (generateOptionalAddonsChart b) w) = Returned (Ok chart) ->
  exists base nginxIngressConfig,
    omap ev_nginxBase (trace (run h (generateOptionalAddonsChart b) w)) = [base]
    /\ last (injectInputs (trace (run h (generateOptionalAddonsChart b) w)))
       = Some nginxIngressConfig
    /\ (NginxIngressEnabled (b_Shoot b) = false -> nginxIngressConfig = base)
    /\ (NginxIngressEnabled (b_Shoot b) = true ->
        exists addons nginxIngress,
          Spec_Addons (Spec (Info (b_Shoot b))) = Some addons
          /\ Addons_NginxIngress addons = Some nginxIngress
          /\ let merged :=
               MergeMaps base (sourceRangesOverride (LoadBalancerSourceRanges nginxIngress)) in
             (IsUsedAsSeed (Info (b_Shoot b)) = false -> nginxIngressConfig = merged)
             /\ (IsUsedAsSeed (Info (b_Shoot b)) = true ->
                 nginxIngressConfig = MergeMaps merged seedLimitsOverride)).
Proof.
  intros Hok.
  destruct (optional_run_ok w b chart Hok)
    as (c2 & c3 & c4 & c5 & c6 & base & config & Hmerge & Hbase & Hinputs).
  exists base, config. rewrite Hinputs. split; [exact Hbase |]. split; [reflexivity |].
  unfold mergeNginxIngressConfig in Hmerge.
  destruct (NginxIngressEnabled (b_Shoot b)).
  - split; [intros [=] |]. intros _.
    destruct (Spec_Addons _) as [addons |]; cbn [deref bind] in Hmerge; [| discriminate].
    destruct (Addons_NginxIngress addons) as [nginxIngress |] eqn:Hingress;
      cbn [deref bind] in Hmerge; [| discriminate].
    exists addons, nginxIngress. split; [reflexivity |]. split; [exact Hingress |].
    cbv zeta. destruct (IsUsedAsSeed _); apply Return_inj in Hmerge; rewrite <- Hmerge.
    + split; [intros [=] | intros _; reflexivity].
    + split; [intros _; reflexivity | intros [=]].
  - split; [| intros [=]]. intros _. apply Return_inj in Hmerge. by rewrite <- Hmerge.
Qed.

End OptionalRun.

Lemma nginx_ingress_merges_witness :
  let r := run (clusterHandler sampleCollaborators)
             (generateOptionalAddonsChart (H := sampleExternals) openIngressBotanist)
             emptyCluster in
  outcome r = Returned (Ok {| Manifests := ["addons"] |})
  /\ exists base nginxIngressConfig,
       omap ev_nginxBase (trace r) = [base]
       /\ last (injectInputs (trace r)) = Some nginxIngressConfig
       /\ nginxIngressConfig = MergeMaps base (sourceRangesOverride []).
Proof.
  cbv zeta. split; [vm_compute; reflexivity |].
  destruct (nginx_ingress_merges (H := sampleExternals) (clusterHandler sampleCollaborators)
              emptyCluster openIngressBotanist {| Manifests := ["addons"] |}
              ltac:(vm_compute; reflexivity))
    as (base & config & Hbase & Hlast & _ & Henabled).
  exists base, config. split; [exact Hbase |]. split; [exact Hlast |].
  destruct (Henabled eq_refl) as (addons & nginxIngress & Haddons & Hingress & Hmerged).
  cbv zeta in Hmerged. destruct Hmerged as [Hplain _].
  cbn in Haddons. injection Haddons as <-. cbn in Hingress. injection Hingress as <-.
  exact (Hplain eq_refl).
Defined.

(** C4 as stated fails: a specification that enables nginx-ingress and
    restricts no source range still gets the source-range merge; the
    configuration composed for nginx-ingress has a controller section the
    provider's base does not have. *)
Lemma open_ingress_is_merged :
  let r := run (clusterHandler sampleCollaborators)
             (generateOptionalAddonsChart (H := sampleExternals) openIngressBotanist)
             emptyCluster in
  Spec_Addons (Spec (Info (b_Shoot openIngressBotanist))) ≫= Addons_NginxIngress
    = Some {| Enabled := true; LoadBalancerSourceRanges := [] |}
  /\ chart_of (outcome r) = Some {| Manifests := ["addons"] |}
  /\ omap ev_nginxBase (trace r) = [ {[ "enabled" := VBool true ]} ]
  /\ last (injectInputs (trace r))
     = Some {[ "enabled" := VBool true;
               "controller" := VMap
                 {[ "service" := VMap {[ "loadBalancerSourceRanges" := VStrings [] ]} ]} ]}
  /\ ({[ "enabled" := VBool true ]} : Values) !! "controller" = None.
Proof. cbv zeta. repeat split; vm_compute; reflexivity. Qed.

(** ** Merging configuration maps *)

Lemma MergeMaps_lookup_eq (a b : Values) (key : string) :
  MergeMaps a b !! key =
  match a !! key, b !! key with
  | Some (VMap extMap), Some (VMap elem) => Some (VMap (MergeMaps extMap elem))
  | _, Some v => Some v
  | existing, None => existing
  end.
Proof.
  unfold MergeMaps at 1. rewrite lookup_union, map_lookup_imap.
  destruct (b !! key) as [v |]; cbn.
  - destruct (a !! key) as [existing |]; cbn.
    + destruct v, existing; reflexivity.
    + destruct v; reflexivity.
  - destruct (a !! key) as [existing |]; cbn; [by destruct existing | done].
Qed.

Lemma MergeMaps_empty_l (b : Values) : MergeMaps ∅ b = b.
Proof.
  apply map_eq. intros key. rewrite MergeMaps_lookup_eq, lookup_empty.
  by destruct (b !! key).
Qed.

(** C5: the merge of a base map with an override map, key by key: where both
    hold a map the two are merged recursively; where the override holds
    anything else (a scalar, a list) or the base holds no map, the override's
    value stands as it is; a key of the base alone keeps the base's value
    and a key of the override alone the override's; the keys of the result
    are those of the two sources. *)
Theorem MergeMaps_precedence (a b : Values) :
  (forall key,
     MergeMaps a b !! key =
     match a !! key, b !! key with
     | Some (VMap extMap), Some (VMap elem) => Some (VMap (MergeMaps extMap elem))
     | _, Some v => Some v
     | existing, None => existing
     end)
  /\ (forall key extMap elem,
        a !! key = Some (VMap extMap) -> b !! key = Some (VMap elem) ->
        MergeMaps a b !! key = Some (VMap (MergeMaps extMap elem)))
  /\ (forall key existing v,
        a !! key = Some existing -> b !! key = Some v ->
        (forall elem, v <> VMap elem) ->
        MergeMaps a b !! key = Some v)
  /\ (forall key v, a !! key = None -> b !! key = Some v -> MergeMaps a b !! key = Some v)
  /\ (forall key, b !! key = None -> MergeMaps a b !! key = a !! key)
  /\ dom (MergeMaps a b) = dom a ∪ dom b.
Proof.
  split; [apply MergeMaps_lookup_eq |].
  split; [intros key extMap elem Ha Hb; by rewrite MergeMaps_lookup_eq, Ha, Hb |].
  split.
  { intros key existing v Ha Hb Hleaf. rewrite MergeMaps_lookup_eq, Ha, Hb.
    destruct existing; try reflexivity. destruct v; try reflexivity.
    by destruct (Hleaf m0). }
  split; [intros key v Ha Hb; by rewrite MergeMaps_lookup_eq, Ha, Hb |].
  split.
  { intros key Hb. rewrite MergeMaps_lookup_eq, Hb. by destruct (a !! key) as [[] |]. }
  apply set_eq. intros key. rewrite elem_of_union, !elem_of_dom, MergeMaps_lookup_eq.
  unfold is_Some. destruct (a !! key) as [existing |], (b !! key) as [v |].
  - split; [intros _; left; eauto | intros _; destruct existing, v; eauto].
  - split; [intros _; left; eauto | intros _; destruct existing; eauto].
  - split; [intros _; right; eauto | intros _; eauto].
  - split; [intros [x [=]] | intros [[x [=]] | [x [=]]]].
Qed.

Example MergeMaps_nginx_ingress :
  MergeMaps
    {[ "controller" := VMap {[ "service" := VMap {[ "type" := VString "LoadBalancer";
                                                    "loadBalancerSourceRanges" :=
                                                      VStrings ["10.0.0.0/8"] ]};
                               "replicas" := VString "2" ]};
       "enabled" := VBool true ]}
    (sourceRangesOverride ["192.168.0.0/16"])
  = {[ "controller" := VMap {[ "service" := VMap {[ "type" := VString "LoadBalancer";
                                                    "loadBalancerSourceRanges" :=
                                                      VStrings ["192.168.0.0/16"] ]};
                               "replicas" := VString "2" ]};
       "enabled" := VBool true ]}.
Proof. vm_compute. reflexivity. Qed.

(** ** The provider dispatcher *)

Section Dispatcher.
Context `{Externals} {Provider : Type}
  (table : Provider -> DispatcherOperation -> option (Shoot -> Values)).

Lemma dispatcher_events (provider : Provider) (shoot : Shoot) (others : Collaborators)
    {A : Type} (p : Prog A) (c : Cluster) :
  Forall (fun ev => ev_is (@isDispatcherOp) ev = true -> ev_error ev = None)
    (trace (run (clusterHandler (withDispatcher table provider shoot others)) p c)).
Proof.
  eapply Forall_impl; [apply trace_answered |].
  intros [X op r] [c' ->] Hop. destruct op; try discriminate Hop;
    cbn; unfold dispatch; by destruct (table provider _).
Qed.

(** C8: for every provider and every operation of the dispatcher, the
    operation answers a configuration and no error; an operation the provider
    does not support answers the empty configuration, into which an override
    merges as into any other; and in the runs of the generators that consult
    the dispatcher no call of the dispatcher is answered with an error. *)
Theorem dispatcher_complete (provider : Provider) (operation : DispatcherOperation)
    (shoot : Shoot) :
  (exists config,
     dispatch table provider operation shoot = Ok config
     /\ (table provider operation = None -> config = ∅)
     /\ (table provider operation = None -> forall override, MergeMaps config override = override))
  /\ (forall others b c,
        Forall (fun ev => ev_is (@isDispatcherOp) ev = true -> ev_error ev = None)
          (trace (run (clusterHandler (withDispatcher table provider shoot others))
                    (generateOptionalAddonsChart b) c))
        /\ Forall (fun ev => ev_is (@isDispatcherOp) ev = true -> ev_error ev = None)
             (trace (run (clusterHandler (withDispatcher table provider shoot others))
                       (generateAdmissionControlsChart b) c))).
Proof.
  split.
  - unfold dispatch. destruct (table provider operation) as [generate |].
    + exists (generate shoot). split; [reflexivity |]. split; intros [=].
    + exists ∅. split; [reflexivity |]. split; [reflexivity |].
      intros _ override. apply MergeMaps_empty_l.
  - intros others b c. split; apply dispatcher_events.
Qed.

End Dispatcher.

Lemma dispatcher_complete_witness :
  dispatch sampleTable PlainProvider OpGenerateKube2IAMConfig sampleShoot = Ok ∅
  /\ exists config,
       dispatch sampleTable PlainProvider OpGenerateKube2IAMConfig sampleShoot = Ok config
       /\ (sampleTable PlainProvider OpGenerateKube2IAMConfig = None -> config = ∅)
       /\ (sampleTable PlainProvider OpGenerateKube2IAMConfig = None ->
           forall override, MergeMaps config override = override).
Proof.
  split; [reflexivity |].
  exact (proj1 (dispatcher_complete (H := sampleExternals) sampleTable PlainProvider
                  OpGenerateKube2IAMConfig sampleShoot)).
Defined.

(** ** Rendering twice *)

Lemma SameChart_sound {A : Type} (p q : Prog (result A)) :
  SameChart p q ->
  forall (W : Type) (h : Handler W), Deterministic h ->
  forall w1 w2 a1 a2,
    outcome (run h p w1) = Returned (Ok a1) ->
    outcome (run h q w2) = Returned (Ok a2) ->
    a1 = a2.
Proof.
  induction 1 as [a | err q | p err | msg q | p msg | X op k1 k2 Hpure _ IH
                 | X op k q Hclient _ IH | X p op k Hclient _ IH];
    intros W h Hdet w1 w2 a1 a2 H1 H2.
  - cbn in H1, H2. rewrite H1 in H2. by injection H2.
  - discriminate H1.
  - discriminate H2.
  - discriminate H1.
  - discriminate H2.
  - cbn [run prepend outcome] in H1, H2.
    rewrite (Hdet X op w2 w1 Hpure) in H2. eapply IH; eauto.
  - cbn [run prepend outcome] in H1. eapply IH; eauto.
  - cbn [run prepend outcome] in H2. eapply IH; eauto.
Qed.

Lemma SameChart_try {X A : Type} (op : Op (result X)) (k1 k2 : X -> Prog (result A)) :
  isClientOp op = false ->
  (forall x, SameChart (k1 x) (k2 x)) ->
  SameChart (try op k1) (try op k2).
Proof.
  intros Hpure Hk. apply SameChart_Call; [exact Hpure |].
  intros [x | err]; [apply Hk | apply SameChart_Err_l].
Qed.

Lemma SameChart_try_l {X A : Type} (op : Op (result X)) (k : X -> Prog (result A)) q :
  isClientOp op = true ->
  (forall x, SameChart (k x) q) ->
  SameChart (try op k) q.
Proof.
  intros Hclient Hk. apply SameChart_Client_l; [exact Hclient |].
  intros [x | err]; [apply Hk | apply SameChart_Err_l].
Qed.

Lemma SameChart_try_r {X A : Type} p (op : Op (result X)) (k : X -> Prog (result A)) :
  isClientOp op = true ->
  (forall x, SameChart p (k x)) ->
  SameChart p (try op k).
Proof.
  intros Hclient Hk. apply SameChart_Client_r; [exact Hclient |].
  intros [x | err]; [apply Hk | apply SameChart_Err_r].
Qed.

Lemma SameChart_deref {X A : Type} (p : option X) (k1 k2 : X -> Prog (result A)) :
  (forall x, SameChart (k1 x) (k2 x)) ->
  SameChart (bind (deref p) k1) (bind (deref p) k2).
Proof. intros Hk. destruct p; cbn [deref bind]; [apply Hk | apply SameChart_Panic_l]. Qed.

Lemma SameChart_range_l {A : Type} items (k q : Prog (result A)) :
  SameChart k q -> SameChart (rangeHeapsterDeployments items k) q.
Proof.
  intros Hk. induction items as [| deployment rest IH]; cbn [rangeHeapsterDeployments];
    [exact Hk |].
  apply SameChart_Client_l; [reflexivity |].
  intros [err |]; [| exact IH]. destruct (IsNotFound err); cbn [negb];
    [exact IH | apply SameChart_Err_l].
Qed.

Lemma SameChart_range_r {A : Type} items (p k : Prog (result A)) :
  SameChart p k -> SameChart p (rangeHeapsterDeployments items k).
Proof.
  intros Hk. induction items as [| deployment rest IH]; cbn [rangeHeapsterDeployments];
    [exact Hk |].
  apply SameChart_Client_r; [reflexivity |].
  intros [err |]; [| exact IH]. destruct (IsNotFound err); cbn [negb];
    [exact IH | apply SameChart_Err_r].
Qed.

Lemma SameChart_Render chartPath releaseName namespace values :
  SameChart (Call (Render chartPath releaseName namespace values) Return)
            (Call (Render chartPath releaseName namespace values) Return).
Proof. apply SameChart_Call; [reflexivity |]. intros r. apply SameChart_Return. Qed.

Section RenderTwice.
Context `{Externals}.

Lemma generateCoreAddonsChart_SameChart b :
  SameChart (generateCoreAddonsChart b) (generateCoreAddonsChart b).
Proof.
  unfold generateCoreAddonsChart.
  do 4 (apply SameChart_deref; intros ?).
  do 6 (apply SameChart_try; [reflexivity | intros ?]).
  apply SameChart_deref; intros ?.
  apply SameChart_try_l; [reflexivity | intros ?].
  apply SameChart_try_r; [reflexivity | intros ?].
  apply SameChart_Render.
Qed.

Lemma generateOptionalAddonsChart_SameChart b :
  SameChart (generateOptionalAddonsChart b) (generateOptionalAddonsChart b).
Proof.
  unfold generateOptionalAddonsChart, cleanupHeapster.
  do 7 (apply SameChart_try; [reflexivity | intros ?]).
  match goal with
  | |- SameChart (bind (mergeNginxIngressConfig b ?base) _) _ =>
      assert (Hmerge : (exists config, mergeNginxIngressConfig b base = Return config)
                       \/ exists msg, mergeNginxIngressConfig b base = Panic msg);
      [ unfold mergeNginxIngressConfig;
        destruct (NginxIngressEnabled _); [| eauto];
        destruct (Spec_Addons _) as [addons |]; cbn [deref bind]; [| eauto];
        destruct (Addons_NginxIngress addons); cbn [deref bind]; [| eauto];
        destruct (IsUsedAsSeed _); eauto
      | destruct Hmerge as [[config ->] | [msg ->]]; cbn [bind];
        [| apply SameChart_Panic_l] ]
  end.
  do 6 (apply SameChart_try; [reflexivity | intros ?]).
  apply SameChart_try_l; [reflexivity | intros ?].
  apply SameChart_range_l.
  apply SameChart_try_r; [reflexivity | intros ?].
  apply SameChart_range_r.
  apply SameChart_Render.
Qed.

Lemma generateAdmissionControlsChart_SameChart b :
  SameChart (generateAdmissionControlsChart b) (generateAdmissionControlsChart b).
Proof.
  unfold generateAdmissionControlsChart.
  apply SameChart_try; [reflexivity | intros ?].
  apply SameChart_Render.
Qed.

End RenderTwice.

(** ** Runs in front of the modelled cluster *)

Lemma clusterHandler_pure (others : Collaborators) {X : Type} (op : Op X) (c : Cluster) :
  isClientOp op = false -> clusterHandler others X op c = (others X op, c).
Proof. destruct op; intros Hop; try discriminate Hop; reflexivity. Qed.

Lemma pure_op_not_delete {X : Type} (op : Op X) (r : X) :
  isClientOp op = false -> ev_deleted (Ev op r) = None.
Proof. destruct op; intros Hop; try discriminate Hop; reflexivity. Qed.

Lemma run_skipPure (others : Collaborators) {A : Type} (p : Prog A) (c : Cluster) :
  outcome (run (clusterHandler others) p c)
    = outcome (run (clusterHandler others) (skipPure others p) c)
  /\ final (run (clusterHandler others) p c)
     = final (run (clusterHandler others) (skipPure others p) c)
  /\ deletions (trace (run (clusterHandler others) p c))
     = deletions (trace (run (clusterHandler others) (skipPure others p) c)).
Proof.
  induction p as [a | msg | X op k IH]; cbn [skipPure]; [auto | auto |].
  destruct (isClientOp op) eqn:Hop; [auto |].
  cbn [run prepend outcome final trace]. rewrite (clusterHandler_pure others op c Hop).
  cbn [fst snd]. unfold deletions. rewrite omap_cons_eq, (pure_op_not_delete op _ Hop).
  apply IH.
Qed.

Lemma skipPure_try (others : Collaborators) {X A : Type} (op : Op (result X))
    (k : X -> Prog (result A)) :
  isClientOp op = false ->
  skipPure others (try op k) =
  match others _ op with
  | Ok x => skipPure others (k x)
  | Err err => Return (Err err)
  end.
Proof. intros Hop. unfold try. cbn [skipPure]. rewrite Hop. by destruct (others _ op). Qed.

Lemma deployments_deleteDeployment namespace name c :
  deployments (deleteDeployment namespace name c).2 = delete (namespace, name) (deployments c)
  /\ secrets (deleteDeployment namespace name c).2 = secrets c
  /\ objects (deleteDeployment namespace name c).2 = objects c.
Proof.
  unfold deleteDeployment.
  destruct (deployments c !! (namespace, name)) eqn:Hlookup; cbn; [auto |].
  by rewrite delete_id.
Qed.

Lemma removeDeployments_cons deployment rest c :
  removeDeployments (deployment :: rest) c
  = removeDeployments rest (deleteDeployment NamespaceSystem (Name deployment) c).2.
Proof. reflexivity. Qed.

Lemma removeDeployments_lookup items c key :
  deployments (removeDeployments items c) !! key =
  if decide (key ∈ (fun deployment => (NamespaceSystem, Name deployment)) <$> items)
  then None else deployments c !! key.
Proof.
  revert c. induction items as [| deployment rest IH]; intros c.
  - cbn. case_decide as Hin; [by apply elem_of_nil in Hin | done].
  - rewrite removeDeployments_cons, IH.
    rewrite (proj1 (deployments_deleteDeployment NamespaceSystem (Name deployment) c)).
    cbn [fmap list_fmap].
    destruct (decide (key = (NamespaceSystem, Name deployment))) as [-> | Hne].
    + rewrite lookup_delete_eq.
      rewrite (decide_True (P := _ ∈ _ :: _)) by (apply elem_of_cons; auto).
      by case_decide.
    + rewrite lookup_delete_ne by done. apply decide_ext.
      rewrite elem_of_cons. split; [auto | by intros [? | ?]].
Qed.

Lemma removeDeployments_frame items c :
  secrets (removeDeployments items c) = secrets c
  /\ objects (removeDeployments items c) = objects c.
Proof.
  revert c. induction items as [| deployment rest IH]; intros c; [done |].
  rewrite removeDeployments_cons.
  destruct (IH (deleteDeployment NamespaceSystem (Name deployment) c).2) as [-> ->].
  by destruct (deployments_deleteDeployment NamespaceSystem (Name deployment) c)
    as (_ & -> & ->).
Qed.

Lemma range_on_cluster (others : Collaborators) {A : Type} items (k : Prog (result A)) c :
  outcome (run (clusterHandler others) (rangeHeapsterDeployments items k) c)
    = outcome (run (clusterHandler others) k (removeDeployments items c))
  /\ final (run (clusterHandler others) (rangeHeapsterDeployments items k) c)
     = final (run (clusterHandler others) k (removeDeployments items c))
  /\ deletions (trace (run (clusterHandler others) (rangeHeapsterDeployments items k) c))
     = (Name <$> items)
       ++ deletions (trace (run (clusterHandler others) k (removeDeployments items c))).
Proof.
  revert c. induction items as [| deployment rest IH]; intros c; [done |].
  rewrite removeDeployments_cons.
  destruct (IH (deleteDeployment NamespaceSystem (Name deployment) c).2)
    as (IHout & IHfinal & IHdel).
  rewrite <- IHout, <- IHfinal. clear IHout IHfinal.
  cbn [rangeHeapsterDeployments run prepend outcome final trace clusterHandler].
  assert (Hcont :
    match (deleteDeployment NamespaceSystem (Name deployment) c).1 with
    | Some err =>
        if negb (IsNotFound err) then Return (Err err)
        else rangeHeapsterDeployments rest k
    | None => rangeHeapsterDeployments rest k
    end = rangeHeapsterDeployments rest k).
  { unfold deleteDeployment.
    by destruct (deployments c !! (NamespaceSystem, Name deployment)). }
  rewrite Hcont. split; [reflexivity |]. split; [reflexivity |].
  change (deletions (?ev :: ?tr)) with (omap ev_deleted (ev :: tr)).
  rewrite omap_cons_eq. cbn [ev_deleted fmap list_fmap app].
  f_equal. exact IHdel.
Qed.

Lemma listDeployments_keys selector c key :
  key ∈ (fun deployment => (NamespaceSystem, Name deployment))
          <$> listDeployments NamespaceSystem selector c
  <-> exists labels,
        deployments c !! key = Some labels /\ listed NamespaceSystem selector (key, labels).
Proof.
  unfold listDeployments. rewrite <- list_fmap_compose, list_elem_of_fmap. split.
  - intros ([[namespace name] labels] & -> & Hin).
    apply elem_of_map_to_list, map_lookup_filter_Some in Hin as [Hlookup Hlisted].
    exists labels. destruct Hlisted as [Hns Hmatch]. cbn in Hns. subst namespace.
    split; [exact Hlookup | by split].
  - intros (labels & Hlookup & Hlisted). exists (key, labels). split.
    + destruct key as [namespace name], Hlisted as [Hns _]. cbn in Hns. by subst namespace.
    + by apply elem_of_map_to_list, map_lookup_filter_Some.
Qed.

Lemma listing_after_cleanup selector c :
  listDeployments NamespaceSystem selector
    (removeDeployments (listDeployments NamespaceSystem selector c) c) = [].
Proof.
  unfold listDeployments at 1.
  assert (Hempty : filter (listed NamespaceSystem selector)
            (deployments (removeDeployments (listDeployments NamespaceSystem selector c) c))
          = ∅).
  { apply map_empty. intros key. apply map_lookup_filter_None.
    rewrite removeDeployments_lookup. case_decide as Hin; [by left |].
    right. intros labels Hlookup Hlisted. apply Hin, listDeployments_keys. eauto. }
  rewrite Hempty, map_to_list_empty. reflexivity.
Qed.

Section ClusterRuns.
Context `{Externals}.

Lemma mergeNginxIngressConfig_shape b base :
  (exists config, mergeNginxIngressConfig b base = Return config)
  \/ exists msg, mergeNginxIngressConfig b base = Panic msg.
Proof.
  unfold mergeNginxIngressConfig.
  destruct (NginxIngressEnabled _); [| eauto].
  destruct (Spec_Addons _) as [addons |]; cbn [deref bind]; [| eauto].
  destruct (Addons_NginxIngress addons); cbn [deref bind]; [| eauto].
  destruct (IsUsedAsSeed _); eauto.
Qed.

(** In front of the cluster the optional generator either stops before it
    touches the cluster, or reaches the cleanup with the values to render. *)
Lemma skipPure_optional (others : Collaborators) b :
  (exists values,
     skipPure others (generateOptionalAddonsChart b)
     = cleanupHeapster
         (Call (Render (filepath_Join ChartPath "shoot-addons") "addons" NamespaceSystem values)
               Return))
  \/ (exists err, skipPure others (generateOptionalAddonsChart b) = Return (Err err))
  \/ (exists msg, skipPure others (generateOptionalAddonsChart b) = Panic msg).
Proof.
  unfold generateOptionalAddonsChart.
  do 7 (rewrite skipPure_try by reflexivity;
        destruct (others _ _) as [? | ?]; [| right; left; eauto]).
  match goal with
  | |- context [mergeNginxIngressConfig b ?base] =>
      destruct (mergeNginxIngressConfig_shape b base) as [[config ->] | [msg ->]]
  end; cbn [bind]; [| right; right; eauto].
  do 6 (rewrite skipPure_try by reflexivity;
        destruct (others _ _) as [? | ?]; [| right; left; eauto]).
  left. eexists. reflexivity.
Qed.

End ClusterRuns.

(** ** Cleaning up the legacy heapster deployments *)

Lemma goes_on_trace {A W : Type} (p : Prog (result A)) :
  GoesOn p ->
  forall (h : Handler W) (w : W) pre ev post err,
    trace (run h p w) = pre ++ ev :: post ->
    ev_error ev = Some err ->
    ev_fatal ev = None ->
    post <> [].
Proof.
  induction 1 as [a | msg | X op k Hnext Hk IH]; intros h w pre ev post err Htr Herr Hfatal.
  - destruct pre; discriminate.
  - destruct pre; discriminate.
  - cbn [run prepend trace] in Htr. destruct pre as [| ev0 pre].
    + injection Htr as <- Hpost. cbn [ev_error ev_fatal] in Herr, Hfatal.
      destruct (Hnext _ _ Herr Hfatal) as (Y & op' & k' & Hcall).
      rewrite Hcall in Hpost. cbn [run prepend trace] in Hpost. by rewrite <- Hpost.
    + injection Htr as _ Hrest. eapply IH; eauto.
Qed.

Lemma GoesOn_try {A X : Type} (op : Op (result X)) (k : X -> Prog (result A)) :
  isDeleteDeployment op = false ->
  (forall x, GoesOn (k x)) ->
  GoesOn (try op k).
Proof.
  intros Hdel Hk. unfold try. constructor.
  - intros r err Herr Hfatal. unfold op_fatal in Hfatal. rewrite Herr, Hdel in Hfatal.
    discriminate Hfatal.
  - intros [x | e]; [apply Hk | constructor].
Qed.

Lemma GoesOn_range {A : Type} items {Y : Type} (op : Op Y) (k : Y -> Prog (result A)) :
  GoesOn (Call op k) -> GoesOn (rangeHeapsterDeployments items (Call op k)).
Proof.
  intros Hk. induction items as [| deployment rest IH]; cbn [rangeHeapsterDeployments];
    [exact Hk |].
  constructor.
  - intros [e |] err Herr Hfatal; [| discriminate Herr].
    cbn in Herr. injection Herr as ->.
    unfold op_fatal in Hfatal. cbn in Hfatal.
    destruct (IsNotFound err); [| discriminate Hfatal]. cbn [negb].
    destruct rest; cbn [rangeHeapsterDeployments]; eauto.
  - intros [e |]; [destruct (IsNotFound e); cbn [negb] |]; try exact IH. constructor.
Qed.

Lemma GoesOn_Render {A : Type} chartPath releaseName namespace values :
  GoesOn (Call (Render chartPath releaseName namespace values) Return).
Proof.
  constructor.
  - intros r err Herr Hfatal. unfold op_fatal in Hfatal. rewrite Herr in Hfatal.
    discriminate Hfatal.
  - intros r. constructor.
Qed.

Lemma cleanup_on_cluster (others : Collaborators) {A : Type} (k : Prog (result A)) c :
  let items := listDeployments NamespaceSystem (LabelSelector heapsterListOptions) c in
  outcome (run (clusterHandler others) (cleanupHeapster k) c)
    = outcome (run (clusterHandler others) k (removeDeployments items c))
  /\ final (run (clusterHandler others) (cleanupHeapster k) c)
     = final (run (clusterHandler others) k (removeDeployments items c))
  /\ deletions (trace (run (clusterHandler others) (cleanupHeapster k) c))
     = (Name <$> items)
       ++ deletions (trace (run (clusterHandler others) k (removeDeployments items c))).
Proof.
  cbv zeta. unfold cleanupHeapster. rewrite run_try_eq.
  cbn [clusterHandler fst snd prepend outcome final trace Items].
  change (deletions (?ev :: ?tr)) with (omap ev_deleted (ev :: tr)).
  rewrite omap_cons_eq. cbn [ev_deleted]. apply range_on_cluster.
Qed.

Section HeapsterCleanup.
Context `{Externals}.

Lemma generateOptionalAddonsChart_goes_on b : GoesOn (generateOptionalAddonsChart b).
Proof.
  unfold generateOptionalAddonsChart, cleanupHeapster.
  do 7 (apply GoesOn_try; [reflexivity | intros ?]).
  match goal with
  | |- context [mergeNginxIngressConfig b ?base] =>
      destruct (mergeNginxIngressConfig_shape b base) as [[config ->] | [msg ->]]
  end; cbn [bind]; [| constructor].
  do 7 (apply GoesOn_try; [reflexivity | intros ?]).
  apply GoesOn_range, (GoesOn_Render (A := RenderedChart)).
Qed.

(** C1: the cleanup of the legacy heapster deployments in the optional
    generator.  With any collaborators, a delete answered with not-found is
    followed by a further call (the run goes on), and a delete answered with
    any other error is the last call of the run, which hands back that
    error.  In front of the modelled cluster, a run that returns a chart has
    deleted exactly the deployments of kube-system that match
    chart=heapster-0.1.1,origin=gardener and nothing else; the listing is
    empty afterwards, and a second run from there makes no deletion, leaves
    the cluster as it is and returns the same chart. *)
Theorem heapster_cleanup_idempotent (b : HybridBotanist) :
  (forall (W : Type) (h : Handler W) (w : W) pre ev post err,
     trace (run h (generateOptionalAddonsChart b) w) = pre ++ ev :: post ->
     ev_is (@isDeleteDeployment) ev = true ->
     ev_error ev = Some err ->
     if IsNotFound err then post <> []
     else post = []
          /\ error_of (outcome (run h (generateOptionalAddonsChart b) w)) = Some err)
  /\ (forall (others : Collaborators) (c : Cluster) (chart : RenderedChart),
        let selector := LabelSelector heapsterListOptions in
        let r1 := run (clusterHandler others) (generateOptionalAddonsChart b) c in
        let r2 := run (clusterHandler others) (generateOptionalAddonsChart b) (final r1) in
        outcome r1 = Returned (Ok chart) ->
        selector = "chart=heapster-0.1.1,origin=gardener"
        /\ deletions (trace r1) = Name <$> listDeployments NamespaceSystem selector c
        /\ listDeployments NamespaceSystem selector (final r1) = []
        /\ (forall key labels,
              deployments c !! key = Some labels ->
              listed NamespaceSystem selector (key, labels) ->
              deployments (final r1) !! key = None)
        /\ (forall key labels,
              deployments c !! key = Some labels ->
              ~ listed NamespaceSystem selector (key, labels) ->
              deployments (final r1) !! key = Some labels)
        /\ secrets (final r1) = secrets c
        /\ outcome r2 = Returned (Ok chart)
        /\ deletions (trace r2) = []
        /\ final r2 = final r1).
Proof.
  split.
  - intros W h w pre ev post err Htr Hdel Herr.
    assert (Hfatal : ev_fatal ev = if IsNotFound err then None else Some err).
    { destruct ev as [X op r]. cbn [ev_is ev_error ev_fatal] in *.
      unfold op_fatal. by rewrite Herr, Hdel. }
    destruct (IsNotFound err).
    + exact (goes_on_trace _ (generateOptionalAddonsChart_goes_on b) h w pre ev post err
               Htr Herr Hfatal).
    + destruct (aborts_trace _ (generateOptionalAddonsChart_aborts b) h w pre ev post err
                  Htr Hfatal) as [Hpost Hout].
      rewrite Hout. auto.
  - intros others c chart. cbv zeta. intros Hok.
    destruct (run_skipPure others (generateOptionalAddonsChart b)
                (final (run (clusterHandler others) (generateOptionalAddonsChart b) c)))
      as (Ho2 & Hf2 & Hd2).
    rewrite Ho2, Hf2, Hd2. clear Ho2 Hf2 Hd2.
    destruct (run_skipPure others (generateOptionalAddonsChart b) c) as (Ho1 & Hf1 & Hd1).
    rewrite Ho1 in Hok. rewrite Hf1, Hd1. clear Ho1 Hf1 Hd1.
    destruct (skipPure_optional others b) as [[values Hs] | [[err Hs] | [msg Hs]]];
      rewrite Hs in Hok |- *; [| discriminate Hok | discriminate Hok].
    clear Hs.
    set (render := Call (Render (filepath_Join ChartPath "shoot-addons") "addons"
                           NamespaceSystem values) Return) in *.
    destruct (cleanup_on_cluster others render c) as (Ho1 & Hf1 & Hd1).
    cbv zeta in Ho1, Hf1, Hd1.
    assert (Hf : final (run (clusterHandler others) (cleanupHeapster render) c)
                 = removeDeployments
                     (listDeployments NamespaceSystem (LabelSelector heapsterListOptions) c) c)
      by (rewrite Hf1; reflexivity).
    rewrite Hf. rewrite Ho1 in Hok. rewrite Hd1. clear Ho1 Hf1 Hd1 Hf.
    destruct (cleanup_on_cluster others render
                (removeDeployments
                   (listDeployments NamespaceSystem (LabelSelector heapsterListOptions) c) c))
      as (Ho2 & Hf2 & Hd2).
    cbv zeta in Ho2, Hf2, Hd2. rewrite listing_after_cleanup in Ho2, Hf2, Hd2.
    rewrite Ho2, Hf2, Hd2. clear Ho2 Hf2 Hd2.
    rewrite listing_after_cleanup. cbn [removeDeployments foldl fmap list_fmap app].
    split; [reflexivity |].
    split; [unfold render; cbn; by rewrite app_nil_r |].
    split; [reflexivity |].
    split.
    { intros key labels Hlookup Hlisted. rewrite removeDeployments_lookup.
      rewrite decide_True; [done |]. apply listDeployments_keys. eauto. }
    split.
    { intros key labels Hlookup Hnot. rewrite removeDeployments_lookup.
      rewrite decide_False; [done |]. intros Hin.
      apply listDeployments_keys in Hin as (labels' & Hlookup' & Hlisted).
      rewrite Hlookup in Hlookup'. injection Hlookup' as <-. by apply Hnot. }
    split; [apply removeDeployments_frame |].
    split; [exact Hok |].
    split; reflexivity.
Qed.

End HeapsterCleanup.

Lemma heapster_cleanup_idempotent_witness :
  let r1 := run (clusterHandler sampleCollaborators)
              (generateOptionalAddonsChart (H := sampleExternals) sampleBotanist)
              legacyCluster in
  let r2 := run (clusterHandler sampleCollaborators)
              (generateOptionalAddonsChart (H := sampleExternals) sampleBotanist)
              (final r1) in
  outcome r1 = Returned (Ok {| Manifests := ["addons"] |})
  /\ deletions (trace r1) = ["heapster"]
  /\ listDeployments NamespaceSystem "chart=heapster-0.1.1,origin=gardener" (final r1) = []
  /\ outcome r2 = Returned (Ok {| Manifests := ["addons"] |})
  /\ deletions (trace r2) = []
  /\ final r2 = final r1.
Proof.
  cbv zeta. split; [vm_compute; reflexivity |].
  destruct (proj2 (heapster_cleanup_idempotent (H := sampleExternals) sampleBotanist)
              sampleCollaborators legacyCluster {| Manifests := ["addons"] |}
              ltac:(vm_compute; reflexivity))
    as (_ & Hdel & Hlist & _ & _ & _ & Hout & Hdel2 & Hfinal).
  split; [rewrite Hdel; vm_compute; reflexivity |].
  split; [exact Hlist |].
  split; [exact Hout |].
  split; [exact Hdel2 | exact Hfinal].
Defined.

(** ** Generating and applying twice *)

Lemma clusterHandler_deterministic (others : Collaborators) :
  Deterministic (clusterHandler others).
Proof.
  intros X op c1 c2 Hop. by rewrite !clusterHandler_pure.
Qed.

Lemma createSecret_twice namespace name secretType data c :
  (createSecret namespace name secretType data true c).1 = Ok {| Data := data |}
  /\ (createSecret namespace name secretType data true
        (createSecret namespace name secretType data true c).2).1 = Ok {| Data := data |}
  /\ (createSecret namespace name secretType data true
        (createSecret namespace name secretType data true c).2).2
     = (createSecret namespace name secretType data true c).2.
Proof.
  assert (Hfirst : createSecret namespace name secretType data true c
                   = (Ok {| Data := data |},
                      {| deployments := deployments c;
                         secrets := <[(namespace, name) := (secretType, data)]> (secrets c);
                         objects := objects c |})).
  { unfold createSecret. by destruct (secrets c !! (namespace, name)). }
  rewrite Hfirst. cbn [fst snd]. split; [reflexivity |].
  unfold createSecret. cbn [secrets deployments objects].
  rewrite lookup_insert_eq, insert_insert_eq. auto.
Qed.

Section GenerateTwice.
Context `{Externals}.

Lemma skipPure_core (others : Collaborators) b :
  (exists data values,
     skipPure others (generateCoreAddonsChart b)
     = try (CreateSecret NamespaceSystem "vpn-shoot" SecretTypeOpaque data true)
         (fun _ => Call (Render (filepath_Join ChartPath "shoot-core") "shoot-core"
                           NamespaceSystem values) Return))
  \/ (exists err, skipPure others (generateCoreAddonsChart b) = Return (Err err))
  \/ (exists msg, skipPure others (generateCoreAddonsChart b) = Panic msg).
Proof.
  unfold generateCoreAddonsChart.
  destruct (Secrets b !! "kube-proxy"); cbn [deref bind]; [| right; right; eauto].
  destruct (Secrets b !! "ca-metrics-server"); cbn [deref bind]; [| right; right; eauto].
  destruct (Secrets b !! "metrics-server"); cbn [deref bind]; [| right; right; eauto].
  destruct (Secrets b !! "vpn-seed-tlsauth"); cbn [deref bind]; [| right; right; eauto].
  do 6 (rewrite skipPure_try by reflexivity;
        destruct (others _ _) as [? | ?]; [| right; left; eauto]).
  destruct (Secrets b !! "vpn-shoot"); cbn [deref bind]; [| right; right; eauto].
  left. eexists _, _. reflexivity.
Qed.

(** C7: with collaborators whose composing and rendering operations are
    deterministic, two runs of a generator on the same botanist that both
    return a chart return the same chart, whatever the state of the cluster
    they start from; applying an object twice leaves the modelled cluster as
    applying it once; and a second run of the core generator, whose only
    remote write is the create-or-update of the vpn-shoot secret, leaves the
    modelled cluster as the first run left it and returns the same chart. *)
Theorem render_twice_same_bundle :
  (forall (W : Type) (h : Handler W), Deterministic h ->
   forall (b : HybridBotanist) (generate : HybridBotanist -> Prog (result RenderedChart)),
     generate ∈ [generateCoreAddonsChart; generateOptionalAddonsChart;
                 generateAdmissionControlsChart] ->
     forall w1 w2 chart1 chart2,
       outcome (run h (generate b) w1) = Returned (Ok chart1) ->
       outcome (run h (generate b) w2) = Returned (Ok chart2) ->
       chart1 = chart2)
  /\ (forall kind namespace name body c,
        apply kind namespace name body (apply kind namespace name body c)
        = apply kind namespace name body c)
  /\ (forall (others : Collaborators) (b : HybridBotanist) (c : Cluster) chart,
        let r1 := run (clusterHandler others) (generateCoreAddonsChart b) c in
        let r2 := run (clusterHandler others) (generateCoreAddonsChart b) (final r1) in
        outcome r1 = Returned (Ok chart) ->
        outcome r2 = Returned (Ok chart) /\ final r2 = final r1).
Proof.
  split; [| split].
  - intros W h Hdet b generate Hgen w1 w2 chart1 chart2 H1 H2.
    assert (Hsame : SameChart (generate b) (generate b)).
    { revert Hgen. rewrite !elem_of_cons, elem_of_nil. intros [-> | [-> | [-> | []]]].
      - apply generateCoreAddonsChart_SameChart.
      - apply generateOptionalAddonsChart_SameChart.
      - apply generateAdmissionControlsChart_SameChart. }
    exact (SameChart_sound _ _ Hsame W h Hdet w1 w2 chart1 chart2 H1 H2).
  - intros kind namespace name body c. unfold apply. cbn [deployments secrets objects].
    by rewrite insert_insert_eq.
  - intros others b c chart. cbv zeta. intros Hok.
    destruct (run_skipPure others (generateCoreAddonsChart b)
                (final (run (clusterHandler others) (generateCoreAddonsChart b) c)))
      as (Ho2 & Hf2 & _).
    rewrite Ho2, Hf2. clear Ho2 Hf2.
    destruct (run_skipPure others (generateCoreAddonsChart b) c) as (Ho1 & Hf1 & _).
    rewrite Ho1 in Hok. rewrite Hf1. clear Ho1 Hf1.
    destruct (skipPure_core others b) as [(data & values & Hs) | [[err Hs] | [msg Hs]]];
      rewrite Hs in Hok |- *; [| discriminate Hok | discriminate Hok].
    clear Hs.
    destruct (createSecret_twice NamespaceSystem "vpn-shoot" SecretTypeOpaque data c)
      as (Hfirst & Hsecond & Hstate).
    rewrite run_try_eq in Hok. cbn [clusterHandler] in Hok. rewrite Hfirst in Hok.
    rewrite run_Call_Return in Hok. cbn [prepend outcome fst] in Hok.
    assert (Hf : final (run (clusterHandler others)
                          (try (CreateSecret NamespaceSystem "vpn-shoot" SecretTypeOpaque
                                  data true)
                             (fun _ => Call (Render (filepath_Join ChartPath "shoot-core")
                                                "shoot-core" NamespaceSystem values) Return))
                          c)
                 = (createSecret NamespaceSystem "vpn-shoot" SecretTypeOpaque data true c).2).
    { rewrite run_try_eq. cbn [clusterHandler]. rewrite Hfirst. reflexivity. }
    rewrite Hf. rewrite run_try_eq. cbn [clusterHandler]. rewrite Hsecond.
    rewrite run_Call_Return. cbn [prepend outcome final fst snd].
    split; [exact Hok | exact Hstate].
Qed.

End GenerateTwice.

Lemma render_twice_same_bundle_witness :
  Deterministic (clusterHandler sampleCollaborators)
  /\ exists chart1 chart2,
       outcome (run (clusterHandler sampleCollaborators)
                  (generateOptionalAddonsChart (H := sampleExternals) sampleBotanist)
                  emptyCluster) = Returned (Ok chart1)
       /\ outcome (run (clusterHandler sampleCollaborators)
                     (generateOptionalAddonsChart (H := sampleExternals) sampleBotanist)
                     legacyCluster) = Returned (Ok chart2)
       /\ chart1 = chart2.
Proof.
  split; [apply clusterHandler_deterministic |].
  exists {| Manifests := ["addons"] |}, {| Manifests := ["addons"] |}.
  assert (H1 : outcome (run (clusterHandler sampleCollaborators)
                          (generateOptionalAddonsChart (H := sampleExternals) sampleBotanist)
                          emptyCluster) = Returned (Ok {| Manifests := ["addons"] |}))
    by (vm_compute; reflexivity).
  assert (H2 : outcome (run (clusterHandler sampleCollaborators)
                          (generateOptionalAddonsChart (H := sampleExternals) sampleBotanist)
                          legacyCluster) = Returned (Ok {| Manifests := ["addons"] |}))
    by (vm_compute; reflexivity).
  split; [exact H1 |]. split; [exact H2 |].
  refine (proj1 (render_twice_same_bundle (H := sampleExternals))
            Cluster (clusterHandler sampleCollaborators)
            (clusterHandler_deterministic sampleCollaborators)
            sampleBotanist generateOptionalAddonsChart _
            emptyCluster legacyCluster _ _ H1 H2).
  rewrite !elem_of_cons. auto.
Defined.

(** * Further properties of the generators *)

(** ** The calls of a run *)

Lemma all_calls_trace {A W : Type} (P : forall X : Type, Op X -> Prop) (p : Prog A) :
  AllCalls P p ->
  forall (h : Handler W) (w : W), Forall (ev_holds P) (trace (run h p w)).
Proof.
  induction 1 as [a | msg | X op k Hop _ IH]; intros h w; cbn [run prepend trace].
  - constructor.
  - constructor.
  - constructor; [exact Hop | apply IH].
Qed.

Lemma AllCalls_try {X A : Type} (P : forall X : Type, Op X -> Prop)
    (op : Op (result X)) (k : X -> Prog (result A)) :
  P _ op -> (forall x, AllCalls P (k x)) -> AllCalls P (try op k).
Proof.
  intros Hop Hk. unfold try. constructor; [exact Hop |].
  intros [x | err]; [apply Hk | constructor].
Qed.

Lemma AllCalls_deref {X A : Type} (P : forall X : Type, Op X -> Prop)
    (p : option X) (k : X -> Prog A) :
  (forall x, p = Some x -> AllCalls P (k x)) -> AllCalls P (bind (deref p) k).
Proof. intros Hk. destruct p; cbn [deref bind]; [by apply Hk | constructor]. Qed.

Lemma AllCalls_range {A : Type} (P : forall X : Type, Op X -> Prop) items
    (k : Prog (result A)) :
  (forall name, P _ (DeleteDeployment NamespaceSystem name)) ->
  AllCalls P k -> AllCalls P (rangeHeapsterDeployments items k).
Proof.
  intros Hdel Hk. induction items as [| deployment rest IH]; cbn [rangeHeapsterDeployments];
    [exact Hk |].
  constructor; [apply Hdel |].
  intros [err |]; [destruct (IsNotFound err); cbn [negb] |]; try exact IH. constructor.
Qed.

Section CallsOfGenerators.
Context `{Externals}.

Lemma generateCoreAddonsChart_calls b : AllCalls (coreCalls b) (generateCoreAddonsChart b).
Proof.
  unfold generateCoreAddonsChart.
  do 4 (apply AllCalls_deref; intros ? _).
  do 6 (apply AllCalls_try; [reflexivity | intros ?]).
  apply AllCalls_deref; intros vpnShootSecret Hvpn.
  apply AllCalls_try; [cbn [coreCalls]; by rewrite Hvpn | intros ?].
  constructor; [by cbn [coreCalls] | intros ?; constructor].
Qed.

Lemma generateOptionalAddonsChart_calls b :
  AllCalls (optionalCalls b) (generateOptionalAddonsChart b).
Proof.
  unfold generateOptionalAddonsChart, cleanupHeapster.
  do 7 (apply AllCalls_try; [exact I | intros ?]).
  match goal with
  | |- context [mergeNginxIngressConfig b ?base] =>
      destruct (mergeNginxIngressConfig_shape b base) as [[config ->] | [msg ->]]
  end; cbn [bind]; [| constructor].
  do 6 (apply AllCalls_try; [reflexivity | intros ?]).
  apply AllCalls_try; [by cbn [optionalCalls] | intros ?].
  apply AllCalls_range; [reflexivity |].
  constructor; [by cbn [optionalCalls] | intros ?; constructor].
Qed.

Lemma generateAdmissionControlsChart_calls b :
  AllCalls admissionCalls (generateAdmissionControlsChart b).
Proof.
  unfold generateAdmissionControlsChart.
  apply AllCalls_try; [exact I | intros ?].
  constructor; [by cbn [admissionCalls] | intros ?; constructor].
Qed.

(** X1: whatever the collaborators answer, the core generator only calls
    the image resolver (for the shoot client's version), the create-or-update
    of the Opaque secret vpn-shoot in kube-system with the data of the
    vpn-shoot secret, and the renderer for shoot-core in kube-system: it
    never lists or deletes a deployment.  The optional generator never
    creates a secret; it lists with the heapster selector and deletes in
    kube-system only and renders addons from shoot-addons.  The admission
    generator calls nothing but its generator and the renderer for
    admission-controls: it never calls the cluster client. *)
Theorem generators_call_forms {W : Type} (h : Handler W) (w : W) (b : HybridBotanist) :
  Forall (ev_holds (coreCalls b)) (trace (run h (generateCoreAddonsChart b) w))
  /\ Forall (fun ev => ev_is (@isClientOp) ev = ev_is (@isCreateSecret) ev)
       (trace (run h (generateCoreAddonsChart b) w))
  /\ Forall (ev_holds (optionalCalls b)) (trace (run h (generateOptionalAddonsChart b) w))
  /\ Forall (fun ev => ev_is (@isCreateSecret) ev = false)
       (trace (run h (generateOptionalAddonsChart b) w))
  /\ Forall (ev_holds admissionCalls) (trace (run h (generateAdmissionControlsChart b) w))
  /\ Forall (fun ev => ev_is (@isClientOp) ev = false)
       (trace (run h (generateAdmissionControlsChart b) w)).
Proof.
  pose proof (all_calls_trace _ _ (generateCoreAddonsChart_calls b) h w) as Hcore.
  pose proof (all_calls_trace _ _ (generateOptionalAddonsChart_calls b) h w) as Hopt.
  pose proof (all_calls_trace _ _ (generateAdmissionControlsChart_calls b) h w) as Hadm.
  split; [exact Hcore |]. split.
  { eapply Forall_impl; [exact Hcore |]. intros [X op r] Hop. by destruct op. }
  split; [exact Hopt |]. split.
  { eapply Forall_impl; [exact Hopt |]. intros [X op r] Hop. by destruct op. }
  split; [exact Hadm |].
  eapply Forall_impl; [exact Hadm |]. intros [X op r] Hop. by destruct op.
Qed.

End CallsOfGenerators.

(** ** The chart comes from the renderer *)

Lemma renders_last_run {W : Type} (p : Prog (result RenderedChart)) :
  RendersLast p -> forall (h : Handler W) (w : W), ChartFromRenderer (run h p w).
Proof.
  induction 1 as [err | msg | chartPath releaseName namespace values | X op k Hop _ IH];
    intros h w; unfold ChartFromRenderer.
  - split; [intros chart [=] | intros [| ? ?] ev post [=]].
  - split; [intros chart [=] | intros [| ? ?] ev post [=]].
  - rewrite run_Call_Return. cbn [outcome trace].
    set (answer := (h _ (Render chartPath releaseName namespace values) w).1).
    split.
    + intros chart Hout. apply (f_equal chart_of) in Hout. cbn [chart_of] in Hout.
      exists [], (Ev (Render chartPath releaseName namespace values) answer).
      split; [reflexivity |]. cbn [ev_chart]. by destruct answer.
    + intros pre ev post Htr _. destruct pre as [| ev0 pre].
      * injection Htr as <- <-. split; [reflexivity |].
        cbn [ev_chart ev_error op_error chart_of error_of]. by destruct answer.
      * injection Htr as _ Hnil. by destruct pre.
  - cbn [run prepend outcome trace].
    destruct (IH (h _ op w).1 h (h _ op w).2) as [Hchart Hlast]. split.
    + intros chart Hout. destruct (Hchart chart Hout) as (pre & ev & Htr & Hev).
      exists (Ev op (h _ op w).1 :: pre), ev. by rewrite Htr.
    + intros pre ev post Htr Hrender. destruct pre as [| ev0 pre].
      * injection Htr as <- _. cbn [ev_is] in Hrender. congruence.
      * injection Htr as _ Htr. exact (Hlast pre ev post Htr Hrender).
Qed.

Lemma RendersLast_try {X : Type} (op : Op (result X))
    (k : X -> Prog (result RenderedChart)) :
  isRender op = false -> (forall x, RendersLast (k x)) -> RendersLast (try op k).
Proof.
  intros Hop Hk. unfold try. apply RendersLast_Call; [exact Hop |].
  intros [x | err]; [apply Hk | constructor].
Qed.

Lemma RendersLast_deref {X : Type} (p : option X) (k : X -> Prog (result RenderedChart)) :
  (forall x, RendersLast (k x)) -> RendersLast (bind (deref p) k).
Proof. intros Hk. destruct p; cbn [deref bind]; [apply Hk | constructor]. Qed.

Lemma RendersLast_range items (k : Prog (result RenderedChart)) :
  RendersLast k -> RendersLast (rangeHeapsterDeployments items k).
Proof.
  intros Hk. induction items as [| deployment rest IH]; cbn [rangeHeapsterDeployments];
    [exact Hk |].
  apply RendersLast_Call; [reflexivity |].
  intros [err |]; [destruct (IsNotFound err); cbn [negb] |]; try exact IH. constructor.
Qed.

Section ChartFromRenderer.
Context `{Externals}.

Lemma generateCoreAddonsChart_renders_last b : RendersLast (generateCoreAddonsChart b).
Proof.
  unfold generateCoreAddonsChart.
  do 4 (apply RendersLast_deref; intros ?).
  do 6 (apply RendersLast_try; [reflexivity | intros ?]).
  apply RendersLast_deref; intros ?.
  apply RendersLast_try; [reflexivity | intros ?].
  apply RendersLast_Render.
Qed.

Lemma generateOptionalAddonsChart_renders_last b :
  RendersLast (generateOptionalAddonsChart b).
Proof.
  unfold generateOptionalAddonsChart, cleanupHeapster.
  do 7 (apply RendersLast_try; [reflexivity | intros ?]).
  match goal with
  | |- context [mergeNginxIngressConfig b ?base] =>
      destruct (mergeNginxIngressConfig_shape b base) as [[config ->] | [msg ->]]
  end; cbn [bind]; [| constructor].
  do 7 (apply RendersLast_try; [reflexivity | intros ?]).
  apply RendersLast_range, RendersLast_Render.
Qed.

Lemma generateAdmissionControlsChart_renders_last b :
  RendersLast (generateAdmissionControlsChart b).
Proof.
  unfold generateAdmissionControlsChart.
  apply RendersLast_try; [reflexivity | intros ?]. apply RendersLast_Render.
Qed.

(** X2: a generator hands back a chart only when its last call was a
    rendering that answered this chart; a rendering is never followed by a
    further call, and what the renderer answers, chart or error, is what the
    generator hands back. *)
Theorem chart_comes_from_renderer {W : Type} (h : Handler W) (w : W) (b : HybridBotanist) :
  ChartFromRenderer (run h (generateCoreAddonsChart b) w)
  /\ ChartFromRenderer (run h (generateOptionalAddonsChart b) w)
  /\ ChartFromRenderer (run h (generateAdmissionControlsChart b) w).
Proof.
  split; [| split]; apply renders_last_run.
  - apply generateCoreAddonsChart_renders_last.
  - apply generateOptionalAddonsChart_renders_last.
  - apply generateAdmissionControlsChart_renders_last.
Qed.

End ChartFromRenderer.

(** ** The shape of the runs *)

(** One call, keeping the equation of the collaborator's answer. *)
Ltac run_step_eq x w' Heq :=
  rewrite run_try_eq;
  match goal with
  | |- context [(?h ?X ?op ?w).1] =>
      let e := fresh "err" in
      destruct (h X op w) as [[x | e] w'] eqn:Heq;
      cbn [fst snd prepend outcome trace final]
  end.

(** A run that stopped before any call to the cluster client or the
    renderer. *)
Ltac stopped_early :=
  left; split;
  [ repeat (constructor; [split; reflexivity |]); constructor
  | reflexivity ].

Section RunShapes.
Context `{Externals} {W : Type} (h : Handler W).

(** The optional generator either stops while it composes, having called
    neither the cluster client nor the renderer, or gets to the cleanup after
    thirteen successful composing calls. *)
Lemma optional_run_cases (w : W) (b : HybridBotanist) :
  let r := run h (generateOptionalAddonsChart b) w in
  (Forall (fun ev => ev_is (@isClientOp) ev = false /\ ev_is (@isRender) ev = false) (trace r)
   /\ chart_of (outcome r) = None)
  \/ exists clusterAutoscalerConfig helmTillerConfig kubeLegoConfig kube2IAMConfig
            kubernetesDashboardConfig monocularConfig base nginxIngressConfig
            helmTiller kubeLego kube2IAM kubernetesDashboard monocular nginxIngress
            im1 im2 im3 im4 im5 im6,
       let pre :=
         [ Ev GenerateClusterAutoscalerConfig (Ok clusterAutoscalerConfig);
           Ev GenerateHelmTillerConfig (Ok helmTillerConfig);
           Ev GenerateKubeLegoConfig (Ok kubeLegoConfig);
           Ev GenerateKube2IAMConfig (Ok kube2IAMConfig);
           Ev GenerateKubernetesDashboardConfig (Ok kubernetesDashboardConfig);
           Ev GenerateMonocularConfig (Ok monocularConfig);
           Ev GenerateNginxIngressConfig (Ok base);
           Ev (InjectImages helmTillerConfig (K8sShootClient_Version b) im1) (Ok helmTiller);
           Ev (InjectImages kubeLegoConfig (K8sShootClient_Version b) im2) (Ok kubeLego);
           Ev (InjectImages kube2IAMConfig (K8sShootClient_Version b) im3) (Ok kube2IAM);
           Ev (InjectImages kubernetesDashboardConfig (K8sShootClient_Version b) im4)
              (Ok kubernetesDashboard);
           Ev (InjectImages monocularConfig (K8sShootClient_Version b) im5) (Ok monocular);
           Ev (InjectImages nginxIngressConfig (K8sShootClient_Version b) im6)
              (Ok nginxIngress) ] in
       let rest :=
         run h (cleanupHeapster
                  (Call (Render (filepath_Join ChartPath "shoot-addons") "addons"
                           NamespaceSystem
                           (optionalValues clusterAutoscalerConfig helmTiller kubeLego
                              kube2IAM kubernetesDashboard monocular nginxIngress))
                        Return))
             (worldAfter h pre w) in
       mergeNginxIngressConfig b base = Return nginxIngressConfig
       /\ trace r = pre ++ trace rest
       /\ outcome r = outcome rest
       /\ final r = final rest.
Proof.
  cbv zeta. unfold generateOptionalAddonsChart.
  run_step_eq clusterAutoscalerConfig w1 E1; [| stopped_early].
  run_step_eq helmTillerConfig w2 E2; [| stopped_early].
  run_step_eq kubeLegoConfig w3 E3; [| stopped_early].
  run_step_eq kube2IAMConfig w4 E4; [| stopped_early].
  run_step_eq kubernetesDashboardConfig w5 E5; [| stopped_early].
  run_step_eq monocularConfig w6 E6; [| stopped_early].
  run_step_eq base w7 E7; [| stopped_early].
  destruct (mergeNginxIngressConfig_shape b base) as [[config Hmerge] | [msg Hmerge]];
    rewrite Hmerge; cbn [bind run outcome trace]; [| stopped_early].
  run_step_eq helmTiller w8 E8; [| stopped_early].
  run_step_eq kubeLego w9 E9; [| stopped_early].
  run_step_eq kube2IAM w10 E10; [| stopped_early].
  run_step_eq kubernetesDashboard w11 E11; [| stopped_early].
  run_step_eq monocular w12 E12; [| stopped_early].
  run_step_eq nginxIngress w13 E13; [| stopped_early].
  right.
  exists clusterAutoscalerConfig, helmTillerConfig, kubeLegoConfig, kube2IAMConfig,
    kubernetesDashboardConfig, monocularConfig, base, config,
    helmTiller, kubeLego, kube2IAM, kubernetesDashboard, monocular, nginxIngress.
  do 6 eexists.
  cbn [worldAfter foldl].
  rewrite E1; cbn [snd]. rewrite E2; cbn [snd]. rewrite E3; cbn [snd].
  rewrite E4; cbn [snd]. rewrite E5; cbn [snd]. rewrite E6; cbn [snd].
  rewrite E7; cbn [snd]. rewrite E8; cbn [snd]. rewrite E9; cbn [snd].
  rewrite E10; cbn [snd]. rewrite E11; cbn [snd]. rewrite E12; cbn [snd].
  rewrite E13; cbn [snd].
  split; [exact Hmerge |]. split; [reflexivity |]. split; reflexivity.
Qed.

End RunShapes.

Section CoreRunShape.
Context `{Externals} {W : Type} (h : Handler W).

(** The core generator either stops while it composes, having called
    neither the cluster client nor the renderer, or gets to the vpn-shoot
    secret after six successful image resolutions. *)
Lemma core_run_cases (w : W) (b : HybridBotanist) :
  let r := run h (generateCoreAddonsChart b) w in
  (Forall (fun ev => ev_is (@isClientOp) ev = false /\ ev_is (@isRender) ev = false) (trace r)
   /\ chart_of (outcome r) = None)
  \/ exists kubeProxySecret caMetricsServer metricsServerSecret vpnTLSAuthSecret
            calico kubeDNS kubeProxy metricsServer vpnShoot nodeExporter
            im1 im2 im3 im4 im5 im6,
       let pre :=
         [ Ev (InjectImages (calicoConfig b) (K8sShootClient_Version b) im1) (Ok calico);
           Ev (InjectImages (kubeDNSConfig b) (K8sShootClient_Version b) im2) (Ok kubeDNS);
           Ev (InjectImages (withFeatureGates b (kubeProxyConfig b kubeProxySecret))
                 (K8sShootClient_Version b) im3) (Ok kubeProxy);
           Ev (InjectImages (metricsServerConfig caMetricsServer metricsServerSecret)
                 (K8sShootClient_Version b) im4) (Ok metricsServer);
           Ev (InjectImages (withDiffieHellmanKey b (vpnShootConfig b vpnTLSAuthSecret))
                 (K8sShootClient_Version b) im5) (Ok vpnShoot);
           Ev (InjectImages nodeExporterConfig (K8sShootClient_Version b) im6)
              (Ok nodeExporter) ] in
       let rest :=
         run h (bind (deref (Secrets b !! "vpn-shoot"))
                  (fun vpnShootSecret =>
                     try (CreateSecret NamespaceSystem "vpn-shoot" SecretTypeOpaque
                            (Data vpnShootSecret) true)
                       (fun _ =>
                          Call (Render (filepath_Join ChartPath "shoot-core") "shoot-core"
                                  NamespaceSystem
                                  (coreValues (global b) kubeDNS kubeProxy vpnShoot calico
                                     metricsServer nodeExporter))
                               Return)))
             (worldAfter h pre w) in
       Secrets b !! "kube-proxy" = Some kubeProxySecret
       /\ Secrets b !! "ca-metrics-server" = Some caMetricsServer
       /\ Secrets b !! "metrics-server" = Some metricsServerSecret
       /\ Secrets b !! "vpn-seed-tlsauth" = Some vpnTLSAuthSecret
       /\ trace r = pre ++ trace rest
       /\ outcome r = outcome rest
       /\ final r = final rest.
Proof.
  cbv zeta. unfold generateCoreAddonsChart.
  destruct (Secrets b !! "kube-proxy") as [kp |]; cbn [deref bind run outcome trace];
    [| stopped_early].
  destruct (Secrets b !! "ca-metrics-server") as [ca |]; cbn [deref bind run outcome trace];
    [| stopped_early].
  destruct (Secrets b !! "metrics-server") as [ms |]; cbn [deref bind run outcome trace];
    [| stopped_early].
  destruct (Secrets b !! "vpn-seed-tlsauth") as [tls |]; cbn [deref bind run outcome trace];
    [| stopped_early].
  run_step_eq calico w1 E1; [| stopped_early].
  run_step_eq kubeDNS w2 E2; [| stopped_early].
  run_step_eq kubeProxy w3 E3; [| stopped_early].
  run_step_eq metricsServer w4 E4; [| stopped_early].
  run_step_eq vpnShoot w5 E5; [| stopped_early].
  run_step_eq nodeExporter w6 E6; [| stopped_early].
  right. exists kp, ca, ms, tls, calico, kubeDNS, kubeProxy, metricsServer, vpnShoot,
    nodeExporter.
  do 6 eexists.
  cbn [worldAfter foldl].
  rewrite E1; cbn [snd]. rewrite E2; cbn [snd]. rewrite E3; cbn [snd].
  rewrite E4; cbn [snd]. rewrite E5; cbn [snd]. rewrite E6; cbn [snd].
  do 4 (split; [reflexivity |]).
  split; [reflexivity |]. split; reflexivity.
Qed.

(** Without one of the four secrets read for the configurations, the core
    generator panics before it calls anything. *)
Lemma core_panics_at_once (w : W) (b : HybridBotanist) :
  Secrets b !! "kube-proxy" = None \/ Secrets b !! "ca-metrics-server" = None
  \/ Secrets b !! "metrics-server" = None \/ Secrets b !! "vpn-seed-tlsauth" = None ->
  panicked (outcome (run h (generateCoreAddonsChart b) w)) = true
  /\ trace (run h (generateCoreAddonsChart b) w) = [].
Proof.
  intros Hmissing. unfold generateCoreAddonsChart.
  destruct (Secrets b !! "kube-proxy") as [kp |]; cbn [deref bind run outcome trace];
    [| done].
  destruct (Secrets b !! "ca-metrics-server") as [ca |]; cbn [deref bind run outcome trace];
    [| done].
  destruct (Secrets b !! "metrics-server") as [ms |]; cbn [deref bind run outcome trace];
    [| done].
  destruct (Secrets b !! "vpn-seed-tlsauth") as [tls |]; cbn [deref bind run outcome trace];
    [| done].
  by destruct Hmissing as [[=] | [[=] | [[=] | [=]]]].
Qed.

End CoreRunShape.

(** ** What is called after the composition *)

Lemma composed_projections (pre : list Event) :
  Forall composed pre ->
  deletions pre = [] /\ omap ev_listed pre = [] /\ renderedValues pre = []
  /\ Forall (fun ev => ~ clientOrRender ev) pre.
Proof.
  intros Hpre. repeat split.
  - apply omap_nil_Forall. eapply Forall_impl; [exact Hpre |].
    intros [X op r] (Hclient & _ & _). by destruct op.
  - apply omap_nil_Forall. eapply Forall_impl; [exact Hpre |].
    intros [X op r] (Hclient & _ & _). by destruct op.
  - apply omap_nil_Forall. eapply Forall_impl; [exact Hpre |].
    intros [X op r] (_ & Hrender & _). by destruct op.
  - eapply Forall_impl; [exact Hpre |].
    intros ev (Hclient & Hrender & _) [Hc | Hr]; congruence.
Qed.

Lemma not_clientOrRender (tr : list Event) :
  Forall (fun ev => ev_is (@isClientOp) ev = false /\ ev_is (@isRender) ev = false) tr ->
  ~ Exists clientOrRender tr.
Proof.
  intros Hall Hex. apply Exists_exists in Hex as (ev & Hin & Hev).
  rewrite Forall_forall in Hall. destruct (Hall ev Hin) as [Hclient Hrender].
  destruct Hev; congruence.
Qed.

Section AfterComposition.
Context `{Externals} {W : Type} (h : Handler W).

(** What follows the six image resolutions of the core generator. *)
Lemma core_rest_cases (w' : W) (b : HybridBotanist) (values : Values) :
  let rest :=
    run h (bind (deref (Secrets b !! "vpn-shoot"))
             (fun vpnShootSecret =>
                try (CreateSecret NamespaceSystem "vpn-shoot" SecretTypeOpaque
                       (Data vpnShootSecret) true)
                  (fun _ =>
                     Call (Render (filepath_Join ChartPath "shoot-core") "shoot-core"
                             NamespaceSystem values) Return)))
        w' in
  (Secrets b !! "vpn-shoot" = None /\ trace rest = []
   /\ panicked (outcome rest) = true /\ final rest = w')
  \/ (exists vpnShootSecret err,
        Secrets b !! "vpn-shoot" = Some vpnShootSecret
        /\ trace rest = [ Ev (CreateSecret NamespaceSystem "vpn-shoot" SecretTypeOpaque
                                (Data vpnShootSecret) true) (Err err) ]
        /\ outcome rest = Returned (Err err))
  \/ (exists vpnShootSecret created answer,
        Secrets b !! "vpn-shoot" = Some vpnShootSecret
        /\ trace rest = [ Ev (CreateSecret NamespaceSystem "vpn-shoot" SecretTypeOpaque
                                (Data vpnShootSecret) true) (Ok created);
                          Ev (Render (filepath_Join ChartPath "shoot-core") "shoot-core"
                                NamespaceSystem values) answer ]
        /\ outcome rest = Returned answer).
Proof.
  cbv zeta. destruct (Secrets b !! "vpn-shoot") as [vpn |]; cbn [deref bind].
  - right. run_step created w1.
    + right. rewrite run_Call_Return. cbn [outcome trace]. eauto 10.
    + left. eauto 10.
  - left. auto.
Qed.

(** X3: in any run of the core generator, a call to the cluster client or
    to the renderer is made only after six image resolutions, the first six
    calls of the run, all answered without an error, and the seventh call is
    the creation of the vpn-shoot secret; so a failed image resolution means
    that nothing was written to the cluster and nothing was rendered. *)
Theorem core_writes_after_resolution (w : W) (b : HybridBotanist) :
  let r := run h (generateCoreAddonsChart b) w in
  (Exists clientOrRender (trace r) ->
     length (take 6 (trace r)) = 6
     /\ Forall (fun ev => ev_is (@isInjectImages) ev = true /\ ev_error ev = None)
          (take 6 (trace r))
     /\ ev_is (@isCreateSecret) <$> trace r !! 6%nat = Some true
     /\ length (trace r) <= 8)
  /\ (Exists (fun ev => ev_is (@isInjectImages) ev = true /\ ev_error ev <> None) (trace r) ->
      Forall (fun ev => ~ clientOrRender ev) (trace r)
      /\ chart_of (outcome r) = None).
Proof.
  cbv zeta.
  destruct (core_run_cases h w b)
    as [[Hnone Hchart]
       | (kp & ca & ms & tls & calico & kubeDNS & kubeProxy & metricsServer & vpnShoot
          & nodeExporter & im1 & im2 & im3 & im4 & im5 & im6 & Hshape)].
  - split.
    + intros Hex. by destruct (not_clientOrRender _ Hnone).
    + intros _. split; [| exact Hchart].
      eapply Forall_impl; [exact Hnone |]. intros ev [Hc Hr] [? | ?]; congruence.
  - cbv zeta in Hshape. destruct Hshape as (_ & _ & _ & _ & Htr & Hout & _).
    rewrite Htr, Hout. clear Htr Hout.
    match goal with
    | |- context [trace ?rest] =>
        destruct (core_rest_cases (worldAfter h
          [ Ev (InjectImages (calicoConfig b) (K8sShootClient_Version b) im1) (Ok calico);
            Ev (InjectImages (kubeDNSConfig b) (K8sShootClient_Version b) im2) (Ok kubeDNS);
            Ev (InjectImages (withFeatureGates b (kubeProxyConfig b kp))
                  (K8sShootClient_Version b) im3) (Ok kubeProxy);
            Ev (InjectImages (metricsServerConfig ca ms) (K8sShootClient_Version b) im4)
               (Ok metricsServer);
            Ev (InjectImages (withDiffieHellmanKey b (vpnShootConfig b tls))
                  (K8sShootClient_Version b) im5) (Ok vpnShoot);
            Ev (InjectImages nodeExporterConfig (K8sShootClient_Version b) im6)
               (Ok nodeExporter) ] w) b
          (coreValues (global b) kubeDNS kubeProxy vpnShoot calico metricsServer
             nodeExporter))
          as [(_ & Hrest & Hpanic & _)
             | [(vpn & err & _ & Hrest & Hout) | (vpn & created & answer & _ & Hrest & Hout)]]
    end; cbv zeta in Hrest; rewrite Hrest.
    + split.
      * intros Hex. exfalso. revert Hex. cbn [app].
        intros Hex. repeat (apply Exists_cons in Hex as [[Hc | Hr] | Hex]; try discriminate).
        by apply Exists_nil in Hex.
      * intros Hex. exfalso. revert Hex. cbn [app]. intros Hex.
        repeat (apply Exists_cons in Hex as [[_ Herr] | Hex]; [by apply Herr |]).
        by apply Exists_nil in Hex.
    + split.
      * intros _. cbn [app take length lookup list_lookup fmap option_fmap option_map
                       ev_is isCreateSecret].
        split; [reflexivity |]. split; [repeat constructor |]. split; [reflexivity | lia].
      * intros Hex. exfalso. revert Hex. cbn [app]. intros Hex.
        repeat (apply Exists_cons in Hex as [[Hinj Herr] | Hex];
                [first [by apply Herr | discriminate Hinj] |]).
        by apply Exists_nil in Hex.
    + split.
      * intros _. cbn [app take length lookup list_lookup fmap option_fmap option_map
                       ev_is isCreateSecret].
        split; [reflexivity |]. split; [repeat constructor |]. split; [reflexivity | lia].
      * intros Hex. exfalso. revert Hex. cbn [app]. intros Hex.
        repeat (apply Exists_cons in Hex as [[Hinj Herr] | Hex];
                [first [by apply Herr | discriminate Hinj] |]).
        by apply Exists_nil in Hex.
Qed.

End AfterComposition.

(** ** The cleanup with any collaborators *)

Lemma deletions_cons_delete namespace name answer (tr : list Event) :
  deletions (Ev (DeleteDeployment namespace name) answer :: tr) = name :: deletions tr.
Proof. unfold deletions. by rewrite omap_cons_eq. Qed.

Lemma Forall_not_Exists {A : Type} (P Q : A -> Prop) (l : list A) :
  Forall P l -> (forall x, P x -> Q x -> False) -> ~ Exists Q l.
Proof.
  intros Hall Hno Hex. apply Exists_exists in Hex as (x & Hin & Hx).
  rewrite Forall_forall in Hall. exact (Hno x (Hall x Hin) Hx).
Qed.

Section CleanupRuns.
Context `{Externals} {W : Type} (h : Handler W).

(** The loop either deletes every item and goes on with [k], or stops at
    the first delete answered with an error other than not-found. *)
Lemma range_run_cases {A : Type} items (k : Prog (result A)) (w : W) :
  let r := run h (rangeHeapsterDeployments items k) w in
  exists dels,
    Forall (fun ev => ev_is (@isDeleteDeployment) ev = true) dels
    /\ ((exists w', trace r = dels ++ trace (run h k w')
                    /\ outcome r = outcome (run h k w')
                    /\ final r = final (run h k w')
                    /\ deletions dels = Name <$> items)
        \/ (exists err, trace r = dels /\ outcome r = Returned (Err err)
                        /\ deletions dels `prefix_of` (Name <$> items)
                        /\ IsNotFound err = false)).
Proof.
  cbv zeta. revert w. induction items as [| deployment rest IH]; intros w.
  - exists []. split; [constructor |]. left. exists w. auto.
  - cbn [rangeHeapsterDeployments run prepend outcome trace final].
    destruct (h _ (DeleteDeployment NamespaceSystem (Name deployment)) w) as [answer w1].
    cbn [fst snd].
    destruct answer as [err |]; [destruct (IsNotFound err) eqn:Hnf |].
    + cbn [negb].
      destruct (IH w1) as (dels & Hdels & Hcases).
      exists (Ev (DeleteDeployment NamespaceSystem (Name deployment)) (Some err) :: dels).
      split; [by constructor |]. rewrite deletions_cons_delete. cbn [fmap list_fmap].
      destruct Hcases as [(w' & -> & -> & -> & ->) | (err' & -> & -> & Hpre & Hnf')].
      * left. exists w'. auto.
      * right. exists err'. repeat split; [by apply prefix_cons | exact Hnf'].
    + cbn [negb run outcome trace].
      exists [Ev (DeleteDeployment NamespaceSystem (Name deployment)) (Some err)].
      split; [by repeat constructor |]. right. exists err.
      rewrite deletions_cons_delete. cbn [fmap list_fmap].
      repeat split; [apply prefix_cons, prefix_nil | exact Hnf].
    + destruct (IH w1) as (dels & Hdels & Hcases).
      exists (Ev (DeleteDeployment NamespaceSystem (Name deployment)) None :: dels).
      split; [by constructor |]. rewrite deletions_cons_delete. cbn [fmap list_fmap].
      destruct Hcases as [(w' & -> & -> & -> & ->) | (err' & -> & -> & Hpre & Hnf')].
      * left. exists w'. auto.
      * right. exists err'. repeat split; [by apply prefix_cons | exact Hnf'].
Qed.

(** The cleanup followed by the rendering: the listing fails, or a delete
    fails, or everything listed is deleted and the renderer is called. *)
Lemma cleanup_run_cases (values : Values) (w : W) :
  let render := Call (Render (filepath_Join ChartPath "shoot-addons") "addons"
                        NamespaceSystem values) Return in
  let r := run h (cleanupHeapster render) w in
  (exists err,
     trace r = [Ev (ListDeployments NamespaceSystem heapsterListOptions) (Err err)]
     /\ outcome r = Returned (Err err))
  \/ exists listing dels,
       Forall (fun ev => ev_is (@isDeleteDeployment) ev = true) dels
       /\ ((exists answer,
              trace r = Ev (ListDeployments NamespaceSystem heapsterListOptions) (Ok listing)
                        :: dels
                        ++ [Ev (Render (filepath_Join ChartPath "shoot-addons") "addons"
                                  NamespaceSystem values) answer]
              /\ outcome r = Returned answer
              /\ deletions dels = Name <$> Items listing)
           \/ (exists err,
                 trace r = Ev (ListDeployments NamespaceSystem heapsterListOptions)
                             (Ok listing) :: dels
                 /\ outcome r = Returned (Err err)
                 /\ deletions dels `prefix_of` (Name <$> Items listing)
                 /\ IsNotFound err = false)).
Proof.
  cbv zeta. unfold cleanupHeapster. run_step listing w1.
  - right. exists listing.
    destruct (range_run_cases (Items listing)
                (Call (Render (filepath_Join ChartPath "shoot-addons") "addons"
                         NamespaceSystem values) Return) w1)
      as (dels & Hdels & [(w' & -> & -> & _ & Hall) | (err & -> & -> & Hpre & Hnf)]).
    + exists dels. split; [exact Hdels |]. left. rewrite run_Call_Return.
      cbn [trace outcome]. eexists. split; [reflexivity |]. split; [reflexivity | exact Hall].
    + exists dels. split; [exact Hdels |]. right. exists err. auto.
  - left. eauto.
Qed.

End CleanupRuns.

Lemma delete_events_projections (dels : list Event) :
  Forall (fun ev => ev_is (@isDeleteDeployment) ev = true) dels ->
  omap ev_listed dels = [] /\ renderedValues dels = []
  /\ Forall (fun ev => ev_is (@isClientOp) ev = true) dels.
Proof.
  intros Hdels. repeat split.
  - apply omap_nil_Forall. eapply Forall_impl; [exact Hdels |].
    intros [X op r] Hop. by destruct op.
  - apply omap_nil_Forall. eapply Forall_impl; [exact Hdels |].
    intros [X op r] Hop. by destruct op.
  - eapply Forall_impl; [exact Hdels |]. intros [X op r] Hop. by destruct op.
Qed.

Section OptionalCleanup.
Context `{Externals} {W : Type} (h : Handler W).

Lemma optional_run_split (w : W) (b : HybridBotanist) :
  let r := run h (generateOptionalAddonsChart b) w in
  (Forall (fun ev => ev_is (@isClientOp) ev = false /\ ev_is (@isRender) ev = false) (trace r)
   /\ chart_of (outcome r) = None)
  \/ exists pre values,
       let rest :=
         run h (cleanupHeapster
                  (Call (Render (filepath_Join ChartPath "shoot-addons") "addons"
                           NamespaceSystem values) Return))
             (worldAfter h pre w) in
       length pre = 13 /\ Forall composed pre
       /\ trace r = pre ++ trace rest /\ outcome r = outcome rest /\ final r = final rest.
Proof.
  cbv zeta.
  destruct (optional_run_cases h w b)
    as [Hearly
       | (c1 & c2 & c3 & c4 & c5 & c6 & base & config & r1 & r2 & r3 & r4 & r5 & r6
          & im1 & im2 & im3 & im4 & im5 & im6 & Hshape)]; [by left |].
  cbv zeta in Hshape. destruct Hshape as (_ & Htr & Hout & Hfinal).
  right. eexists _, _. split; [| split; [| split; [exact Htr | split; [exact Hout | exact Hfinal]]]].
  - reflexivity.
  - repeat (constructor; [repeat split |]). constructor.
Qed.

(** X4: in any run of the optional generator, a call to the cluster client
    or to the renderer is made only after thirteen composing calls, the
    first thirteen of the run (seven configuration generators, six image
    resolutions), all answered without an error, and the fourteenth call is
    the listing of the deployments; so a failed generator or image resolution
    means that nothing was listed, deleted or rendered. *)
Theorem optional_cleans_after_composition (w : W) (b : HybridBotanist) :
  let r := run h (generateOptionalAddonsChart b) w in
  (Exists clientOrRender (trace r) ->
     length (take 13 (trace r)) = 13
     /\ Forall composed (take 13 (trace r))
     /\ ev_is (@isListDeployments) <$> trace r !! 13%nat = Some true)
  /\ (Exists (fun ev => ~ clientOrRender ev /\ ev_error ev <> None) (trace r) ->
      Forall (fun ev => ~ clientOrRender ev) (trace r)
      /\ chart_of (outcome r) = None).
Proof.
  cbv zeta.
  destruct (optional_run_split w b)
    as [[Hnone Hchart] | (pre & values & Hshape)].
  - split.
    + intros Hex. by destruct (not_clientOrRender _ Hnone).
    + intros _. split; [| exact Hchart].
      eapply Forall_impl; [exact Hnone |]. intros ev [Hc Hr] [? | ?]; congruence.
  - cbv zeta in Hshape. destruct Hshape as (Hlen & Hpre & Htr & Hout & _).
    rewrite Htr. split.
    + intros _. rewrite take_app_length' by done. split; [exact Hlen |].
      split; [exact Hpre |].
      rewrite lookup_app_r by lia. rewrite Hlen, Nat.sub_diag.
      unfold cleanupHeapster. rewrite run_try_eq.
      by destruct (h _ (ListDeployments NamespaceSystem heapsterListOptions) _).1.
    + intros Hex. exfalso. apply Exists_app in Hex as [Hex | Hex].
      * revert Hex. eapply Forall_not_Exists; [exact Hpre |].
        intros ev (_ & _ & Hok) [_ Herr]. by apply Herr.
      * revert Hex. eapply Forall_not_Exists.
        { apply (all_calls_trace
                   (fun X op => isClientOp op = true \/ isRender op = true)).
          unfold cleanupHeapster. apply AllCalls_try; [by left | intros listing].
          apply AllCalls_range; [by left |].
          constructor; [by right | intros ?; constructor]. }
        intros [X op r] Hop [Hnot _]. by apply Hnot.
Qed.

(** X5: in any run of the optional generator, the deployments a delete is
    called for are, in this order, a prefix of the names the listing
    answered, each once, and none when no listing was answered; in a run
    that gets to the rendering a delete was called for every listed name. *)
Theorem optional_deletes_what_was_listed (w : W) (b : HybridBotanist) :
  let r := run h (generateOptionalAddonsChart b) w in
  exists items,
    (omap ev_listed (trace r) = [items] \/ (omap ev_listed (trace r) = [] /\ items = []))
    /\ deletions (trace r) `prefix_of` (Name <$> items)
    /\ (renderedValues (trace r) <> [] ->
        omap ev_listed (trace r) = [items] /\ deletions (trace r) = Name <$> items).
Proof.
  cbv zeta.
  destruct (optional_run_split w b)
    as [[Hnone Hchart] | (pre & values & Hshape)].
  - assert (Hcomposed : deletions (trace (run h (generateOptionalAddonsChart b) w)) = []
                        /\ omap ev_listed (trace (run h (generateOptionalAddonsChart b) w)) = []
                        /\ renderedValues (trace (run h (generateOptionalAddonsChart b) w)) = []).
    { repeat split; apply omap_nil_Forall; (eapply Forall_impl; [exact Hnone |]);
        intros [X op r] [Hc Hr]; by destruct op. }
    destruct Hcomposed as (-> & -> & ->).
    exists []. split; [by right |]. split; [apply prefix_nil | done].
  - cbv zeta in Hshape. destruct Hshape as (_ & Hpre & Htr & _ & _).
    destruct (composed_projections pre Hpre) as (Hd & Hl & Hr & _).
    rewrite Htr. unfold deletions, renderedValues in *.
    rewrite !omap_app, Hd, Hl, Hr. cbn [app].
    destruct (cleanup_run_cases h values (worldAfter h pre w))
      as [(err & -> & _)
         | (listing & dels & Hdels & [(answer & -> & _ & Hall) | (err & -> & _ & Hprefix & _)])].
    + exists []. split; [by right |]. split; [apply prefix_nil | done].
    + destruct (delete_events_projections dels Hdels) as (Hdl & Hdr & _).
      unfold renderedValues, deletions in *.
      exists (Items listing).
      rewrite !omap_cons_eq. cbn [ev_listed ev_deleted ev_rendered].
      rewrite !omap_app, Hdl, Hdr, Hall, !omap_cons_eq. cbn [ev_listed ev_deleted ev_rendered].
      cbn [omap list_omap app]. rewrite app_nil_r. auto.
    + destruct (delete_events_projections dels Hdels) as (Hdl & Hdr & _).
      unfold renderedValues, deletions in *.
      exists (Items listing).
      rewrite !omap_cons_eq. cbn [ev_listed ev_deleted ev_rendered].
      rewrite Hdl, Hdr. split; [by left |]. split; [exact Hprefix | done].
Qed.

End OptionalCleanup.

(** ** The configurations of the core bundle *)

Lemma lookup_total_missing (m : gmap string (list byte)) (key : string) :
  m !! key = None -> m !!! key = [].
Proof. intros Hmissing. unfold lookup_total, map_lookup_total. by rewrite Hmissing. Qed.

Section CoreConfigurations.
Context `{Externals} {W : Type} (h : Handler W).

(** X6: the optional fields of the configurations the core generator
    composes.  The kube-proxy configuration has featureGates exactly when
    the shoot configures the proxy, and then its feature gates; the
    vpn-shoot configuration has diffieHellmanKey exactly when the bundle has
    the Diffie-Hellman secret, and then its dh2048.pem entry.  A secret
    that is present but lacks the entry read from it is not detected: the
    kubeconfig, the tlsAuth key and the CA bundle are then empty. *)
Theorem core_optional_fields (w : W) (b : HybridBotanist) (chart : RenderedChart) :
  outcome (run h (generateCoreAddonsChart b) w) = Returned (Ok chart) ->
  exists kubeProxySecret caMetricsServer vpnTLSAuthSecret
         calico kubeDNS kubeProxy metricsServer vpnShoot nodeExporter,
    injectInputs (trace (run h (generateCoreAddonsChart b) w))
      = [calico; kubeDNS; kubeProxy; metricsServer; vpnShoot; nodeExporter]
    /\ Secrets b !! "kube-proxy" = Some kubeProxySecret
    /\ Secrets b !! "ca-metrics-server" = Some caMetricsServer
    /\ Secrets b !! "vpn-seed-tlsauth" = Some vpnTLSAuthSecret
    /\ kubeProxy !! "featureGates"
       = (fun proxyConfig => VBoolMap (FeatureGates proxyConfig))
           <$> Spec_Kubernetes_KubeProxy (Spec (Info (b_Shoot b)))
    /\ vpnShoot !! "diffieHellmanKey"
       = (fun secret => VBytes (Data secret !!! "dh2048.pem"))
           <$> Secrets b !! GardenRoleOpenVPNDiffieHellman
    /\ (Data kubeProxySecret !! "kubeconfig" = None ->
        kubeProxy !! "kubeconfig" = Some (VBytes []))
    /\ (Data vpnTLSAuthSecret !! "vpn.tlsauth" = None ->
        vpnShoot !! "tlsAuth" = Some (VBytes []))
    /\ (Data caMetricsServer !! DataKeyCertificateCA = None ->
        metricsServer !! "tls" = Some (VMap {[ "caBundle" := VBytes [] ]}))
    /\ calico = {[ "cloudProvider" := VString (CloudProvider (b_Shoot b)) ]}
    /\ kubeDNS = {[ "clusterDNS" :=
                      VString (ComputeClusterIP (GetServiceNetwork (b_Shoot b)) 10);
                    "domain" := VString DefaultDomain ]}
    /\ nodeExporter = ∅.
Proof.
  intros Hok.
  destruct (core_injectInputs h w b chart Hok)
    as (kp & ca & ms & tls & Hkp & Hca & Hms & Htls & Hin).
  exists kp, ca, tls, (calicoConfig b), (kubeDNSConfig b),
    (withFeatureGates b (kubeProxyConfig b kp)), (metricsServerConfig ca ms),
    (withDiffieHellmanKey b (vpnShootConfig b tls)), nodeExporterConfig.
  split; [exact Hin |]. do 3 (split; [assumption |]).
  split.
  { unfold withFeatureGates, kubeProxyConfig.
    destruct (Spec_Kubernetes_KubeProxy _); by simplify_map_eq. }
  split.
  { unfold withDiffieHellmanKey, vpnShootConfig.
    destruct (Secrets b !! GardenRoleOpenVPNDiffieHellman); by simplify_map_eq. }
  split.
  { intros Hmissing. unfold withFeatureGates, kubeProxyConfig.
    rewrite (lookup_total_missing _ _ Hmissing).
    destruct (Spec_Kubernetes_KubeProxy _); by simplify_map_eq. }
  split.
  { intros Hmissing. unfold withDiffieHellmanKey, vpnShootConfig.
    rewrite (lookup_total_missing _ _ Hmissing).
    destruct (Secrets b !! GardenRoleOpenVPNDiffieHellman); by simplify_map_eq. }
  split.
  { intros Hmissing. unfold metricsServerConfig.
    rewrite (lookup_total_missing _ _ Hmissing). by simplify_map_eq. }
  auto.
Qed.

End CoreConfigurations.

Lemma core_optional_fields_witness :
  outcome (run (clusterHandler sampleCollaborators)
             (generateCoreAddonsChart (H := sampleExternals) bareBotanist) emptyCluster)
  = Returned (Ok {| Manifests := ["shoot-core"] |})
  /\ exists kubeProxy vpnShoot,
       injectInputs (trace (run (clusterHandler sampleCollaborators)
                              (generateCoreAddonsChart (H := sampleExternals) bareBotanist)
                              emptyCluster)) !! 2%nat = Some kubeProxy
       /\ injectInputs (trace (run (clusterHandler sampleCollaborators)
                                 (generateCoreAddonsChart (H := sampleExternals) bareBotanist)
                                 emptyCluster)) !! 4%nat = Some vpnShoot
       /\ kubeProxy !! "kubeconfig" = Some (VBytes [])
       /\ kubeProxy !! "featureGates" = None
       /\ vpnShoot !! "tlsAuth" = Some (VBytes [])
       /\ vpnShoot !! "diffieHellmanKey" = None.
Proof.
  split; [vm_compute; reflexivity |].
  destruct (core_optional_fields (H := sampleExternals) (clusterHandler sampleCollaborators)
              emptyCluster bareBotanist {| Manifests := ["shoot-core"] |}
              ltac:(vm_compute; reflexivity))
    as (kp & ca & tls & calico & kubeDNS & kubeProxy & metricsServer & vpnShoot & nodeExporter
        & Hin & Hkp & _ & Htls & Hgates & Hdh & Hconfig & Hauth & _).
  exists kubeProxy, vpnShoot. rewrite Hin.
  split; [reflexivity |]. split; [reflexivity |].
  split.
  { apply Hconfig. vm_compute in Hkp. injection Hkp as <-. vm_compute. reflexivity. }
  split; [exact Hgates |].
  split.
  { apply Hauth. vm_compute in Htls. injection Htls as <-. vm_compute. reflexivity. }
  exact Hdh.
Defined.

(** ** The values handed to the renderer *)

Lemma delete_events_silent (dels : list Event) :
  Forall (fun ev => ev_is (@isDeleteDeployment) ev = true) dels ->
  injected dels = [] /\ omap ev_clusterAutoscaler dels = [].
Proof.
  intros Hdels. split; apply omap_nil_Forall; (eapply Forall_impl; [exact Hdels |]);
    intros [X op r]; by destruct op.
Qed.

Lemma unrendered (tr : list Event) :
  Forall (fun ev => ev_is (@isClientOp) ev = false /\ ev_is (@isRender) ev = false) tr ->
  renderedValues tr = [].
Proof.
  intros Hall. apply omap_nil_Forall. eapply Forall_impl; [exact Hall |].
  intros [X op r] [_ Hrender]. by destruct op.
Qed.

Section RenderedValues.
Context `{Externals} {W : Type} (h : Handler W).

(** X7: whatever the collaborators answer, the core generator calls the
    renderer at most once, and the values it then hands over have exactly
    the keys global, kube-dns, kube-proxy, vpn-shoot, calico, metrics-server
    and monitoring: global is the pod network of the shoot, composed by the
    generator and not passed through the image resolver; the others hold the
    six answers of the image resolver, as they were given, in the sections
    named after them (the last one under monitoring/node-exporter). *)
Theorem core_rendered_values (w : W) (b : HybridBotanist) :
  let r := run h (generateCoreAddonsChart b) w in
  length (renderedValues (trace r)) <= 1
  /\ Forall (fun values =>
       exists calico kubeDNS kubeProxy metricsServer vpnShoot nodeExporter,
         (snd <$> injected (trace r))
           = [calico; kubeDNS; kubeProxy; metricsServer; vpnShoot; nodeExporter]
         /\ dom values =@{gset string}
            {[ "global"; "kube-dns"; "kube-proxy"; "vpn-shoot"; "calico"; "metrics-server";
               "monitoring" ]}
         /\ values !! "global"
            = Some (VMap {[ "podNetwork" := VString (GetPodNetwork (b_Shoot b)) ]})
         /\ values !! "kube-dns" = Some (VMap kubeDNS)
         /\ values !! "kube-proxy" = Some (VMap kubeProxy)
         /\ values !! "vpn-shoot" = Some (VMap vpnShoot)
         /\ values !! "calico" = Some (VMap calico)
         /\ values !! "metrics-server" = Some (VMap metricsServer)
         /\ values !! "monitoring" = Some (VMap {[ "node-exporter" := VMap nodeExporter ]}))
       (renderedValues (trace r)).
Proof.
  cbv zeta.
  destruct (core_run_cases h w b)
    as [[Hearly _]
       | (kp & ca & ms & tls & calico & kubeDNS & kubeProxy & ms' & vpnShoot & nodeExporter
          & im1 & im2 & im3 & im4 & im5 & im6 & Hshape)].
  { rewrite (unrendered _ Hearly). split; [cbn; lia | constructor]. }
  cbv zeta in Hshape. destruct Hshape as (_ & _ & _ & _ & Htr & _ & _).
  rewrite Htr. clear Htr.
  destruct (core_rest_cases h
              (worldAfter h
                 [ Ev (InjectImages (calicoConfig b) (K8sShootClient_Version b) im1) (Ok calico);
                   Ev (InjectImages (kubeDNSConfig b) (K8sShootClient_Version b) im2) (Ok kubeDNS);
                   Ev (InjectImages (withFeatureGates b (kubeProxyConfig b kp))
                         (K8sShootClient_Version b) im3) (Ok kubeProxy);
                   Ev (InjectImages (metricsServerConfig ca ms)
                         (K8sShootClient_Version b) im4) (Ok ms');
                   Ev (InjectImages (withDiffieHellmanKey b (vpnShootConfig b tls))
                         (K8sShootClient_Version b) im5) (Ok vpnShoot);
                   Ev (InjectImages nodeExporterConfig (K8sShootClient_Version b) im6)
                      (Ok nodeExporter) ] w)
              b (coreValues (global b) kubeDNS kubeProxy vpnShoot calico ms' nodeExporter))
    as [(_ & Hrest & _) | [(vpn & err & _ & Hrest & _) | (vpn & created & answer & _ & Hrest & _)]];
    cbv zeta in Hrest; rewrite Hrest; clear Hrest.
  - split; [cbn; lia | constructor].
  - split; [cbn; lia | constructor].
  - split; [cbn; lia |].
    apply Forall_cons. split; [| constructor].
    exists calico, kubeDNS, kubeProxy, ms', vpnShoot, nodeExporter.
    split; [reflexivity |].
    split.
    { unfold coreValues. do 6 rewrite dom_insert_L. rewrite dom_singleton_L. reflexivity. }
    destruct (coreValues_sections (global b) kubeDNS kubeProxy vpnShoot calico ms' nodeExporter)
      as (Hdns & Hproxy & Hcalico & Hvpn & Hms & Hmon).
    split; [unfold coreValues, global; by simplify_map_eq |].
    auto 10.
Qed.

End RenderedValues.

Lemma optionalValues_sections clusterAutoscaler helmTiller kubeLego kube2IAM
    kubernetesDashboard monocular nginxIngress :
  let values := optionalValues clusterAutoscaler helmTiller kubeLego kube2IAM
                  kubernetesDashboard monocular nginxIngress in
  dom values =@{gset string}
    {[ "cluster-autoscaler"; "helm-tiller"; "kube-lego"; "kube2iam"; "kubernetes-dashboard";
       "monocular"; "nginx-ingress" ]}
  /\ values !! "cluster-autoscaler" = Some (VMap clusterAutoscaler)
  /\ values !! "helm-tiller" = Some (VMap helmTiller)
  /\ values !! "kube-lego" = Some (VMap kubeLego)
  /\ values !! "kube2iam" = Some (VMap kube2IAM)
  /\ values !! "kubernetes-dashboard" = Some (VMap kubernetesDashboard)
  /\ values !! "monocular" = Some (VMap monocular)
  /\ values !! "nginx-ingress" = Some (VMap nginxIngress).
Proof.
  unfold optionalValues. cbv zeta. split.
  { do 6 rewrite dom_insert_L. rewrite dom_singleton_L. reflexivity. }
  repeat split; by simplify_map_eq.
Qed.

Section OptionalRenderedValues.
Context `{Externals} {W : Type} (h : Handler W).

(** X8: whatever the collaborators answer, the optional generator calls the
    renderer at most once, and the values it then hands over have exactly
    the keys cluster-autoscaler, helm-tiller, kube-lego, kube2iam,
    kubernetes-dashboard, monocular and nginx-ingress.  The cluster-autoscaler
    section is the answer of its configuration generator as it was given: it
    is not passed through the image resolver, which was called six times;
    the other sections hold the six answers of the image resolver. *)
Theorem optional_rendered_values (w : W) (b : HybridBotanist) :
  let r := run h (generateOptionalAddonsChart b) w in
  length (renderedValues (trace r)) <= 1
  /\ Forall (fun values =>
       exists clusterAutoscaler helmTiller kubeLego kube2IAM kubernetesDashboard monocular
              nginxIngress,
         omap ev_clusterAutoscaler (trace r) = [clusterAutoscaler]
         /\ (snd <$> injected (trace r))
            = [helmTiller; kubeLego; kube2IAM; kubernetesDashboard; monocular; nginxIngress]
         /\ dom values =@{gset string}
            {[ "cluster-autoscaler"; "helm-tiller"; "kube-lego"; "kube2iam";
               "kubernetes-dashboard"; "monocular"; "nginx-ingress" ]}
         /\ values !! "cluster-autoscaler" = Some (VMap clusterAutoscaler)
         /\ values !! "helm-tiller" = Some (VMap helmTiller)
         /\ values !! "kube-lego" = Some (VMap kubeLego)
         /\ values !! "kube2iam" = Some (VMap kube2IAM)
         /\ values !! "kubernetes-dashboard" = Some (VMap kubernetesDashboard)
         /\ values !! "monocular" = Some (VMap monocular)
         /\ values !! "nginx-ingress" = Some (VMap nginxIngress))
       (renderedValues (trace r)).
Proof.
  cbv zeta.
  destruct (optional_run_cases h w b)
    as [[Hearly _]
       | (c1 & c2 & c3 & c4 & c5 & c6 & base & config & r1 & r2 & r3 & r4 & r5 & r6
          & im1 & im2 & im3 & im4 & im5 & im6 & Hshape)].
  { rewrite (unrendered _ Hearly). split; [cbn; lia | constructor]. }
  cbv zeta in Hshape. destruct Hshape as (_ & Htr & _ & _).
  rewrite Htr. clear Htr.
  set (pre := [ Ev GenerateClusterAutoscalerConfig (Ok c1);
                Ev GenerateHelmTillerConfig (Ok c2);
                Ev GenerateKubeLegoConfig (Ok c3);
                Ev GenerateKube2IAMConfig (Ok c4);
                Ev GenerateKubernetesDashboardConfig (Ok c5);
                Ev GenerateMonocularConfig (Ok c6);
                Ev GenerateNginxIngressConfig (Ok base);
                Ev (InjectImages c2 (K8sShootClient_Version b) im1) (Ok r1);
                Ev (InjectImages c3 (K8sShootClient_Version b) im2) (Ok r2);
                Ev (InjectImages c4 (K8sShootClient_Version b) im3) (Ok r3);
                Ev (InjectImages c5 (K8sShootClient_Version b) im4) (Ok r4);
                Ev (InjectImages c6 (K8sShootClient_Version b) im5) (Ok r5);
                Ev (InjectImages config (K8sShootClient_Version b) im6) (Ok r6) ]).
  assert (Hpre : renderedValues pre = [] /\ omap ev_clusterAutoscaler pre = [c1]
                 /\ injected pre = [(c2, r1); (c3, r2); (c4, r3); (c5, r4); (c6, r5);
                                    (config, r6)])
    by (repeat split; reflexivity).
  destruct Hpre as (Hprer & Hprea & Hprei).
  destruct (cleanup_run_cases h (optionalValues c1 r1 r2 r3 r4 r5 r6) (worldAfter h pre w))
    as [(err & Hrest & _)
       | (listing & dels & Hdels & [(answer & Hrest & _) | (err & Hrest & _)])];
    cbv zeta in Hrest; rewrite Hrest; clear Hrest;
    unfold renderedValues; rewrite (omap_app ev_rendered pre); fold (renderedValues pre);
    rewrite Hprer; cbn [app].
  - split; [cbn; lia | constructor].
  - destruct (delete_events_projections dels Hdels) as (_ & Hnone & _).
    destruct (delete_events_silent dels Hdels) as (Hinj & Hca).
    rewrite omap_cons_eq. cbn [ev_rendered].
    rewrite (omap_app ev_rendered dels). fold (renderedValues dels). rewrite Hnone.
    cbn [app]. rewrite omap_cons_eq. cbn [ev_rendered].
    split; [cbn; lia |].
    apply Forall_cons. split; [| constructor].
    exists c1, r1, r2, r3, r4, r5, r6.
    split.
    { rewrite (omap_app ev_clusterAutoscaler pre), Hprea, omap_cons_eq.
      cbn [ev_clusterAutoscaler]. rewrite (omap_app ev_clusterAutoscaler dels), Hca.
      reflexivity. }
    split.
    { unfold injected in *. rewrite (omap_app ev_injected pre), Hprei, omap_cons_eq.
      cbn [ev_injected]. rewrite (omap_app ev_injected dels), Hinj. reflexivity. }
    apply optionalValues_sections.
  - destruct (delete_events_projections dels Hdels) as (_ & Hnone & _).
    rewrite omap_cons_eq. cbn [ev_rendered]. fold (renderedValues dels). rewrite Hnone.
    split; [cbn; lia | constructor].
Qed.

End OptionalRenderedValues.

(** ** The overrides of the nginx-ingress configuration *)

Lemma lookupPath_cons (key key' : string) (rest : list string) (m : Values) :
  lookupPath (key :: key' :: rest) m
  = match m !! key with
    | Some (VMap inner) => lookupPath (key' :: rest) inner
    | _ => None
    end.
Proof. reflexivity. Qed.

(** A value that is not a map and that the override holds at a path is found
    at this path of the merge. *)
Lemma MergeMaps_lookupPath_override (path : list string) (a b : Values) (v : Value) :
  lookupPath path b = Some v -> (forall m, v <> VMap m) ->
  lookupPath path (MergeMaps a b) = Some v.
Proof.
  revert a b. induction path as [| key rest IH]; intros a b Hb Hleaf; [discriminate |].
  destruct rest as [| key' rest].
  - cbn [lookupPath] in *. rewrite MergeMaps_lookup_eq, Hb.
    destruct (a !! key) as [existing |]; [| reflexivity].
    destruct existing; try reflexivity.
    destruct v; try reflexivity. by destruct (Hleaf m0).
  - rewrite lookupPath_cons in Hb. rewrite lookupPath_cons, MergeMaps_lookup_eq.
    destruct (b !! key) as [inner |]; [| discriminate].
    destruct inner as [| | | | | | | | bm]; try discriminate.
    destruct (a !! key) as [existing |]; [| exact Hb].
    destruct existing as [| | | | | | | | am]; try exact Hb.
    by apply IH.
Qed.

(** A value the base holds at a path where the override holds nothing is
    found at this path of the merge. *)
Lemma MergeMaps_lookupPath_keep (path : list string) (a b : Values) (v : Value) :
  lookupPath path a = Some v -> untouched path b ->
  lookupPath path (MergeMaps a b) = Some v.
Proof.
  revert a b. induction path as [| key rest IH]; intros a b Ha Hb; [discriminate |].
  cbn [untouched] in Hb. destruct rest as [| key' rest].
  - cbn [lookupPath] in *. rewrite MergeMaps_lookup_eq.
    destruct (b !! key) as [inner |].
    + destruct inner; try done. by destruct Hb as [Hrest _].
    + rewrite Ha. by destruct v.
  - rewrite lookupPath_cons in Ha. rewrite lookupPath_cons, MergeMaps_lookup_eq.
    destruct (a !! key) as [existing |]; [| discriminate].
    destruct existing as [| | | | | | | | am]; try discriminate.
    destruct (b !! key) as [inner |]; [| exact Ha].
    destruct inner as [| | | | | | | | bm]; try done.
    destruct Hb as [_ Hb]. by apply IH.
Qed.

Section NginxOverrides.
Context `{Externals}.

(** X9: the two overrides of the nginx-ingress configuration compose.  With
    the addon enabled, the composed configuration holds the source ranges of
    the specification under controller/service/loadBalancerSourceRanges, also
    after the resource limits were merged on top for a shoot used as seed;
    it then holds the limits 500m and 1024Mi under
    controller/resources/limits; and every value of the provider's
    configuration at a path where neither override holds anything is still
    there. *)
Theorem nginx_overrides_compose (b : HybridBotanist) (base config : Values) :
  mergeNginxIngressConfig b base = Return config ->
  NginxIngressEnabled (b_Shoot b) = true ->
  exists addons nginxIngress,
    Spec_Addons (Spec (Info (b_Shoot b))) = Some addons
    /\ Addons_NginxIngress addons = Some nginxIngress
    /\ lookupPath ["controller"; "service"; "loadBalancerSourceRanges"] config
       = Some (VStrings (LoadBalancerSourceRanges nginxIngress))
    /\ (IsUsedAsSeed (Info (b_Shoot b)) = true ->
        lookupPath ["controller"; "resources"; "limits"; "cpu"] config
          = Some (VString "500m")
        /\ lookupPath ["controller"; "resources"; "limits"; "memory"] config
           = Some (VString "1024Mi"))
    /\ forall path v,
         lookupPath path base = Some v ->
         untouched path (sourceRangesOverride (LoadBalancerSourceRanges nginxIngress)) ->
         untouched path seedLimitsOverride ->
         lookupPath path config = Some v.
Proof.
  intros Hmerge Henabled. unfold mergeNginxIngressConfig in Hmerge. rewrite Henabled in Hmerge.
  destruct (Spec_Addons _) as [addons |]; cbn [deref bind] in Hmerge; [| discriminate].
  destruct (Addons_NginxIngress addons) as [nginxIngress |] eqn:Hingress;
    cbn [deref bind] in Hmerge; [| discriminate].
  exists addons, nginxIngress. split; [reflexivity |]. split; [exact Hingress |].
  assert (Hranges : lookupPath ["controller"; "service"; "loadBalancerSourceRanges"]
                      (MergeMaps base
                         (sourceRangesOverride (LoadBalancerSourceRanges nginxIngress)))
                    = Some (VStrings (LoadBalancerSourceRanges nginxIngress))).
  { apply MergeMaps_lookupPath_override; [reflexivity | discriminate]. }
  destruct (IsUsedAsSeed _); apply Return_inj in Hmerge; rewrite <- Hmerge.
  - split.
    { apply MergeMaps_lookupPath_keep; [exact Hranges |].
      cbn [untouched]. unfold seedLimitsOverride. rewrite lookup_singleton_eq.
      split; [discriminate |]. cbn [untouched]. by rewrite lookup_singleton_ne. }
    split.
    { intros _. split; (apply MergeMaps_lookupPath_override; [reflexivity | discriminate]). }
    intros path v Hbase Hsource Hseed.
    by apply MergeMaps_lookupPath_keep; [apply MergeMaps_lookupPath_keep |].
  - split; [exact Hranges |]. split; [intros [=] |].
    intros path v Hbase Hsource _. by apply MergeMaps_lookupPath_keep.
Qed.

End NginxOverrides.

Lemma nginx_overrides_compose_witness :
  mergeNginxIngressConfig (H := sampleExternals) seedIngressBotanist sampleNginxBase
  = Return (MergeMaps (MergeMaps sampleNginxBase (sourceRangesOverride ["10.0.0.0/8"]))
              seedLimitsOverride)
  /\ NginxIngressEnabled (Externals := sampleExternals) (b_Shoot seedIngressBotanist) = true
  /\ exists config,
       mergeNginxIngressConfig (H := sampleExternals) seedIngressBotanist sampleNginxBase
       = Return config
       /\ lookupPath ["controller"; "service"; "loadBalancerSourceRanges"] config
          = Some (VStrings ["10.0.0.0/8"])
       /\ lookupPath ["controller"; "service"; "type"] config = Some (VString "LoadBalancer")
       /\ lookupPath ["controller"; "resources"; "limits"; "cpu"] config
          = Some (VString "500m")
       /\ lookupPath ["controller"; "resources"; "requests"; "cpu"] config
          = Some (VString "50m")
       /\ lookupPath ["enabled"] config = Some (VBool true).
Proof.
  split; [reflexivity |]. split; [reflexivity |].
  eexists. split; [reflexivity |].
  destruct (nginx_overrides_compose (H := sampleExternals) seedIngressBotanist sampleNginxBase _
              eq_refl eq_refl)
    as (addons & nginxIngress & Haddons & Hingress & Hranges & Hlimits & Hkeep).
  injection Haddons as <-. injection Hingress as <-.
  split; [exact Hranges |].
  split.
  { apply Hkeep; [reflexivity | |]; vm_compute; intuition discriminate. }
  split; [apply (Hlimits eq_refl) |].
  split.
  { apply Hkeep; [reflexivity | |]; vm_compute; intuition discriminate. }
  apply Hkeep; [reflexivity | |]; vm_compute; intuition discriminate.
Defined.

(** ** What a generator leaves behind on the cluster *)

Lemma worldAfter_cluster (others : Collaborators) (pre : list Event) (c : Cluster) :
  Forall (fun ev => ev_is (@isClientOp) ev = false) pre ->
  worldAfter (clusterHandler others) pre c = c.
Proof.
  induction 1 as [| [X op r] pre Hop _ IH]; [reflexivity |].
  cbn [ev_is] in Hop. unfold worldAfter in *. cbn [foldl].
  by rewrite (clusterHandler_pure others op c Hop).
Qed.

(** A run without a call to the cluster client leaves the cluster as it was. *)
Lemma untouched_cluster (others : Collaborators) {A : Type} (p : Prog A) (c : Cluster) :
  Forall (fun ev => ev_is (@isClientOp) ev = false)
    (trace (run (clusterHandler others) p c)) ->
  final (run (clusterHandler others) p c) = c.
Proof.
  revert c. induction p as [a | msg | X op k IH]; intros c Htrace; [reflexivity | reflexivity |].
  cbn [run prepend trace final] in *. apply Forall_cons_1 in Htrace as [Hop Htrace].
  cbn [ev_is] in Hop. rewrite (clusterHandler_pure others op c Hop) in Htrace |- *.
  cbn [fst snd] in *. by apply IH.
Qed.

Lemma composed_not_client (pre : list Event) :
  Forall composed pre -> Forall (fun ev => ev_is (@isClientOp) ev = false) pre.
Proof. intros Hpre. eapply Forall_impl; [exact Hpre |]. by intros ev (Hclient & _). Qed.

Lemma early_not_client (tr : list Event) :
  Forall (fun ev => ev_is (@isClientOp) ev = false /\ ev_is (@isRender) ev = false) tr ->
  Forall (fun ev => ev_is (@isClientOp) ev = false) tr.
Proof. intros Htr. eapply Forall_impl; [exact Htr |]. by intros ev (Hclient & _). Qed.

(** In front of a cluster no delete stops the loop: what the rest of the
    function calls is called. *)
Lemma range_reaches_rest (others : Collaborators) {A : Type} (P : Event -> Prop) items
    (k : Prog (result A)) c :
  Exists P (trace (run (clusterHandler others) k (removeDeployments items c))) ->
  Exists P (trace (run (clusterHandler others) (rangeHeapsterDeployments items k) c)).
Proof.
  revert c. induction items as [| deployment rest IH]; intros c; [done |].
  rewrite removeDeployments_cons. intros Hrest. apply IH in Hrest.
  cbn [rangeHeapsterDeployments run prepend trace clusterHandler].
  apply Exists_cons_tl. unfold deleteDeployment in *.
  by destruct (deployments c !! (NamespaceSystem, Name deployment)).
Qed.

Lemma cleanup_reaches_rest (others : Collaborators) {A : Type} (P : Event -> Prop)
    (k : Prog (result A)) c :
  Exists P (trace (run (clusterHandler others) k
                     (removeDeployments
                        (listDeployments NamespaceSystem (LabelSelector heapsterListOptions) c)
                        c))) ->
  Exists P (trace (run (clusterHandler others) (cleanupHeapster k) c)).
Proof.
  intros Hrest. unfold cleanupHeapster. rewrite run_try_eq.
  cbn [clusterHandler fst snd prepend trace Items].
  by apply Exists_cons_tl, range_reaches_rest.
Qed.

Section OnTheCluster.
Context `{Externals} (others : Collaborators).

(** X10: the cleanup of the optional generator is not undone.  In front of
    a cluster, once the generator gets to the cluster client every
    deployment of the system namespace that matches the heapster selector
    is deleted, one delete call for each, and none matches afterwards,
    whether the rendering that follows succeeds or fails; the secrets and
    the applied objects of the cluster stay as they are.  A run that does
    not get that far leaves the cluster untouched and hands back no chart. *)
Theorem optional_cleanup_persists (b : HybridBotanist) (c : Cluster) :
  let r := run (clusterHandler others) (generateOptionalAddonsChart b) c in
  let items := listDeployments NamespaceSystem (LabelSelector heapsterListOptions) c in
  (Exists clientOrRender (trace r) ->
     final r = removeDeployments items c
     /\ deletions (trace r) = Name <$> items
     /\ listDeployments NamespaceSystem (LabelSelector heapsterListOptions) (final r) = []
     /\ secrets (final r) = secrets c
     /\ objects (final r) = objects c
     /\ Exists (fun ev => ev_is (@isRender) ev = true) (trace r))
  /\ (~ Exists clientOrRender (trace r) -> final r = c /\ chart_of (outcome r) = None).
Proof.
  cbv zeta.
  destruct (optional_run_split (clusterHandler others) c b)
    as [[Hearly Hnone] | (pre & values & Hsplit)].
  { split; [intros Hex; by destruct (not_clientOrRender _ Hearly) |].
    intros _. split; [| exact Hnone]. apply untouched_cluster, early_not_client, Hearly. }
  cbv zeta in Hsplit. destruct Hsplit as (_ & Hpre & Htr & _ & Hfinal).
  rewrite (worldAfter_cluster others pre c (composed_not_client pre Hpre)) in Htr, Hfinal.
  destruct (cleanup_on_cluster others
              (Call (Render (filepath_Join ChartPath "shoot-addons") "addons" NamespaceSystem
                       values) Return) c) as (_ & Hrest & Hdel).
  cbv zeta in Hrest, Hdel. rewrite run_Call_Return in Hrest, Hdel.
  cbn [final trace clusterHandler snd] in Hrest, Hdel.
  destruct (composed_projections pre Hpre) as (Hpredel & _ & _ & _).
  assert (Hrender : Exists (fun ev => ev_is (@isRender) ev = true)
                      (trace (run (clusterHandler others)
                                (cleanupHeapster
                                   (Call (Render (filepath_Join ChartPath "shoot-addons")
                                            "addons" NamespaceSystem values) Return)) c))).
  { apply cleanup_reaches_rest. rewrite run_Call_Return. cbn [trace].
    by apply Exists_cons_hd. }
  split.
  - intros _. rewrite Hfinal, Hrest, Htr.
    split; [reflexivity |].
    split.
    { unfold deletions in *. rewrite (omap_app ev_deleted pre), Hpredel, Hdel.
      cbn. by rewrite app_nil_r. }
    split; [apply listing_after_cleanup |].
    destruct (removeDeployments_frame
                (listDeployments NamespaceSystem (LabelSelector heapsterListOptions) c) c)
      as [Hsecrets Hobjects].
    split; [exact Hsecrets |]. split; [exact Hobjects |].
    apply Exists_app. by right.
  - intros Hno. exfalso. apply Hno. rewrite Htr. apply Exists_app. right.
    eapply Exists_impl; [exact Hrender |]. intros ev Hev. by right.
Qed.

End OnTheCluster.

Section CoreOnTheCluster.
Context `{Externals} (others : Collaborators).

(** X11: the secret written by the core generator is not undone.  In front
    of a cluster, once the generator gets past the image resolutions the
    cluster holds the data of the bundle's vpn-shoot secret as the opaque
    secret vpn-shoot of the system namespace, whether it was there before
    or not and whether the rendering that follows succeeds or fails; the
    write never fails, so the renderer is called; the deployments, the
    applied objects and the other secrets stay as they are.  A run that
    does not get that far leaves the cluster untouched and hands back no
    chart. *)
Theorem core_secret_persists (b : HybridBotanist) (c : Cluster) :
  let r := run (clusterHandler others) (generateCoreAddonsChart b) c in
  (Exists clientOrRender (trace r) ->
     exists vpnShootSecret,
       Secrets b !! "vpn-shoot" = Some vpnShootSecret
       /\ secrets (final r) !! (NamespaceSystem, "vpn-shoot")
          = Some (SecretTypeOpaque, Data vpnShootSecret)
       /\ (forall key, key <> (NamespaceSystem, "vpn-shoot") ->
             secrets (final r) !! key = secrets c !! key)
       /\ deployments (final r) = deployments c
       /\ objects (final r) = objects c
       /\ Exists (fun ev => ev_is (@isRender) ev = true) (trace r))
  /\ (~ Exists clientOrRender (trace r) -> final r = c /\ chart_of (outcome r) = None).
Proof.
  cbv zeta.
  destruct (core_run_cases (clusterHandler others) c b)
    as [[Hearly Hnone]
       | (kp & ca & ms & tls & calico & kubeDNS & kubeProxy & ms' & vpnShoot & nodeExporter
          & im1 & im2 & im3 & im4 & im5 & im6 & Hshape)].
  { split; [intros Hex; by destruct (not_clientOrRender _ Hearly) |].
    intros _. split; [| exact Hnone]. apply untouched_cluster, early_not_client, Hearly. }
  cbv zeta in Hshape. destruct Hshape as (_ & _ & _ & _ & Htr & Hout & Hfinal).
  rewrite worldAfter_cluster in Htr, Hout, Hfinal
    by (repeat (constructor; [reflexivity |]); constructor).
  rewrite Htr, Hout, Hfinal. clear Htr Hout Hfinal.
  destruct (Secrets b !! "vpn-shoot") as [vpn |]; cbn [deref bind run trace outcome final].
  - rewrite run_try_eq. cbn [clusterHandler].
    destruct (createSecret_twice NamespaceSystem "vpn-shoot" SecretTypeOpaque (Data vpn) c)
      as (Hcreated & _).
    rewrite Hcreated. rewrite run_Call_Return. cbn [prepend trace final clusterHandler snd].
    split.
    + intros _. exists vpn. split; [reflexivity |].
      unfold createSecret.
      destruct (secrets c !! (NamespaceSystem, "vpn-shoot")); cbn [snd secrets deployments objects];
        (split; [by rewrite lookup_insert_eq |]);
        (split; [intros key Hkey; by rewrite lookup_insert_ne |]);
        (split; [reflexivity |]); (split; [reflexivity |]);
        apply Exists_app; right; apply Exists_cons_tl, Exists_cons_hd; reflexivity.
    + intros Hno. exfalso. apply Hno. apply Exists_app. right. apply Exists_cons_hd.
      by left.
  - rewrite app_nil_r. split.
    + intros Hex. exfalso. revert Hex. apply Forall_not_Exists with
        (P := fun ev => ev_is (@isClientOp) ev = false /\ ev_is (@isRender) ev = false).
      * repeat (constructor; [split; reflexivity |]). constructor.
      * intros ev [Hclient Hrender] [Hc | Hr]; congruence.
    + intros _. split; reflexivity.
Qed.

End CoreOnTheCluster.

(** ** What the generators read of the bundle *)

Section ReadSet.
Context `{Externals}.

(** X12: what the generators read.  Two bundles with the same shoot and the
    same cluster version give the same optional and the same admission
    program; if they also agree on the five secrets the core chart needs, on
    the Diffie-Hellman secret and on the checksums of kube-proxy and
    vpn-shoot, they give the same core program, whatever their other secrets
    and checksums are: in particular the checksums of the metrics-server
    secrets and of vpn-seed-tlsauth are never read. *)
Theorem generators_read_only (b1 b2 : HybridBotanist) :
  b_Shoot b1 = b_Shoot b2 ->
  K8sShootClient_Version b1 = K8sShootClient_Version b2 ->
  generateOptionalAddonsChart b1 = generateOptionalAddonsChart b2
  /\ generateAdmissionControlsChart b1 = generateAdmissionControlsChart b2
  /\ ((forall name, name ∈ GardenRoleOpenVPNDiffieHellman :: requiredSecrets ->
         Secrets b1 !! name = Secrets b2 !! name) ->
      (forall name, name ∈ ["kube-proxy"; "vpn-shoot"] ->
         CheckSums b1 !!! name = CheckSums b2 !!! name) ->
      generateCoreAddonsChart b1 = generateCoreAddonsChart b2).
Proof.
  intros Hshoot Hversion. split; [| split].
  - unfold generateOptionalAddonsChart, mergeNginxIngressConfig. by rewrite Hshoot, Hversion.
  - reflexivity.
  - intros Hsecrets Hsums.
    assert (Hdh : Secrets b1 !! GardenRoleOpenVPNDiffieHellman
                  = Secrets b2 !! GardenRoleOpenVPNDiffieHellman)
      by (apply Hsecrets; set_solver).
    assert (Hkp : Secrets b1 !! "kube-proxy" = Secrets b2 !! "kube-proxy")
      by (apply Hsecrets; unfold requiredSecrets; set_solver).
    assert (Hca : Secrets b1 !! "ca-metrics-server" = Secrets b2 !! "ca-metrics-server")
      by (apply Hsecrets; unfold requiredSecrets; set_solver).
    assert (Hms : Secrets b1 !! "metrics-server" = Secrets b2 !! "metrics-server")
      by (apply Hsecrets; unfold requiredSecrets; set_solver).
    assert (Htls : Secrets b1 !! "vpn-seed-tlsauth" = Secrets b2 !! "vpn-seed-tlsauth")
      by (apply Hsecrets; unfold requiredSecrets; set_solver).
    assert (Hvpn : Secrets b1 !! "vpn-shoot" = Secrets b2 !! "vpn-shoot")
      by (apply Hsecrets; unfold requiredSecrets; set_solver).
    assert (Hsum1 : CheckSums b1 !!! "kube-proxy" = CheckSums b2 !!! "kube-proxy")
      by (apply Hsums; set_solver).
    assert (Hsum2 : CheckSums b1 !!! "vpn-shoot" = CheckSums b2 !!! "vpn-shoot")
      by (apply Hsums; set_solver).
    unfold generateCoreAddonsChart, global, calicoConfig, kubeDNSConfig, kubeProxyConfig,
      vpnShootConfig, withFeatureGates, withDiffieHellmanKey.
    cbv zeta.
    by rewrite Hshoot, Hversion, Hdh, Hkp, Hca, Hms, Htls, Hvpn, Hsum1, Hsum2.
Qed.

End ReadSet.

Lemma generators_read_only_witness :
  b_Shoot sampleBotanist = b_Shoot restampedBotanist
  /\ CheckSums sampleBotanist !! "metrics-server" = Some "17aa"
  /\ CheckSums restampedBotanist !! "metrics-server" = Some "ffff"
  /\ Secrets sampleBotanist !! "etcd-server-tls" = None
  /\ Secrets restampedBotanist !! "etcd-server-tls" = Some (secretOf [("tls.crt", "etcd-crt")])
  /\ generateCoreAddonsChart (H := sampleExternals) sampleBotanist
     = generateCoreAddonsChart (H := sampleExternals) restampedBotanist.
Proof.
  split; [reflexivity |]. split; [reflexivity |]. split; [reflexivity |].
  split; [reflexivity |]. split; [reflexivity |].
  destruct (generators_read_only (H := sampleExternals) sampleBotanist restampedBotanist
              eq_refl eq_refl) as (_ & _ & Hcore).
  apply Hcore.
  - intros name Hin. unfold requiredSecrets in Hin.
    repeat (apply elem_of_cons in Hin as [-> | Hin]; [vm_compute; reflexivity |]).
    by apply elem_of_nil in Hin.
  - intros name Hin.
    repeat (apply elem_of_cons in Hin as [-> | Hin]; [vm_compute; reflexivity |]).
    by apply elem_of_nil in Hin.
Defined.

(** ** Where the core generator meets a missing secret *)

(** The branch of a failed image resolution. *)
Ltac resolver_failed :=
  split; [repeat constructor |]; split; [reflexivity |];
  split;
  [ split; [discriminate |];
    intros [Hlen Hall]; cbn in Hlen; try discriminate Hlen;
    repeat (apply Forall_cons_1 in Hall as [? Hall]); discriminate
  | split; [intros _; eexists; split; reflexivity | reflexivity] ].

Section MissingSecrets.
Context `{Externals} {W : Type} (h : Handler W).

(** X13: where a missing secret stops the core generator.  Without one of
    kube-proxy, ca-metrics-server, metrics-server or vpn-seed-tlsauth the
    generator fails on the missing secret before it calls anything.  With
    these four but without vpn-shoot it calls the image resolver only, never
    the cluster client or the renderer, and hands back no chart: it fails on
    the missing secret exactly when all six image resolutions succeeded,
    and hands back the resolver's error otherwise. *)
Theorem core_missing_secret (w : W) (b : HybridBotanist) :
  let r := run h (generateCoreAddonsChart b) w in
  (Exists (fun name => Secrets b !! name = None)
     ["kube-proxy"; "ca-metrics-server"; "metrics-server"; "vpn-seed-tlsauth"] ->
   panicked (outcome r) = true /\ trace r = [])
  /\ (Forall (fun name => is_Some (Secrets b !! name))
        ["kube-proxy"; "ca-metrics-server"; "metrics-server"; "vpn-seed-tlsauth"] ->
      Secrets b !! "vpn-shoot" = None ->
      Forall (fun ev => ev_is (@isInjectImages) ev = true) (trace r)
      /\ chart_of (outcome r) = None
      /\ (panicked (outcome r) = true
          <-> length (trace r) = 6 /\ Forall (fun ev => ev_error ev = None) (trace r))
      /\ (panicked (outcome r) = false
          <-> exists err, error_of (outcome r) = Some err
                          /\ ev_error <$> last (trace r) = Some (Some err))).
Proof.
  cbv zeta. split.
  - intros Hmissing. apply core_panics_at_once.
    rewrite !Exists_cons, Exists_nil in Hmissing. tauto.
  - intros Hpresent Hvpn.
    rewrite !Forall_cons in Hpresent.
    destruct Hpresent as ([kp Hkp] & [ca Hca] & [ms Hms] & [tls Htls] & _).
    unfold generateCoreAddonsChart. rewrite Hkp, Hca, Hms, Htls, Hvpn. cbn [deref bind].
    run_step calico w1; [| resolver_failed].
    run_step kubeDNS w2; [| resolver_failed].
    run_step kubeProxy w3; [| resolver_failed].
    run_step metricsServer' w4; [| resolver_failed].
    run_step vpnShoot w5; [| resolver_failed].
    run_step nodeExporter w6; [| resolver_failed].
    cbn [run outcome trace].
    split; [repeat constructor |]. split; [reflexivity |].
    split.
    + split; [intros _ | reflexivity]. split; [reflexivity | repeat constructor].
    + split; [discriminate |]. intros (err & Herr & _). discriminate Herr.
Qed.

End MissingSecrets.

(** ** The admission controls *)

Section AdmissionControls.
Context `{Externals} {W : Type} (h : Handler W).

(** X14: the admission generator needs nothing of the bundle and never
    fails on a missing value; it calls the renderer at most once, after the
    provider answered its one request without an error, and the values it
    hands over are the provider's configuration as it was answered. *)
Theorem admission_rendered_values (w : W) (b : HybridBotanist) :
  let r := run h (generateAdmissionControlsChart b) w in
  panicked (outcome r) = false
  /\ length (trace r) <= 2
  /\ length (renderedValues (trace r)) <= 1
  /\ Forall (fun values => omap ev_admissionConfig (trace r) = [values])
       (renderedValues (trace r))
  /\ (Exists (fun ev => ev_error ev <> None) (take 1 (trace r)) ->
      renderedValues (trace r) = [] /\ chart_of (outcome r) = None).
Proof.
  cbv zeta. unfold generateAdmissionControlsChart.
  run_step config w1.
  - rewrite run_Call_Return. cbn [outcome trace].
    split; [reflexivity |]. split; [cbn; lia |]. split; [cbn; lia |].
    split; [by repeat constructor |].
    intros Hex. apply Exists_cons in Hex as [Herr | Hex]; [by destruct Herr |].
    by apply Exists_nil in Hex.
  - split; [reflexivity |]. split; [cbn; lia |]. split; [cbn; lia |].
    split; [constructor |]. intros _. split; reflexivity.
Qed.

End AdmissionControls.
